(** * Electrochem-Automation: script encoder, serial measurement runner, queue

    A shallow embedding of the two Python sources of the repository,
    [run_measurement_serial.py] (class [SerialMeasurementRunner]) and
    [gui_script.py] (class [ElectrochemGUI]), and the properties of the
    value decoder, the response-line parser, the receive loop, the
    MethodSCRIPT encoders and the queue worker.

    Python [float] is IEEE-754 binary64, modelled by [spec_float] with
    [prec = 53] and [emax = 1024] and round-to-nearest-even operations.
    Python [str] is modelled by [string]; every [ascii] stands for one code
    point below 256. *)

From Stdlib Require Import ZArith List String Ascii Bool Lia.
From Stdlib Require Import Floats.SpecFloat Numbers.DecimalString.
From Stdlib Require Numbers.DecimalPos Numbers.DecimalZ.
Import ListNotations.

Open Scope string_scope.
Open Scope Z_scope.

(** ** Python built-ins used by the sources *)
Module Py.

(** Exceptions the modelled code can raise. *)
Inductive exn : Type :=
| ValueError_float (text : string)   (* could not convert string to float *)
| ValueError_int (text : string)     (* invalid literal for int() *)
| ValueError_nan                     (* cannot convert float NaN to integer *)
| OverflowError_inf                  (* cannot convert float infinity *)
| TypeError_not_callable             (* 'bool' object is not callable *)
| KeyError (key : string)
| OtherError (what : string).

(** Outcome of a Python call: a value or a raised exception. *)
Inductive result (A : Type) : Type :=
| Ok (a : A)
| Raise (e : exn).
Arguments Ok {A} a.
Arguments Raise {A} e.

Definition bind {A B : Type} (r : result A) (k : A -> result B) : result B :=
  match r with
  | Ok a => k a
  | Raise e => Raise e
  end.

Notation "x <- r ;; k" := (bind r (fun x => k))
  (at level 61, r at next level, right associativity).

(** *** str *)

Definition chars (s : string) : list ascii := list_ascii_of_string s.
Definition str_of (l : list ascii) : string := string_of_list_ascii l.

Definition code (c : ascii) : N := N_of_ascii c.

(** [s.startswith(p)] *)
Definition startswith (s p : string) : bool := String.prefix p s.

(** [s.endswith(p)] *)
Definition endswith (s p : string) : bool :=
  let n := String.length s in
  let k := String.length p in
  (k <=? n)%nat && String.eqb (String.substring (n - k) k s) p.

(** [s[k:]] for a non-negative literal [k] *)
Definition drop (k : nat) (s : string) : string :=
  String.substring k (String.length s - k) s.

(** [s[:-k]] for [k > 0] *)
Definition drop_last (k : nat) (s : string) : string :=
  String.substring 0 (String.length s - k) s.

(** Code points below 256 for which [str.isspace] holds. *)
Definition is_space (c : ascii) : bool :=
  let n := code c in
  ((9 <=? n) && (n <=? 13) || (28 <=? n) && (n <=? 32)
   || (n =? 133) || (n =? 160))%N.

(** The white space [float] and [int] accept around a number: the
    separators 28 to 31 are not part of it. *)
Definition is_numeric_space (c : ascii) : bool :=
  let n := code c in
  ((9 <=? n) && (n <=? 13) || (n =? 32) || (n =? 133) || (n =? 160))%N.

Fixpoint lstrip_chars (space : ascii -> bool) (l : list ascii) : list ascii :=
  match l with
  | c :: l' => if space c then lstrip_chars space l' else l
  | [] => []
  end.

Definition strip_chars (space : ascii -> bool) (l : list ascii) : list ascii :=
  rev (lstrip_chars space (rev (lstrip_chars space l))).

(** [s.strip()] *)
Definition strip (s : string) : string :=
  str_of (strip_chars is_space (chars s)).

(** [c.lower()] on code points below 256. *)
Definition lower_char (c : ascii) : ascii :=
  let n := code c in
  if ((65 <=? n) && (n <=? 90)
      || (192 <=? n) && (n <=? 222) && negb (n =? 215))%N
  then ascii_of_N (n + 32) else c.

Fixpoint lower (s : string) : string :=
  match s with
  | EmptyString => EmptyString
  | String c s' => String (lower_char c) (lower s')
  end.

(** [sub in s] *)
Fixpoint contains (s sub : string) : bool :=
  String.prefix sub s ||
  match s with
  | EmptyString => false
  | String _ s' => contains s' sub
  end.

(** [s.split(sep)] for a one-character separator. *)
Fixpoint split (sep : ascii) (s : string) : list string :=
  match s with
  | EmptyString => [EmptyString]
  | String c s' =>
      let r := split sep s' in
      if Ascii.eqb c sep then EmptyString :: r
      else match r with
           | h :: t => String c h :: t
           | [] => [String c EmptyString]
           end
  end.

(** [str(z)] for an int. *)
Definition str_of_int (z : Z) : string := NilZero.string_of_int (Z.to_int z).

(** *** float: binary64 *)

Definition float : Type := spec_float.

Definition prec : Z := 53.
Definition emax : Z := 1024.

Definition fmul : float -> float -> float := SFmul prec emax.
Definition fdiv : float -> float -> float := SFdiv prec emax.
Definition fadd : float -> float -> float := SFadd prec emax.
Definition fsub : float -> float -> float := SFsub prec emax.
Definition flt : float -> float -> bool := SFltb.
Definition feq : float -> float -> bool := SFeqb.

(** The binary64 nearest to [(-1)^s * m * 10^e] (ties to even): what a
    decimal literal or [float(text)] evaluates to. *)
Definition of_decimal (s : bool) (m : Z) (e : Z) : float :=
  match m with
  | Zpos p =>
      match e with
      | Zneg k =>
          SFdiv prec emax (S754_finite s p 0)
                (S754_finite false (Pos.pow 10 k) 0)
      | _ => binary_normalize prec emax (cond_Zopp s (Zpos p * 10 ^ e)) 0 s
      end
  | _ => S754_zero s
  end.

Definition is_digit (c : ascii) : bool :=
  ((48 <=? code c) && (code c <=? 57))%N.

Definition digit_val (c : ascii) : Z := Z.of_N (code c) - 48.

Definition digits_val (ds : list ascii) : Z :=
  fold_left (fun acc c => 10 * acc + digit_val c) ds 0.

Fixpoint span_digits (l : list ascii) : list ascii * list ascii :=
  match l with
  | c :: l' =>
      if is_digit c then let (ds, r) := span_digits l' in (c :: ds, r)
      else ([], l)
  | [] => ([], [])
  end.

Definition underscore : ascii := "_"%char.

(** Numeric literals may carry single underscores, each between two digits;
    they are removed before the number is read. *)
Fixpoint drop_underscores (prev : option ascii) (l : list ascii)
  : option (list ascii) :=
  match l with
  | [] =>
      match prev with
      | Some p => if Ascii.eqb p underscore then None else Some []
      | None => Some []
      end
  | c :: l' =>
      if Ascii.eqb c underscore then
        match prev with
        | Some p => if is_digit p then drop_underscores (Some c) l' else None
        | None => None
        end
      else
        let after_underscore :=
          match prev with
          | Some p => Ascii.eqb p underscore
          | None => false
          end in
        if after_underscore && negb (is_digit c) then None
        else option_map (cons c) (drop_underscores (Some c) l')
  end.

Definition read_sign (l : list ascii) : bool * list ascii :=
  match l with
  | c :: l' =>
      if Ascii.eqb c "-"%char then (true, l')
      else if Ascii.eqb c "+"%char then (false, l')
      else (false, l)
  | [] => (false, [])
  end.

(** Optional exponent part: consumed only when [e]/[E] is followed by an
    optionally signed, non-empty run of digits. *)
Definition read_exponent (l : list ascii) : Z * list ascii :=
  match l with
  | c :: l' =>
      if Ascii.eqb (lower_char c) "e"%char then
        let (neg, l2) := read_sign l' in
        let (ds, r) := span_digits l2 in
        match ds with
        | [] => (0, l)
        | _ => (cond_Zopp neg (digits_val ds), r)
        end
      else (0, l)
  | [] => (0, [])
  end.

Definition read_decimal (s : bool) (l : list ascii) : option float :=
  let (ip, r1) := span_digits l in
  let (fp, r2) :=
    match r1 with
    | c :: r1' => if Ascii.eqb c "."%char then span_digits r1' else ([], r1)
    | [] => ([], [])
    end in
  match (ip ++ fp)%list with
  | [] => None
  | ds =>
      let (ex, r3) := read_exponent r2 in
      match r3 with
      | [] => Some (of_decimal s (digits_val ds)
                               (ex - Z.of_nat (List.length fp)))
      | _ => None
      end
  end.

(** [float(text)]: [None] stands for the [ValueError] it raises. *)
Definition float_of_string (text : string) : option float :=
  match drop_underscores None (strip_chars is_numeric_space (chars text)) with
  | None => None
  | Some l =>
      let (s, body) := read_sign l in
      let word := lower (str_of body) in
      if String.eqb word "inf" || String.eqb word "infinity"
      then Some (S754_infinity s)
      else if String.eqb word "nan" then Some S754_nan
      else read_decimal s body
  end.

Definition py_float (text : string) : result float :=
  match float_of_string text with
  | Some x => Ok x
  | None => Raise (ValueError_float text)
  end.

(** [int(text)] in base 10: [None] stands for the [ValueError]. The
    interpreter's limit on the number of digits is not modelled. *)
Definition int_of_string (text : string) : option Z :=
  match drop_underscores None (strip_chars is_numeric_space (chars text)) with
  | None => None
  | Some l =>
      let (s, body) := read_sign l in
      match span_digits body with
      | ((_ :: _) as ds, []) => Some (cond_Zopp s (digits_val ds))
      | _ => None
      end
  end.

Definition py_int (text : string) : result Z :=
  match int_of_string text with
  | Some z => Ok z
  | None => Raise (ValueError_int text)
  end.

(** [int(x)] for a float: the integer part, the fraction discarded. *)
Definition int_of_float (x : float) : result Z :=
  match x with
  | S754_zero _ => Ok 0
  | S754_nan => Raise ValueError_nan
  | S754_infinity _ => Raise OverflowError_inf
  | S754_finite s m e =>
      Ok (cond_Zopp s (match e with
                       | Zneg k => Z.shiftr (Zpos m) (Zpos k)
                       | _ => Z.shiftl (Zpos m) e
                       end))
  end.

(** [min(a, b)] and [max(a, b)]: the first argument unless the second
    compares strictly below (above) it. *)
Definition fmin (a b : float) : float := if flt b a then b else a.
Definition fmax (a b : float) : float := if flt a b then b else a.

(** [float(z)] for a small int literal. *)
Definition of_int (z : Z) : float := binary_normalize prec emax z 0 false.

End Py.

(** ** run_measurement_serial.py: class SerialMeasurementRunner

    The serial port and the console are the environment of the runner:
    what the port answers is given by a [device], what the runner writes,
    prints and closes is appended to a trace. Delays ([time.sleep]) and the
    directories created by [__init__] are left out. *)
Module Runner.
Import Py.

(** The float literals of the source, correctly rounded to binary64. *)
Definition f_1e_9 : float := Eval vm_compute in of_decimal false 1 (-9).
Definition f_1e_6 : float := Eval vm_compute in of_decimal false 1 (-6).
Definition f_1e_3 : float := Eval vm_compute in of_decimal false 1 (-3).
Definition f_1 : float := Eval vm_compute in of_int 1.
Definition f_1e3 : float := Eval vm_compute in of_decimal false 1 3.
Definition f_1e6 : float := Eval vm_compute in of_decimal false 1 6.
Definition f_1000 : float := Eval vm_compute in of_decimal false 1000 0.
Definition f_0 : float := S754_zero false.

(** The dict literal of [parse_value]; a Python dict is iterated in insertion
    order, so the list order is the order of the literal. *)
Definition multipliers : list (string * float) :=
  [("n", f_1e_9); ("u", f_1e_6); ("m", f_1e_3);
   ("", f_1); ("k", f_1e3); ("M", f_1e6)].

(** [try: return e  except: return 0.0] *)
Definition or_zero (r : result float) : float :=
  match r with
  | Ok x => x
  | Raise _ => f_0
  end.

(** The loop [for suffix in multipliers] of [parse_value], followed by the
    direct conversion after it. *)
Fixpoint find_suffix (ms : list (string * float)) (text : string) : float :=
  match ms with
  | (suffix, mult) :: rest =>
      if endswith text suffix then
        let number :=
          match suffix with
          | EmptyString => text
          | _ => drop_last (String.length suffix) text
          end in
        or_zero (x <- py_float number ;; Ok (fmul x mult))
      else find_suffix rest text
  | [] => or_zero (py_float text)
  end.

Definition parse_value (text : string) : result float :=
  if contains (lower text) "e" then py_float text
  else Ok (find_suffix multipliers text).

(** The dict [data_point] of [parse_data_line]: only the keys ['potential']
    and ['current'] are ever assigned, [None] is an absent key. *)
Record data_point : Type := {
  potential : option float;
  current : option float
}.

Definition empty_point : data_point :=
  {| potential := None; current := None |}.

(** One round of [for part in parts]. *)
Definition parse_part (dp : data_point) (part : string) : result data_point :=
  if startswith part "P" then
    value <- parse_value (drop 1 part) ;;
    Ok {| potential := Some (fdiv value f_1000); current := current dp |}
  else if startswith part "DA" || startswith part "BA" then
    if startswith part "DA" then
      value <- parse_value (drop 2 part) ;;
      Ok {| potential := potential dp; current := Some (fmul value f_1e6) |}
    else Ok dp
  else Ok dp.

Fixpoint parse_parts (dp : data_point) (parts : list string)
  : result data_point :=
  match parts with
  | [] => Ok dp
  | part :: rest => dp' <- parse_part dp part ;; parse_parts dp' rest
  end.

Definition has_key {A : Type} (o : option A) : bool :=
  match o with
  | Some _ => true
  | None => false
  end.

(** [parse_data_line]: the new value of [self.data_points]. Whatever is
    raised inside is swallowed by [except Exception: pass]. *)
Definition parse_data_line (data_points : list data_point) (line : string)
  : list data_point :=
  match parse_parts empty_point (split ";" line) with
  | Ok dp =>
      if has_key (potential dp) && has_key (current dp)
      then (data_points ++ [dp])%list
      else data_points
  | Raise _ => data_points
  end.

(** *** The serial transport and the console, as seen by the runner *)

(** What one call of [self.connection.readline()] does. [Line raw] is a
    non-empty read whose bytes decode (utf-8, errors ignored) to [raw];
    [Silence] is the empty read of a poll that timed out. *)
Inductive read_event : Type :=
| Line (raw : string)
| Silence
| TimeoutException
| ReadFailure.

Inductive connect_outcome : Type :=
| NoDevice          (* find_device_port returned None *)
| OpenFailed        (* serial.Serial(...) raised *)
| ProbeFailed       (* the port opened, the probe raised *)
| NoReply           (* the probe was answered by an empty read *)
| Reply.            (* the probe was answered *)

Record device : Type := {
  connecting : connect_outcome;
  reads : nat -> read_event;       (* the n-th readline of the receive loop *)
  write_ok : nat -> bool;          (* the n-th write of run_script returns *)
  close_ok : bool                  (* connection.close() returns *)
}.

Inductive event : Type :=
| Print (msg : string)
| Write (bytes : string)
| Close.

(** The fields of the runner that the modelled methods read or assign.
    [save_data] is the instance attribute assigned in [__init__]: it hides
    the method of the same name on every instance. *)
Record runner : Type := {
  save_data : bool;
  data_points : list data_point;
  connection : bool;               (* [self.connection] is not None *)
  polls : nat;                     (* readline calls made by the loop *)
  trace : list event
}.

Definition emit (e : event) (r : runner) : runner :=
  {| save_data := save_data r; data_points := data_points r;
     connection := connection r; polls := polls r;
     trace := (trace r ++ [e])%list |}.

Definition set_points (dps : list data_point) (r : runner) : runner :=
  {| save_data := save_data r; data_points := dps;
     connection := connection r; polls := polls r; trace := trace r |}.

Definition set_connection (b : bool) (r : runner) : runner :=
  {| save_data := save_data r; data_points := data_points r;
     connection := b; polls := polls r; trace := trace r |}.

Definition polled (r : runner) : runner :=
  {| save_data := save_data r; data_points := data_points r;
     connection := connection r; polls := S (polls r); trace := trace r |}.

(** [__init__(script_path, save_data=True)] *)
Definition init (save_data : bool) : runner :=
  {| save_data := save_data; data_points := []; connection := false;
     polls := 0; trace := [] |}.

(** [connect()]: whether it returns True. *)
Definition connect (dev : device) (r : runner) : bool * runner :=
  match connecting dev with
  | NoDevice => (false, r)
  | OpenFailed => (false, r)
  | ProbeFailed => (false, set_connection true r)
  | NoReply => (false, set_connection true r)
  | Reply => (true, set_connection true r)
  end.

Definition max_timeout : nat := 600.

(** How the [while] loop of [run_script] was left. *)
Inductive loop_exit : Type :=
| Completed         (* break on an end marker *)
| Aborted           (* break on a device error that mentions abort *)
| TimedOut          (* the condition timeout_counter < max_timeout failed *)
| Crashed.          (* readline raised something else *)

Definition end_markers : list string :=
  ["*"; "Measurement completed"; "Script completed"].

Definition is_end_marker (text : string) : bool :=
  existsb (String.eqb text) end_markers.

Definition newline : string := String (ascii_of_N 10) EmptyString.

(** The receive loop. [fuel] bounds the number of rounds; [None] means the
    loop is still running when the fuel is spent. *)
Fixpoint receive (dev : device) (fuel : nat) (timeout_counter : nat)
  (r : runner) : option (loop_exit * nat * runner) :=
  if (max_timeout <=? timeout_counter)%nat then
    Some (TimedOut, timeout_counter, r)
  else
    match fuel with
    | O => None
    | S fuel' =>
        let r1 := polled r in
        match reads dev (polls r) with
        | Silence => receive dev fuel' (S timeout_counter) r1
        | TimeoutException => receive dev fuel' (S timeout_counter) r1
        | ReadFailure => Some (Crashed, timeout_counter, r1)
        | Line raw =>
            let text := strip raw in
            match text with
            | EmptyString => receive dev fuel' timeout_counter r1
            | _ =>
                let r2 := emit (Print text) r1 in
                let r3 :=
                  if startswith text "P"
                  then set_points (parse_data_line (data_points r2) text) r2
                  else r2 in
                if is_end_marker text then
                  Some (Completed, timeout_counter,
                        emit (Print (newline ++ "Measurement completed")) r3)
                else if startswith text "!" then
                  let r4 := emit (Print ("Device error: " ++ text)) r3 in
                  if contains (lower text) "abort"
                  then Some (Aborted, timeout_counter, r4)
                  else receive dev fuel' 0 r4
                else receive dev fuel' 0 r3
            end
        end
    end.

(** Sending the script: one write per line, then the empty line. The result
    is false when a write raised. *)
Fixpoint send_lines (dev : device) (n : nat) (lines : list string)
  (r : runner) : bool * nat * runner :=
  match lines with
  | [] => (true, n, r)
  | line :: rest =>
      if write_ok dev n
      then send_lines dev (S n) rest (emit (Write (line ++ newline)) r)
      else (false, n, r)
  end.

Definition timeout_notice : string :=
  "Timeout waiting for measurement completion".

(** ["-" * 40] *)
Definition dashes : string := "----------------------------------------".

(** [run_script(script)]: [Some (b, exit, r)] when it returns [b]; [exit]
    tells how the receive loop ended, when it was reached. *)
Definition run_script (dev : device) (fuel : nat) (script : string)
  (r : runner) : option (bool * option loop_exit * runner) :=
  if negb (connection r) then
    Some (false, None, emit (Print "ERROR: Not connected to device") r)
  else
    let r0 := emit (Print "Sending script to device...") r in
    let lines := split (ascii_of_N 10) (strip script) in
    match send_lines dev 0 lines r0 with
    | (false, _, r1) =>
        Some (false, None, emit (Print "Error running script") r1)
    | (true, n, r1) =>
        if negb (write_ok dev n) then
          Some (false, None, emit (Print "Error running script") r1)
        else
          let r2 := emit (Print dashes)
                         (emit (Print "Script sent. Collecting data...")
                               (emit (Write newline) r1)) in
          match receive dev fuel 0 r2 with
          | None => None
          | Some (Crashed, _, r3) =>
              Some (false, Some Crashed, emit (Print "Error running script") r3)
          | Some (ex, counter, r3) =>
              let r4 :=
                if (max_timeout <=? counter)%nat
                then emit (Print timeout_notice) r3 else r3 in
              Some (true, Some ex, r4)
          end
    end.

(** [disconnect()] *)
Definition disconnect (dev : device) (r : runner) : runner :=
  if connection r then
    let r1 := emit Close r in
    if close_ok dev then emit (Print "Disconnected from device") r1 else r1
  else r.

(** Calling [self.save_data()]: the attribute is a bool, so the call raises
    TypeError; the method body that writes the CSV file is never entered. *)
Definition call_save_data (r : runner) : result runner :=
  Raise TypeError_not_callable.

Definition nonempty {A : Type} (l : list A) : bool :=
  match l with
  | [] => false
  | _ => true
  end.

(** [run()]: the value returned, or the exception that leaves it, after the
    [finally] clause has run. [script] is the content of the script file,
    [None] when reading it raised. *)
Definition run (dev : device) (fuel : nat) (script : option string)
  (r : runner)
  : option (result Z * option loop_exit * runner) :=
  match script with
  | None => Some (Ok 1, None, emit (Print "ERROR: Failed to read script") r)
  | Some text =>
      match connect dev r with
      | (false, r1) =>
          Some (Ok 1, None,
                emit (Print "ERROR: Failed to connect to device") r1)
      | (true, r1) =>
          match run_script dev fuel text r1 with
          | None => None
          | Some (true, ex, r2) =>
              if save_data r2 && nonempty (data_points r2) then
                match call_save_data r2 with
                | Ok r3 => Some (Ok 0, ex, disconnect dev r3)
                | Raise e => Some (Raise e, ex, disconnect dev r2)
                end
              else Some (Ok 0, ex, disconnect dev r2)
          | Some (false, ex, r2) => Some (Ok 1, ex, disconnect dev r2)
          end
      end
  end.

(** [main()]: the exit status of the process. [argv_path] is [sys.argv[1]]
    when given, [file] the content of the script file when it exists and
    can be read. An exception that leaves [main] ends the interpreter with
    status 1. *)
Definition main (dev : device) (fuel : nat) (argv_path : option string)
  (path_exists : bool) (file : option string) : option Z :=
  match argv_path with
  | None => Some 1
  | Some _ =>
      if negb path_exists then Some 1
      else
        match run dev fuel file (init true) with
        | None => None
        | Some (Ok exit_code, _, _) => Some exit_code
        | Some (Raise _, _, _) => Some 1
        end
  end.

(** *** Device discovery *)

(** What [serial.tools.list_ports.comports()] reports for one port. *)
Record port_info : Type := {
  description : string;
  port_device : string
}.

Definition known_names : list string :=
  ["ESPicoDev"; "EmStat"; "USB Serial Port"; "FTDI"].

(** [any(name in port.description for name in [...])] *)
Definition is_candidate (p : port_info) : bool :=
  existsb (contains (description p)) known_names.

(** [find_device_port()]: the device of the first candidate, [None] when
    there is none. The console output is left out. *)
Definition find_device_port (ports : list port_info) : option string :=
  match map port_device (filter is_candidate ports) with
  | [] => None
  | first :: _ => Some first
  end.

End Runner.

(** ** gui_script.py: class ElectrochemGUI

    The entry widgets are records of strings, the window is a record of the
    attributes the modelled methods use, and dialogs, display refreshes,
    pump calls and child processes are effects appended to a log. The
    worker thread is the only one that touches the queue while it runs;
    of the other thread only a stop request is modelled. *)
Module Gui.
Import Py.

Definition nl : string := Runner.newline.
Definition tab : string := String (ascii_of_N 9) EmptyString.
Definition f_0 : float := Runner.f_0.
Definition f_1000 : float := Runner.f_1000.

(** *** The MethodSCRIPT encoders *)

(** The text of the entry widgets of [self.cv_params]. *)
Record cv_params : Type := {
  cv_begin_potential : string;
  vertex1 : string;
  vertex2 : string;
  cv_step_potential : string;
  scan_rate : string;
  n_scans : string;
  cv_cond_potential : string;
  cv_cond_time : string
}.

(** The text of the entry widgets of [self.swv_params]. *)
Record swv_params : Type := {
  begin_potential : string;
  end_potential : string;
  step_potential : string;
  amplitude : string;
  frequency : string;
  cond_potential : string;
  cond_time : string
}.

Definition cv_preamble : list string :=
  [ "e" ++ nl; "var c" ++ nl; "var p" ++ nl; "set_pgstat_mode 2" ++ nl;
    "set_max_bandwidth 40" ++ nl; "set_range ba 100u" ++ nl;
    "set_autoranging ba 1n 100u" ++ nl ].

(** The conditioning-hold loop: [meas_loop_ca] at [pot] for [time]. *)
Definition hold_loop (pot time : string) : string :=
  "meas_loop_ca p c " ++ pot ++ " 100m " ++ time ++ nl.

(** What the branch [if float(cond_time) > 0] of the CV encoder appends. *)
Definition cv_conditioning (p : cv_params) (positive : bool) : list string :=
  if positive then
    [ "set_e " ++ cv_cond_potential p ++ nl;
      "cell_on" ++ nl;
      "#autorange for " ++ cv_cond_time p ++ "s prior to CV" ++ nl;
      hold_loop (cv_cond_potential p) (cv_cond_time p);
      "endloop" ++ nl ]
  else
    [ "set_e 0m" ++ nl; "cell_on" ++ nl ].

Definition cv_loop_head (p : cv_params) : string :=
  "meas_loop_cv p c " ++ cv_begin_potential p ++ " " ++ vertex1 p ++ " "
  ++ vertex2 p ++ " " ++ cv_step_potential p ++ " " ++ scan_rate p.

Definition cv_loop_comment : string :=
  "# E_res, I_res, E_begin, E_vtx1, E_vtx2, E_step, scan_rate" ++ nl.

(** The packet-emission block and the on_finished handler. *)
Definition cv_tail : list string :=
  [ nl; tab ++ "pck_start" ++ nl; tab ++ "pck_add p" ++ nl;
    tab ++ "pck_add c" ++ nl; tab ++ "pck_end" ++ nl; "endloop" ++ nl;
    "on_finished:" ++ nl; "cell_off" ++ nl ++ nl ].

Definition nscans (p : cv_params) (several : bool) : list string :=
  if several then [" nscans(" ++ n_scans p ++ ")"] else [].

Definition cv_measurement (p : cv_params) (several : bool) : list string :=
  cv_loop_comment :: cv_loop_head p :: (nscans p several ++ cv_tail)%list.

(** The strings appended to [script], one per [script += ...], in order. *)
Definition cv_pieces (p : cv_params) (positive several : bool) : list string :=
  (cv_preamble ++ cv_conditioning p positive ++ cv_measurement p several)%list.

Definition create_cv_methodscript (p : cv_params) : result string :=
  t <- py_float (cv_cond_time p) ;;
  n <- py_int (n_scans p) ;;
  Ok (String.concat "" (cv_pieces p (flt f_0 t) (1 <? n))).

Definition swv_preamble : list string :=
  [ "e" ++ nl; "var c" ++ nl; "var p" ++ nl; "var f" ++ nl; "var r" ++ nl;
    "var i" ++ nl; "store_var i 0i ja" ++ nl; "set_pgstat_chan 0" ++ nl;
    "set_pgstat_mode 2" ++ nl; "set_max_bandwidth 40" ++ nl ].

(** The analog range line for the bounds [lo] and [hi], in millivolts. *)
Definition range_line (lo hi : Z) : string :=
  "set_range_minmax da " ++ str_of_int lo ++ "m " ++ str_of_int hi ++ "m" ++ nl.

(** What the branch [if float(cond_time) > 0] of the SWV encoder appends. *)
Definition swv_conditioning (p : swv_params) (positive : bool) : list string :=
  if positive then
    [ "#Equilibrate at " ++ begin_potential p ++ " and autorange for "
      ++ cond_time p ++ "s prior to SWV" ++ nl;
      hold_loop (begin_potential p) (cond_time p);
      "endloop" ++ nl ]
  else [].

Definition swv_loop_head (p : swv_params) : string :=
  "meas_loop_swv p c f r " ++ begin_potential p ++ " " ++ end_potential p
  ++ " " ++ step_potential p ++ " " ++ amplitude p ++ " " ++ frequency p ++ nl.

Definition swv_measurement (p : swv_params) : list string :=
  [ "# Measure SWV: E, I, I_fwd, I_rev, E_begin, E_end, E_step, E_amp, freq"
    ++ nl;
    swv_loop_head p;
    tab ++ "pck_start" ++ nl; tab ++ "pck_add p" ++ nl;
    tab ++ "pck_add c" ++ nl; tab ++ "pck_add f" ++ nl;
    tab ++ "pck_add r" ++ nl; tab ++ "pck_end" ++ nl; "endloop" ++ nl;
    "on_finished:" ++ nl; "cell_off" ++ nl ++ nl ].

Definition swv_range (lo hi : Z) : list string :=
  [ range_line lo hi; "set_range ba 100u" ++ nl;
    "set_autoranging ba 1n 100u" ++ nl; "cell_on" ++ nl ].

(** The strings appended to [script], one per [script += ...], in order. *)
Definition swv_pieces (p : swv_params) (lo hi : Z) (positive : bool)
  : list string :=
  (swv_preamble ++ swv_range lo hi
   ++ swv_conditioning p positive ++ swv_measurement p)%list.

(** [min(float(begin), float(end)) - float(amplitude)] *)
Definition min_pot (b e a : float) : float := fsub (fmin b e) a.

(** [max(float(begin), float(end)) + float(amplitude)] *)
Definition max_pot (b e a : float) : float := fadd (fmax b e) a.

Definition create_swv_methodscript (p : swv_params) : result string :=
  b <- py_float (begin_potential p) ;;
  e <- py_float (end_potential p) ;;
  a <- py_float (amplitude p) ;;
  min_pot_mv <- int_of_float (fmul (min_pot b e a) f_1000) ;;
  max_pot_mv <- int_of_float (fmul (max_pot b e a) f_1000) ;;
  t <- py_float (cond_time p) ;;
  Ok (String.concat "" (swv_pieces p min_pot_mv max_pot_mv (flt f_0 t))).

(** *** The window: queue, flags, pump handle *)

Inductive item_status : Type :=
| pending
| running
| completed
| failed
| skipped.

(** A queue entry (a dict in the source). Measurement entries carry
    ['script_path'], pump entries ['action'], ['port'] and ['parameter'];
    [None] is an absent key. *)
Record queue_item : Type := {
  type : string;
  status : item_status;
  details : string;
  script_path : option string;
  action : option string;
  port : option Z;
  parameter : option float
}.

Definition set_status (s : item_status) (i : queue_item) : queue_item :=
  {| type := type i; status := s; details := details i;
     script_path := script_path i; action := action i; port := port i;
     parameter := parameter i |}.

(** The capability calls of the pump driver. *)
Inductive pump_call : Type :=
| extract (port volume : Z)
| dispense (port volume : Z)
| changePort (port : Z)
| dispenseToWaste.

(** A bound pump: a call returns normally ([true]) or raises ([false]). *)
Definition pump_driver : Type := pump_call -> bool.

(** What the worker's environment decides in round [n] of the loop. *)
Inductive process_outcome : Type :=
| Exited (return_code : Z)   (* process.wait() returned *)
| SpawnFailed.               (* Popen or reading its output raised *)

Record bench : Type := {
  process : nat -> string -> process_outcome;
  sleep_ok : float -> bool;        (* time.sleep(param) returns *)
  stop_requested : nat -> bool     (* stop_queue() ran during round n *)
}.

Inductive effect : Type :=
| ShowWarning (title msg : string)
| ShowError (title : string) (e : exn)
| RefreshQueueDisplay
| UpdateStatus (msg : string)
| UpdatePreview (script : string)
| SelectScriptTab
| SetStatus (s : item_status)
| Spawned (path : string)
| PumpCalled (c : pump_call)
| Slept (secs : float)
| Console (msg : string).

Record gui : Type := {
  measurement_queue : list queue_item;
  is_running : bool;
  current_script : string;
  pump : option pump_driver;
  effects : list effect
}.

Definition log (fx : list effect) (g : gui) : gui :=
  {| measurement_queue := measurement_queue g; is_running := is_running g;
     current_script := current_script g; pump := pump g;
     effects := (effects g ++ fx)%list |}.

Definition set_queue (q : list queue_item) (g : gui) : gui :=
  {| measurement_queue := q; is_running := is_running g;
     current_script := current_script g; pump := pump g;
     effects := effects g |}.

Definition set_running (b : bool) (g : gui) : gui :=
  {| measurement_queue := measurement_queue g; is_running := b;
     current_script := current_script g; pump := pump g;
     effects := effects g |}.

Definition set_script (s : string) (g : gui) : gui :=
  {| measurement_queue := measurement_queue g; is_running := is_running g;
     current_script := s; pump := pump g; effects := effects g |}.

(** [generate_cv_script]: the script returned, [None] for Python's None. *)
Definition generate_cv_script (p : cv_params) (g : gui) : option string * gui :=
  match create_cv_methodscript p with
  | Ok script =>
      (Some script,
       log [UpdatePreview script; SelectScriptTab] (set_script script g))
  | Raise e => (None, log [ShowError "Error" e] g)
  end.

Definition generate_swv_script (p : swv_params) (g : gui)
  : option string * gui :=
  match create_swv_methodscript p with
  | Ok script =>
      (Some script,
       log [UpdatePreview script; SelectScriptTab] (set_script script g))
  | Raise e => (None, log [ShowError "Error" e] g)
  end.

Definition or_default {A : Type} (d : A) (o : option A) : A :=
  match o with
  | Some a => a
  | None => d
  end.

Definition call (drv : pump_driver) (c : pump_call)
  : list effect * option exn :=
  ([PumpCalled c], if drv c then None else Some (OtherError "pump")).

(** The [try] body of [execute_pump_action]: what it did and the exception
    that left it, if any. *)
Definition pump_attempt (b : bench) (drv : pump_driver) (item : queue_item)
  : list effect * option exn :=
  match action item with
  | None => ([], Some (KeyError "action"))
  | Some act =>
      let port := or_default 1 (port item) in
      let param := or_default f_0 (parameter item) in
      if String.eqb act "extract" then
        match int_of_float param with
        | Ok v => call drv (extract port v)
        | Raise e => ([], Some e)
        end
      else if String.eqb act "dispense" then
        match int_of_float param with
        | Ok v => call drv (dispense port v)
        | Raise e => ([], Some e)
        end
      else if String.eqb act "change_port" then call drv (changePort port)
      else if String.eqb act "empty_to_waste" then call drv dispenseToWaste
      else if String.eqb act "wait" then
        if sleep_ok b param then ([Slept param], None)
        else ([], Some (OtherError "sleep"))
      else ([], None)
  end.

(** [execute_pump_action(action_item)]: the entry with its new status. *)
Definition execute_pump_action (b : bench) (pump : option pump_driver)
  (item : queue_item) : queue_item * list effect :=
  match pump with
  | None =>
      (set_status skipped item,
       [Console "WARNING: Pump not connected, skipping pump action";
        SetStatus skipped])
  | Some drv =>
      match pump_attempt b drv item with
      | (fx, None) =>
          (set_status completed item, (fx ++ [SetStatus completed])%list)
      | (fx, Some _) =>
          (set_status failed item,
           (fx ++ [Console "Pump action failed"; SetStatus failed])%list)
      end
  end.

(** The [else] branch of the dispatch: run the script in a child process
    and map its return code to a status. *)
Definition execute_measurement (b : bench) (round : nat) (item : queue_item)
  : queue_item * list effect :=
  match script_path item with
  | None => (set_status failed item, [Console "Error"; SetStatus failed])
  | Some path =>
      match process b round path with
      | Exited return_code =>
          if return_code =? 0
          then (set_status completed item, [Spawned path; SetStatus completed])
          else (set_status failed item, [Spawned path; SetStatus failed])
      | SpawnFailed =>
          (set_status failed item, [Console "Error"; SetStatus failed])
      end
  end.

(** One round of the loop body, up to the status the entry ends with. *)
Definition dispatch (b : bench) (pump : option pump_driver) (round : nat)
  (current : queue_item) : queue_item * list effect :=
  let current := set_status running current in
  let (item, fx) :=
    if startswith (type current) "PUMP_"
    then execute_pump_action b pump current
    else execute_measurement b round current in
  (item,
   ([SetStatus running; RefreshQueueDisplay;
     UpdateStatus ("Running: " ++ type current)] ++ fx)%list).

(** The pause [time.sleep(1)] that ends every round of the loop. *)
Definition pause : float := of_int 1.

(** The [while] loop of [execute_queue_serial]. An entry leaves the list
    when it is popped; [dispatched] keeps the popped entries, in order, with
    the status they ended with. Every round ends with the refresh of the
    display and the pause of one second, whatever the entry did. *)
Fixpoint queue_loop (b : bench) (pump : option pump_driver) (round : nat)
  (queue : list queue_item) (is_running : bool)
  : list queue_item * list queue_item * list effect :=
  match queue with
  | [] => ([], [], [])
  | current :: rest =>
      if is_running then
        let (item, fx) := dispatch b pump round current in
        let '(dispatched, remaining, fx') :=
          queue_loop b pump (S round) rest (negb (stop_requested b round)) in
        (item :: dispatched, remaining,
         (fx ++ [RefreshQueueDisplay; Slept pause] ++ fx')%list)
      else ([], queue, [])
  end.

(** [execute_queue_serial()]: the window afterwards and the popped entries. *)
Definition execute_queue_serial (b : bench) (g : gui)
  : gui * list queue_item :=
  let '(dispatched, remaining, fx) :=
    queue_loop b (pump g) 0 (measurement_queue g) (is_running g) in
  (log (fx ++ [UpdateStatus "Queue Complete"])%list
       (set_running false (set_queue remaining g)),
   dispatched).

(** [run_queue()]: starts the worker unless the queue is empty or the
    worker is already running. *)
Definition run_queue (b : bench) (g : gui) : gui * list queue_item :=
  match measurement_queue g with
  | [] => (log [ShowWarning "Empty Queue" "No items in queue"] g, [])
  | _ =>
      if is_running g
      then (log [ShowWarning "Already Running" "Queue is already running"] g,
            [])
      else execute_queue_serial b (set_running true g)
  end.

(** [stop_queue()] *)
Definition stop_queue (g : gui) : gui :=
  log [UpdateStatus "Queue Stopped"] (set_running false g).

(** [clear_queue()] *)
Definition clear_queue (g : gui) : gui :=
  if is_running g then
    log [ShowWarning "Queue Running" "Cannot clear queue while running"] g
  else
    log [RefreshQueueDisplay; UpdateStatus "Queue Cleared"] (set_queue [] g).

(** *** The pump tab *)

Definition set_pump (p : option pump_driver) (g : gui) : gui :=
  {| measurement_queue := measurement_queue g; is_running := is_running g;
     current_script := current_script g; pump := p; effects := effects g |}.

(** The message boxes of the pump tab. *)
Inductive dialog : Type :=
| ErrorBox (title msg : string)
| InfoBox (title msg : string).

(** [s.replace(a, b)] for one-character [a] and [b]. *)
Fixpoint replace_char (a b : ascii) (s : string) : string :=
  match s with
  | EmptyString => EmptyString
  | String c s' =>
      String (if Ascii.eqb c a then b else c) (replace_char a b s')
  end.

(** [s.split(sep)[0]] for a non-empty [sep]: the text before the first
    occurrence of [sep], all of [s] when there is none. *)
Fixpoint before_first (sep s : string) : string :=
  if String.prefix sep s then EmptyString
  else match s with
       | EmptyString => EmptyString
       | String c s' => String c (before_first sep s')
       end.

Definition micro : string := String (ascii_of_N 181) EmptyString.

Section PumpForm.

(** [str.upper] and the formatting of a float in an f-string: both only
    reach the display texts ['type'] and ['details']. *)
Variable upper : string -> string.
Variable repr : float -> string.

(** The dict [queue_item] built by [add_pump_to_queue]. *)
Definition pump_entry (act : string) (port_number : Z) (param : float)
  : queue_item :=
  let key := replace_char " " "_" (lower act) in
  if String.eqb act "Wait" then
    {| type := "PUMP_WAIT"; status := pending;
       details := "Wait " ++ repr param ++ " seconds";
       script_path := None; action := Some key;
       port := Some port_number; parameter := Some param |}
  else if String.eqb act "Empty to Waste" then
    {| type := "PUMP_EMPTY"; status := pending;
       details := "Empty syringe to waste";
       script_path := None; action := Some key;
       port := Some 9; parameter := Some param |}
  else
    {| type := "PUMP_" ++ upper act; status := pending;
       details := act ++ " " ++ repr param ++ " " ++ micro ++ "L, Port "
                  ++ str_of_int port_number;
       script_path := None; action := Some key;
       port := Some port_number; parameter := Some param |}.

(** [add_pump_to_queue()]: [act], [port_text] and [param_text] are the
    texts of the action box, the port box and the volume/time entry. The
    two conversions are not guarded: what they raise leaves the method. *)
Definition add_pump_to_queue (pump_available : bool)
  (act port_text param_text : string) (g : gui)
  : result (gui * list dialog) :=
  if negb pump_available then
    Ok (g, [ErrorBox "Error" "Pump library not available"])
  else
    port_number <- py_int port_text ;;
    param <- py_float param_text ;;
    let item := pump_entry act port_number param in
    Ok (log [RefreshQueueDisplay]
            (set_queue (measurement_queue g ++ [item])%list g),
        [InfoBox "Success" ("Added to queue: " ++ details item)]).

End PumpForm.

(** The widgets of the connection frame. *)
Record pump_form : Type := {
  pump_port_values : list string;   (* the choices of the port box *)
  pump_port : string;               (* the text of the port box *)
  syringe_size : string;
  num_ports : string
}.

(** [refresh_pump_ports()] *)
Definition refresh_pump_ports (pump_available : bool)
  (comports : list Runner.port_info) (f : pump_form) : pump_form :=
  if negb pump_available then f
  else
    let ports :=
      map (fun p => Runner.port_device p ++ " - " ++ Runner.description p)
          comports in
    {| pump_port_values := ports;
       pump_port := match ports with
                    | first :: _ => first
                    | [] => pump_port f
                    end;
       syringe_size := syringe_size f;
       num_ports := num_ports f |}.

(** [connect_pump()]. [open_pump port num_ports syringe_ul] stands for
    building [TecanAPISerial(0, port, 9600)] and [XCaliburD] on it: the
    driver, or [None] when one of them raises. *)
Definition connect_pump (pump_available : bool)
  (open_pump : string -> Z -> Z -> option pump_driver)
  (f : pump_form) (g : gui) : gui * list dialog :=
  if negb pump_available then (g, [])
  else
    match pump_port f with
    | EmptyString => (g, [ErrorBox "Error" "Please select a serial port"])
    | port_str =>
        let port_name := before_first " - " port_str in
        match int_of_string (syringe_size f), int_of_string (num_ports f) with
        | Some syringe_ul, Some ports =>
            match open_pump port_name ports syringe_ul with
            | Some drv =>
                (set_pump (Some drv) g,
                 [InfoBox "Success" "Pump connected successfully"])
            | None => (g, [ErrorBox "Error" "Failed to connect"])
            end
        | _, _ => (g, [ErrorBox "Error" "Failed to connect"])
        end
    end.

End Gui.

(** ** Concrete inputs and specification-side definitions *)
Module Examples.
Import Py.

(** The response line quoted in the comment of [parse_data_line]. *)
Definition example_line : string := "P-500m;DA-2.345e-6;BA100u".

(** A device that answers the probe, accepts every write and then stays
    silent. *)
Definition silent_device : Runner.device :=
  {| Runner.connecting := Runner.Reply;
     Runner.reads := fun _ => Runner.Silence;
     Runner.write_ok := fun _ => true;
     Runner.close_ok := true |}.

(** A device that sends the example line once and then stays silent. *)
Definition one_sample_device : Runner.device :=
  {| Runner.connecting := Runner.Reply;
     Runner.reads := fun n =>
       match n with
       | O => Runner.Line (example_line ++ Runner.newline)
       | _ => Runner.Silence
       end;
     Runner.write_ok := fun _ => true;
     Runner.close_ok := true |}.

(** Two runner states that agree on the [save_data] attribute and on the
    connection. *)
Definition same_session (r r' : Runner.runner) : Prop :=
  Runner.save_data r' = Runner.save_data r
  /\ Runner.connection r' = Runner.connection r.

(** The statuses an entry keeps once it has been dispatched. *)
Definition terminal (s : Gui.item_status) : bool :=
  match s with
  | Gui.completed | Gui.failed | Gui.skipped => true
  | Gui.pending | Gui.running => false
  end.

(** A queue entry without its status. *)
Definition entry_of (i : Gui.queue_item)
  : string * string * option string * option string * option Z
    * option float :=
  (Gui.type i, Gui.details i, Gui.script_path i, Gui.action i, Gui.port i,
   Gui.parameter i).

(** A CV measurement entry as [add_to_queue] builds it. *)
Definition measurement_entry : Gui.queue_item :=
  {| Gui.type := "CV"; Gui.status := Gui.pending;
     Gui.details := "001_cv.ms";
     Gui.script_path := Some "methods/2024-01-01/001_cv.ms";
     Gui.action := None; Gui.port := None; Gui.parameter := None |}.

(** A dispense entry as [add_pump_to_queue] builds it: 100 uL to port 2. *)
Definition dispense_entry : Gui.queue_item :=
  {| Gui.type := "PUMP_DISPENSE"; Gui.status := Gui.pending;
     Gui.details := "Dispense 100.0 " ++ Gui.micro ++ "L, Port 2";
     Gui.script_path := None;
     Gui.action := Some "dispense"; Gui.port := Some 2;
     Gui.parameter := Some (of_int 100) |}.

(** Every measurement process exits with status 1, nobody presses stop. *)
Definition failing_bench : Gui.bench :=
  {| Gui.process := fun _ _ => Gui.Exited 1;
     Gui.sleep_ok := fun _ => true;
     Gui.stop_requested := fun _ => false |}.

(** A pump whose calls all return. *)
Definition willing_pump : Gui.pump_driver := fun _ => true.

Definition idle_window (queue : list Gui.queue_item) : Gui.gui :=
  {| Gui.measurement_queue := queue; Gui.is_running := false;
     Gui.current_script := ""; Gui.pump := Some willing_pump;
     Gui.effects := [] |}.

Definition busy_window (queue : list Gui.queue_item) : Gui.gui :=
  {| Gui.measurement_queue := queue; Gui.is_running := true;
     Gui.current_script := ""; Gui.pump := None;
     Gui.effects := [] |}.

(** The defaults of the CV form. *)
Definition cv_defaults : Gui.cv_params :=
  {| Gui.cv_begin_potential := "0"; Gui.vertex1 := "-0.5";
     Gui.vertex2 := "0.5"; Gui.cv_step_potential := "0.01";
     Gui.scan_rate := "0.1"; Gui.n_scans := "1";
     Gui.cv_cond_potential := "0"; Gui.cv_cond_time := "0" |}.

(** The CV defaults with a begin potential that is no number. *)
Definition cv_malformed : Gui.cv_params :=
  {| Gui.cv_begin_potential := "abc"; Gui.vertex1 := "-0.5";
     Gui.vertex2 := "0.5"; Gui.cv_step_potential := "0.01";
     Gui.scan_rate := "0.1"; Gui.n_scans := "1";
     Gui.cv_cond_potential := "0"; Gui.cv_cond_time := "0" |}.

(** The defaults of the SWV form. *)
Definition swv_defaults : Gui.swv_params :=
  {| Gui.begin_potential := "-0.5"; Gui.end_potential := "0.5";
     Gui.step_potential := "0.01"; Gui.amplitude := "0.02";
     Gui.frequency := "15"; Gui.cond_potential := "0";
     Gui.cond_time := "0" |}.

(** The SWV defaults with 5 s of conditioning at 0.3 V. *)
Definition swv_conditioned : Gui.swv_params :=
  {| Gui.begin_potential := "-0.5"; Gui.end_potential := "0.5";
     Gui.step_potential := "0.01"; Gui.amplitude := "0.02";
     Gui.frequency := "15"; Gui.cond_potential := "0.3";
     Gui.cond_time := "5" |}.

(** [line] is one of the lines of [script]. *)
Definition has_line (script line : string) : bool :=
  existsb (String.eqb line) (split (ascii_of_N 10) script).

Definition newline_char : ascii := ascii_of_N 10.

(** The number of lines of [text] that start with [word]. *)
Definition count_lines (word text : string) : nat :=
  List.length (filter (fun line => startswith line word)
                      (split newline_char text)).

(** The same number, counted while reading [text] once: [at_start] tells
    whether [text] begins a line. *)
Fixpoint line_starts (word : string) (at_start : bool) (text : string) : nat :=
  ((if String.prefix word text then (if at_start then 1 else 0) else 0)
   + match text with
     | EmptyString => 0
     | String c rest => line_starts word (Ascii.eqb c newline_char) rest
     end)%nat.

(** Whether the text that follows [f] begins a line. *)
Fixpoint flag_after (at_start : bool) (f : string) : bool :=
  match f with
  | EmptyString => at_start
  | String c f' => flag_after (Ascii.eqb c newline_char) f'
  end.

(** A character that can occur in a text [float] or [int] accepts. *)
Definition number_char (c : ascii) : bool :=
  is_numeric_space c || is_digit c
  || existsb (Ascii.eqb c) ["+"; "-"; "."; "_"]%char
  || existsb (Ascii.eqb (lower_char c))
             ["e"; "i"; "n"; "f"; "t"; "y"; "a"]%char.

(** Every character of [f] is a number character. *)
Definition plain (f : string) : Prop :=
  forall c, In c (chars f) -> number_char c = true.

(** The settings every CV script starts with. *)
Definition cv_settings : string :=
  "e" ++ Gui.nl ++ "var c" ++ Gui.nl ++ "var p" ++ Gui.nl
  ++ "set_pgstat_mode 2" ++ Gui.nl ++ "set_max_bandwidth 40" ++ Gui.nl
  ++ "set_range ba 100u" ++ Gui.nl ++ "set_autoranging ba 1n 100u" ++ Gui.nl.

(** The measurement loop of a CV script for [n] scans, up to the end of
    the script. *)
Definition cv_sweep (p : Gui.cv_params) (n : Z) : string :=
  "# E_res, I_res, E_begin, E_vtx1, E_vtx2, E_step, scan_rate" ++ Gui.nl
  ++ "meas_loop_cv p c " ++ Gui.cv_begin_potential p ++ " " ++ Gui.vertex1 p
  ++ " " ++ Gui.vertex2 p ++ " " ++ Gui.cv_step_potential p ++ " "
  ++ Gui.scan_rate p
  ++ (if 1 <? n then " nscans(" ++ Gui.n_scans p ++ ")" else "") ++ Gui.nl
  ++ Gui.tab ++ "pck_start" ++ Gui.nl ++ Gui.tab ++ "pck_add p" ++ Gui.nl
  ++ Gui.tab ++ "pck_add c" ++ Gui.nl ++ Gui.tab ++ "pck_end" ++ Gui.nl
  ++ "endloop" ++ Gui.nl ++ "on_finished:" ++ Gui.nl
  ++ "cell_off" ++ Gui.nl ++ Gui.nl.

(** The settings every SWV script starts with. *)
Definition swv_settings : string :=
  "e" ++ Gui.nl ++ "var c" ++ Gui.nl ++ "var p" ++ Gui.nl ++ "var f" ++ Gui.nl
  ++ "var r" ++ Gui.nl ++ "var i" ++ Gui.nl ++ "store_var i 0i ja" ++ Gui.nl
  ++ "set_pgstat_chan 0" ++ Gui.nl ++ "set_pgstat_mode 2" ++ Gui.nl
  ++ "set_max_bandwidth 40" ++ Gui.nl.

(** The measurement loop of an SWV script, up to the end of the script. *)
Definition swv_sweep (p : Gui.swv_params) : string :=
  "# Measure SWV: E, I, I_fwd, I_rev, E_begin, E_end, E_step, E_amp, freq"
  ++ Gui.nl
  ++ "meas_loop_swv p c f r " ++ Gui.begin_potential p ++ " "
  ++ Gui.end_potential p ++ " " ++ Gui.step_potential p ++ " "
  ++ Gui.amplitude p ++ " " ++ Gui.frequency p ++ Gui.nl
  ++ Gui.tab ++ "pck_start" ++ Gui.nl ++ Gui.tab ++ "pck_add p" ++ Gui.nl
  ++ Gui.tab ++ "pck_add c" ++ Gui.nl ++ Gui.tab ++ "pck_add f" ++ Gui.nl
  ++ Gui.tab ++ "pck_add r" ++ Gui.nl ++ Gui.tab ++ "pck_end" ++ Gui.nl
  ++ "endloop" ++ Gui.nl ++ "on_finished:" ++ Gui.nl
  ++ "cell_off" ++ Gui.nl ++ Gui.nl.

Definition finite (x : float) : bool :=
  match x with
  | S754_nan | S754_infinity _ => false
  | _ => true
  end.

Definition parses {A : Type} (o : option A) : bool :=
  match o with
  | Some _ => true
  | None => false
  end.

(** A valid parameter set in the words of the data model: every field is a
    number, the scan count is at least 1, the frequency is positive. *)
Definition valid_cv (p : Gui.cv_params) : bool :=
  parses (float_of_string (Gui.cv_begin_potential p))
  && parses (float_of_string (Gui.vertex1 p))
  && parses (float_of_string (Gui.vertex2 p))
  && parses (float_of_string (Gui.cv_step_potential p))
  && parses (float_of_string (Gui.scan_rate p))
  && parses (float_of_string (Gui.cv_cond_potential p))
  && parses (float_of_string (Gui.cv_cond_time p))
  && match int_of_string (Gui.n_scans p) with
     | Some n => 1 <=? n
     | None => false
     end.

Definition valid_swv (p : Gui.swv_params) : bool :=
  parses (float_of_string (Gui.begin_potential p))
  && parses (float_of_string (Gui.end_potential p))
  && parses (float_of_string (Gui.step_potential p))
  && parses (float_of_string (Gui.amplitude p))
  && parses (float_of_string (Gui.cond_potential p))
  && parses (float_of_string (Gui.cond_time p))
  && match float_of_string (Gui.frequency p) with
     | Some f => flt (S754_zero false) f
     | None => false
     end.

(** Truncation toward zero of the real number a float stands for: the
    quotient, rounded toward zero, of its numerator by its denominator. *)
Definition truncate (x : float) : option Z :=
  match x with
  | S754_zero _ => Some 0
  | S754_finite s m e =>
      Some (Z.quot (cond_Zopp s (Zpos m) * 2 ^ Z.max e 0) (2 ^ Z.max (- e) 0))
  | _ => None
  end.

(** The fields the CV encoder converts are numbers. *)
Definition cv_convertible (p : Gui.cv_params) : bool :=
  parses (float_of_string (Gui.cv_cond_time p))
  && parses (int_of_string (Gui.n_scans p)).

(** The fields the SWV encoder converts are numbers and the two range
    bounds are finite. *)
Definition swv_convertible (p : Gui.swv_params) : bool :=
  match float_of_string (Gui.begin_potential p),
        float_of_string (Gui.end_potential p),
        float_of_string (Gui.amplitude p) with
  | Some b, Some e, Some a =>
      finite (fmul (Gui.min_pot b e a) Gui.f_1000)
      && finite (fmul (Gui.max_pot b e a) Gui.f_1000)
      && parses (float_of_string (Gui.cond_time p))
  | _, _, _ => false
  end.



(** The conditioned SWV set with an end potential of 1e308 V. *)
Definition swv_unbounded : Gui.swv_params :=
  {| Gui.begin_potential := "-0.5"; Gui.end_potential := "1e308";
     Gui.step_potential := "0.01"; Gui.amplitude := "0.02";
     Gui.frequency := "15"; Gui.cond_potential := "0.3";
     Gui.cond_time := "5" |}.

(** The SWV defaults with a begin potential that is no number. *)
Definition swv_bad_begin : Gui.swv_params :=
  {| Gui.begin_potential := "abc"; Gui.end_potential := "0.5";
     Gui.step_potential := "0.01"; Gui.amplitude := "0.02";
     Gui.frequency := "15"; Gui.cond_potential := "0";
     Gui.cond_time := "0" |}.

(** The SWV defaults with an end potential that is no number. *)
Definition swv_bad_end : Gui.swv_params :=
  {| Gui.begin_potential := "-0.5"; Gui.end_potential := "abc";
     Gui.step_potential := "0.01"; Gui.amplitude := "0.02";
     Gui.frequency := "15"; Gui.cond_potential := "0";
     Gui.cond_time := "0" |}.

(** The CV defaults with two scans and 3 s of conditioning at 0.2 V. *)
Definition cv_conditioned : Gui.cv_params :=
  {| Gui.cv_begin_potential := "0"; Gui.vertex1 := "-0.5";
     Gui.vertex2 := "0.5"; Gui.cv_step_potential := "0.01";
     Gui.scan_rate := "0.1"; Gui.n_scans := "2";
     Gui.cv_cond_potential := "0.2"; Gui.cv_cond_time := "3" |}.

(** The script encoded from [swv_conditioned]. *)
Definition swv_conditioned_script : string :=
  Eval vm_compute in
    match Gui.create_swv_methodscript swv_conditioned with
    | Ok script => script
    | Raise _ => EmptyString
    end.

(** The CV defaults with a conditioning time that is no number. *)
Definition cv_bad_time : Gui.cv_params :=
  {| Gui.cv_begin_potential := "0"; Gui.vertex1 := "-0.5";
     Gui.vertex2 := "0.5"; Gui.cv_step_potential := "0.01";
     Gui.scan_rate := "0.1"; Gui.n_scans := "1";
     Gui.cv_cond_potential := "0"; Gui.cv_cond_time := "five" |}.

(** A character no number text can end with. *)
Definition never_ends_number (c : ascii) : bool :=
  negb (is_digit c) && negb (is_numeric_space c)
  && negb (Ascii.eqb c "_") && negb (Ascii.eqb c "-")
  && negb (Ascii.eqb c "+") && negb (Ascii.eqb c ".")
  && negb (Ascii.eqb (lower_char c) "e")
  && negb (Ascii.eqb (lower_char c) "f")
  && negb (Ascii.eqb (lower_char c) "y")
  && negb (Ascii.eqb (lower_char c) "n").

(** [l] ends with the character [c]. *)
Definition ends_in (c : ascii) (l : list ascii) : Prop :=
  exists l0, l = (l0 ++ [c])%list.

Fixpoint last_char (s : string) : option ascii :=
  match s with
  | EmptyString => None
  | String c EmptyString => Some c
  | String _ s' => last_char s'
  end.

(** A device that sends the example line, then the end marker. *)
Definition completing_device : Runner.device :=
  {| Runner.connecting := Runner.Reply;
     Runner.reads := fun n =>
       match n with
       | O => Runner.Line (example_line ++ Runner.newline)
       | _ => Runner.Line ("*" ++ Runner.newline)
       end;
     Runner.write_ok := fun _ => true;
     Runner.close_ok := true |}.

(** A device that reports an abort in its first line. *)
Definition aborting_device : Runner.device :=
  {| Runner.connecting := Runner.Reply;
     Runner.reads := fun _ => Runner.Line ("!0004: Abort" ++ Runner.newline);
     Runner.write_ok := fun _ => true;
     Runner.close_ok := true |}.

(** *** For the further properties *)

(** The bytes written to the port, in order. *)
Fixpoint written (t : list Runner.event) : string :=
  match t with
  | [] => EmptyString
  | Runner.Write bytes :: t' => bytes ++ written t'
  | _ :: t' => written t'
  end.

(** The texts written for a list of lines: each line and a newline. *)
Fixpoint framed (lines : list string) : string :=
  match lines with
  | [] => EmptyString
  | line :: rest => line ++ Runner.newline ++ framed rest
  end.

(** A bound on the polls still to come when the device stays silent from
    poll [quiet_from] on. *)
Definition polls_needed (quiet_from polled counter : nat) : nat :=
  if (polled <? quiet_from)%nat
  then (quiet_from - polled + Runner.max_timeout)%nat
  else (Runner.max_timeout - counter)%nat.

Definition raises {A : Type} (r : result A) : bool :=
  match r with
  | Raise _ => true
  | Ok _ => false
  end.

(** A field of a response line whose value makes [parse_value] raise. *)
Definition bad_field (part : string) : bool :=
  if startswith part "P" then raises (Runner.parse_value (drop 1 part))
  else startswith part "DA" && raises (Runner.parse_value (drop 2 part)).

(** A sample with both keys. *)
Definition complete (dp : Runner.data_point) : Prop :=
  Runner.potential dp <> None /\ Runner.current dp <> None.

(** The statuses assigned, in order. *)
Fixpoint status_log (fx : list Gui.effect) : list Gui.item_status :=
  match fx with
  | [] => []
  | Gui.SetStatus s :: fx' => s :: status_log fx'
  | _ :: fx' => status_log fx'
  end.

(** Effects that reach the pump or suspend the worker. *)
Definition touches_hardware (e : Gui.effect) : bool :=
  match e with
  | Gui.PumpCalled _ | Gui.Slept _ => true
  | _ => false
  end.

Definition has_space (s : string) : bool := contains s " ".

(** The response line of the source comment with a third field that is no
    number. *)
Definition spoiled_line : string := "P-500m;DA-2.345e-6;Pgarbage".

(** A device that sends two blank lines and a data line, then stays
    silent. *)
Definition late_device : Runner.device :=
  {| Runner.connecting := Runner.Reply;
     Runner.reads := fun n =>
       match n with
       | 0%nat | 1%nat => Runner.Line Runner.newline
       | 2%nat => Runner.Line (example_line ++ Runner.newline)
       | _ => Runner.Silence
       end;
     Runner.write_ok := fun _ => true;
     Runner.close_ok := true |}.

(** A device that sends blank lines for ever. *)
Definition blank_device : Runner.device :=
  {| Runner.connecting := Runner.Reply;
     Runner.reads := fun _ => Runner.Line Runner.newline;
     Runner.write_ok := fun _ => true;
     Runner.close_ok := true |}.

(** A port that opens and does not answer the probe. *)
Definition mute_device : Runner.device :=
  {| Runner.connecting := Runner.NoReply;
     Runner.reads := fun _ => Runner.Silence;
     Runner.write_ok := fun _ => true;
     Runner.close_ok := true |}.

(** A device that accepts two writes and rejects the third. *)
Definition choking_device : Runner.device :=
  {| Runner.connecting := Runner.Reply;
     Runner.reads := fun _ => Runner.Silence;
     Runner.write_ok := fun n => (n <? 2)%nat;
     Runner.close_ok := true |}.

Definition connected_runner : Runner.runner :=
  Runner.set_connection true (Runner.init true).

Definition three_line_script : string :=
  "e" ++ Runner.newline ++ "var c" ++ Runner.newline ++ "var p"
  ++ Runner.newline ++ Runner.newline.

Definition bluetooth_port : Runner.port_info :=
  {| Runner.description := "Standard Serial over Bluetooth link";
     Runner.port_device := "COM3" |}.

Definition emstat_port : Runner.port_info :=
  {| Runner.description := "EmStat Pico (COM7)";
     Runner.port_device := "COM7" |}.

Definition ftdi_port : Runner.port_info :=
  {| Runner.description := "FTDI USB adapter";
     Runner.port_device := "COM9" |}.

(** A wait entry as [add_pump_to_queue] builds it. *)
Definition wait_entry : Gui.queue_item :=
  {| Gui.type := "PUMP_WAIT"; Gui.status := Gui.pending;
     Gui.details := "Wait 5.0 seconds"; Gui.script_path := None;
     Gui.action := Some "wait"; Gui.port := Some 1;
     Gui.parameter := Some (of_int 5) |}.

(** Stop is pressed while the entry of round 1 runs. *)
Definition stopping_bench : Gui.bench :=
  {| Gui.process := fun _ _ => Gui.Exited 0;
     Gui.sleep_ok := fun _ => true;
     Gui.stop_requested := fun n => (n =? 1)%nat |}.

(** A dispense of 100.7 uL to port 2. *)
Definition fractional_dispense : Gui.queue_item :=
  {| Gui.type := "PUMP_DISPENSE"; Gui.status := Gui.pending;
     Gui.details := "Dispense 100.7 " ++ Gui.micro ++ "L, Port 2";
     Gui.script_path := None;
     Gui.action := Some "dispense"; Gui.port := Some 2;
     Gui.parameter := Some (of_decimal false 1007 (-1)) |}.

Definition default_pump_form : Gui.pump_form :=
  {| Gui.pump_port_values := []; Gui.pump_port := "";
     Gui.syringe_size := "1000"; Gui.num_ports := "9" |}.

(** One round of the receive loop, seen from outside: one more poll,
    nothing written, the connection and the [save_data] attribute as
    before, and at most one sample, with both keys, appended. *)
Definition one_poll (r r1 : Runner.runner) : Prop :=
  Runner.polls r1 = S (Runner.polls r)
  /\ written (Runner.trace r1) = written (Runner.trace r)
  /\ same_session r r1
  /\ (Runner.data_points r1 = Runner.data_points r
      \/ exists dp,
           Runner.data_points r1 = (Runner.data_points r ++ [dp])%list
           /\ complete dp).

(** Where the receive loop leaves the runner on [late_device]. *)
Definition late_final : Runner.runner :=
  Eval vm_compute in
    match Runner.receive late_device 603 0 connected_runner with
    | Some (_, _, r) => r
    | None => connected_runner
    end.

(** The pump call a queued extract or dispense is meant to make. *)
Definition volume_call (act : string) (port_number volume : Z)
  : Gui.pump_call :=
  if String.eqb act "extract" then Gui.extract port_number volume
  else Gui.dispense port_number volume.

(** What each action offered by the pump form is meant to do when its
    entry is dispatched on a bound pump. *)
Definition intended (b : Gui.bench) (drv : Gui.pump_driver) (act : string)
  (port_number : Z) (param : float) : list Gui.effect * option exn :=
  if String.eqb act "Extract" then
    match int_of_float param with
    | Ok v => Gui.call drv (Gui.extract port_number v)
    | Raise e => ([], Some e)
    end
  else if String.eqb act "Dispense" then
    match int_of_float param with
    | Ok v => Gui.call drv (Gui.dispense port_number v)
    | Raise e => ([], Some e)
    end
  else if String.eqb act "Change Port" then
    Gui.call drv (Gui.changePort port_number)
  else if String.eqb act "Empty to Waste" then
    Gui.call drv Gui.dispenseToWaste
  else if Gui.sleep_ok b param then ([Gui.Slept param], None)
  else ([], Some (OtherError "sleep")).

Definition form_actions : list string :=
  ["Extract"; "Dispense"; "Change Port"; "Wait"; "Empty to Waste"].

(** Where [run_script] leaves the runner after sending
    [three_line_script] to the silent device. *)
Definition sent_runner : Runner.runner :=
  Eval vm_compute in
    match Runner.run_script silent_device 600 three_line_script
            connected_runner with
    | Some (_, _, r) => r
    | None => connected_runner
    end.

(** Where [run] leaves the runner on the silent device. *)
Definition silent_final : Runner.runner :=
  Eval vm_compute in
    match Runner.run silent_device 600 (Some "e") (Runner.init true) with
    | Some (_, _, r) => r
    | None => Runner.init true
    end.

(** The script encoded from the defaults of the SWV form. *)
Definition swv_default_script : string :=
  Eval vm_compute in
    match Gui.create_swv_methodscript swv_defaults with
    | Ok script => script
    | Raise _ => EmptyString
    end.

(** Where [run_script] leaves the runner after sending it. *)
Definition swv_sent_runner : Runner.runner :=
  Eval vm_compute in
    match Runner.run_script silent_device 600 swv_default_script
            connected_runner with
    | Some (_, _, r) => r
    | None => connected_runner
    end.

End Examples.

(** * Properties *)

(** ** General facts about strings and results *)
Section Texts.
Import Py.

Lemma append_empty_r (s : string) : s ++ "" = s.
Proof.
  induction s as [|c s IH]; simpl; [reflexivity | rewrite IH; reflexivity].
Qed.

Lemma append_assoc (a b c : string) : (a ++ b) ++ c = a ++ b ++ c.
Proof.
  induction a as [|x a IH]; simpl; [reflexivity | rewrite IH; reflexivity].
Qed.

Lemma prefix_empty (s : string) : String.prefix "" s = true.
Proof.
  destruct s; reflexivity.
Qed.

Lemma ok_injective {A : Type} (a b : A) : Ok a = Ok b -> a = b.
Proof.
  intros H. injection H as ->. reflexivity.
Qed.

End Texts.

(** ** ValueDecoder: [parse_value] *)
Section ValueDecoder.
Import Py Runner Examples.

Lemma endswith_empty (text : string) : endswith text "" = true.
Proof.
  unfold endswith. simpl String.length. rewrite Nat.sub_0_r.
  assert (H : forall s n, String.substring n 0 s = "").
  { induction s as [|c s IH]; intros [|n]; simpl; auto. }
  rewrite H. reflexivity.
Qed.

Lemma endswith_char_unique (text : string) (c d : ascii) :
  endswith text (String c "") = true ->
  endswith text (String d "") = true -> c = d.
Proof.
  unfold endswith. simpl String.length. intros Hc Hd.
  apply andb_true_iff in Hc as [_ Hc]. apply andb_true_iff in Hd as [_ Hd].
  apply String.eqb_eq in Hc. apply String.eqb_eq in Hd.
  congruence.
Qed.

(** X1: the suffixes listed before the empty one are decoded as intended:
    the number in front of [n], [u] or [m] is scaled by the factor. *)
Lemma parse_value_small_suffix (text : string) (c : ascii) (mult x : float) :
  contains (lower text) "e" = false ->
  In (String c "", mult) [("n", f_1e_9); ("u", f_1e_6); ("m", f_1e_3)] ->
  endswith text (String c "") = true ->
  float_of_string (drop_last 1 text) = Some x ->
  parse_value text = Ok (fmul x mult).
Proof.
  intros He Hin Hend Hnum. unfold parse_value. rewrite He.
  unfold multipliers. simpl in Hin.
  destruct Hin as [H | [H | [H | []]]]; inversion H; subst; clear H; simpl.
  - rewrite Hend. simpl. unfold py_float. rewrite Hnum. reflexivity.
  - destruct (endswith text "n") eqn:En.
    + discriminate (endswith_char_unique _ _ _ En Hend).
    + rewrite Hend. simpl. unfold py_float. rewrite Hnum. reflexivity.
  - destruct (endswith text "n") eqn:En.
    + discriminate (endswith_char_unique _ _ _ En Hend).
    + destruct (endswith text "u") eqn:Eu.
      * discriminate (endswith_char_unique _ _ _ Eu Hend).
      * rewrite Hend. simpl. unfold py_float. rewrite Hnum. reflexivity.
Qed.

(** Every text that does not end in [n], [u] or [m] stops the suffix loop
    at the empty suffix: the whole text, suffix character included, goes to
    [float], and the entries for [k] and [M] are never looked at. *)
Lemma find_suffix_stops_at_empty (text : string)
  (rest : list (string * float)) :
  endswith text "n" = false ->
  endswith text "u" = false ->
  endswith text "m" = false ->
  find_suffix ([("n", f_1e_9); ("u", f_1e_6); ("m", f_1e_3); ("", f_1)]
                 ++ rest)%list text
  = or_zero (x <- py_float text ;; Ok (fmul x f_1)).
Proof.
  intros Hn Hu Hm. simpl. rewrite Hn, Hu, Hm, endswith_empty. reflexivity.
Qed.

Lemma ends_in_cons c a l : ends_in c l -> ends_in c (a :: l).
Proof. intros [l0 ->]. exists (a :: l0). reflexivity. Qed.

Lemma ends_in_tail c a l : ends_in c (a :: l) -> l <> [] -> ends_in c l.
Proof.
  intros [l0 H] Hne. destruct l0 as [|b l0]; simpl in H.
  - injection H as _ H. contradiction.
  - injection H as _ H. exists l0. exact H.
Qed.

Lemma ends_in_single c a : ends_in c [a] -> a = c.
Proof.
  intros [l0 H]. destruct l0 as [|b l0]; simpl in H.
  - congruence.
  - injection H as _ H. destruct l0; discriminate.
Qed.

Lemma ends_in_nonempty c l : ends_in c l -> l <> [].
Proof. intros [l0 ->]. destruct l0; discriminate. Qed.

Lemma endswith_ends_in (text : string) (c : ascii) :
  endswith text (String c "") = true -> ends_in c (chars text).
Proof.
  unfold endswith. simpl String.length. intros H.
  apply andb_true_iff in H as [_ H]. apply String.eqb_eq in H.
  induction text as [|a t IH].
  - discriminate.
  - simpl String.length in H. rewrite Nat.sub_succ, Nat.sub_0_r in H.
    destruct t as [|b t'].
    + simpl in H. injection H as ->. exists []. reflexivity.
    + simpl String.length in H, IH. rewrite Nat.sub_succ, Nat.sub_0_r in IH.
      change (String.substring (S (String.length t')) 1
                (String a (String b t')))
        with (String.substring (String.length t') 1 (String b t')) in H.
      apply ends_in_cons. apply IH. exact H.
Qed.

Lemma lstrip_ends_in space c l :
  space c = false -> ends_in c l -> ends_in c (lstrip_chars space l).
Proof.
  intros Hc. induction l as [|a l IH]; intros He.
  - exact He.
  - simpl. destruct (space a) eqn:Ea; [|exact He].
    apply IH. apply (ends_in_tail c a); [exact He|].
    intros ->. apply ends_in_single in He. congruence.
Qed.

Lemma strip_ends_in space c l :
  space c = false -> ends_in c l -> ends_in c (strip_chars space l).
Proof.
  intros Hc He. unfold strip_chars.
  destruct (lstrip_ends_in space c l Hc He) as [l1 ->].
  rewrite rev_app_distr. simpl. rewrite Hc.
  exists l1. simpl. rewrite rev_involutive. reflexivity.
Qed.

Lemma drop_underscores_ends_in c :
  Ascii.eqb c underscore = false ->
  forall l prev l',
    ends_in c l -> drop_underscores prev l = Some l' -> ends_in c l'.
Proof.
  intros Hc. induction l as [|a l IH]; intros prev l' He H.
  - apply ends_in_nonempty in He. contradiction.
  - simpl in H. destruct l as [|b l].
    + apply ends_in_single in He. subst a. rewrite Hc in H.
      destruct (_ && _); [discriminate|].
      simpl in H. rewrite Hc in H. simpl in H. injection H as <-.
      exists []. reflexivity.
    + assert (He' : ends_in c (b :: l)).
      { apply (ends_in_tail c a); [exact He | discriminate]. }
      destruct (Ascii.eqb a underscore).
      * destruct prev as [p|]; [|discriminate].
        destruct (is_digit p); [|discriminate].
        apply (IH _ _ He' H).
      * destruct (_ && _); [discriminate|].
        destruct (drop_underscores (Some a) (b :: l)) as [l''|] eqn:E;
          [|discriminate].
        simpl in H. injection H as <-. apply ends_in_cons.
        apply (IH _ _ He' E).
Qed.

Lemma read_sign_ends_in c l :
  Ascii.eqb c "-" = false -> Ascii.eqb c "+" = false ->
  ends_in c l -> ends_in c (snd (read_sign l)).
Proof.
  intros Hm Hp He. destruct l as [|a l]; [exact He|].
  unfold read_sign.
  assert (Ht : l <> [] -> ends_in c l) by (apply (ends_in_tail c a); exact He).
  destruct (Ascii.eqb a "-") eqn:E1.
  - simpl. apply Ht. intros ->. apply ends_in_single in He. congruence.
  - destruct (Ascii.eqb a "+") eqn:E2.
    + simpl. apply Ht. intros ->. apply ends_in_single in He. congruence.
    + exact He.
Qed.

Lemma span_digits_ends_in c :
  is_digit c = false ->
  forall l, ends_in c l -> ends_in c (snd (span_digits l)).
Proof.
  intros Hc. induction l as [|a l IH]; intros He.
  - exact He.
  - simpl. destruct (is_digit a) eqn:Ea; [|exact He].
    assert (He' : ends_in c l).
    { apply (ends_in_tail c a); [exact He|].
      intros ->. apply ends_in_single in He. congruence. }
    specialize (IH He'). destruct (span_digits l). exact IH.
Qed.

Lemma read_exponent_ends_in c l :
  is_digit c = false -> Ascii.eqb c "-" = false -> Ascii.eqb c "+" = false ->
  Ascii.eqb (lower_char c) "e" = false ->
  ends_in c l -> ends_in c (snd (read_exponent l)).
Proof.
  intros Hd Hm Hp Hx He. destruct l as [|a l]; [exact He|].
  unfold read_exponent.
  destruct (Ascii.eqb (lower_char a) "e") eqn:Ea; [|exact He].
  assert (He' : ends_in c l).
  { apply (ends_in_tail c a); [exact He|].
    intros ->. apply ends_in_single in He. congruence. }
  pose proof (read_sign_ends_in c l Hm Hp He') as Hs.
  destruct (read_sign l) as [neg l2]. simpl in Hs.
  pose proof (span_digits_ends_in c Hd l2 Hs) as Hr.
  destruct (span_digits l2) as [ds r]. simpl in Hr.
  destruct ds; [exact He | exact Hr].
Qed.

Lemma read_decimal_ends_in c s l :
  is_digit c = false -> Ascii.eqb c "-" = false -> Ascii.eqb c "+" = false ->
  Ascii.eqb c "." = false -> Ascii.eqb (lower_char c) "e" = false ->
  ends_in c l -> read_decimal s l = None.
Proof.
  intros Hd Hm Hp Hdot Hx He. unfold read_decimal.
  pose proof (span_digits_ends_in c Hd l He) as H1.
  destruct (span_digits l) as [ip r1]. simpl in H1.
  assert (H2 : ends_in c
                 (snd (match r1 with
                       | c0 :: r1' =>
                           if Ascii.eqb c0 "."
                           then span_digits r1' else ([], r1)
                       | [] => ([], [])
                       end))).
  { destruct r1 as [|c0 r1']; [exact H1|].
    destruct (Ascii.eqb c0 ".") eqn:E; [|exact H1].
    apply span_digits_ends_in; [exact Hd|].
    apply (ends_in_tail c c0); [exact H1|].
    intros ->. apply ends_in_single in H1. congruence. }
  destruct (match r1 with
            | c0 :: r1' => _
            | [] => _
            end) as [fp r2]. simpl in H2.
  destruct (ip ++ fp)%list; [reflexivity|].
  pose proof (read_exponent_ends_in c r2 Hd Hm Hp Hx H2) as H3.
  destruct (read_exponent r2) as [ex r3]. simpl in H3.
  apply ends_in_nonempty in H3. destruct r3; [contradiction|reflexivity].
Qed.

Lemma last_char_lower c l :
  ends_in c l -> last_char (lower (str_of l)) = Some (lower_char c).
Proof.
  intros [l0 ->]. induction l0 as [|a l0 IH].
  - reflexivity.
  - change (str_of ((a :: l0) ++ [c])%list)
      with (String a (str_of (l0 ++ [c])%list)).
    simpl lower. simpl last_char. rewrite IH.
    destruct (lower (str_of (l0 ++ [c])%list)) eqn:E; [|reflexivity].
    discriminate IH.
Qed.

(** No number text ends with such a character: [float] raises. *)
Lemma float_of_string_last_char (text : string) (c : ascii) :
  never_ends_number c = true ->
  endswith text (String c "") = true ->
  float_of_string text = None.
Proof.
  unfold never_ends_number. intros Hc Hend.
  repeat (apply andb_true_iff in Hc as [Hc ?]).
  repeat match goal with H : negb _ = true |- _ => apply negb_true_iff in H end.
  apply endswith_ends_in in Hend.
  unfold float_of_string.
  pose proof (strip_ends_in is_numeric_space c _ ltac:(eassumption) Hend)
    as Estrip.
  destruct (drop_underscores None _) as [l|] eqn:E; [|reflexivity].
  pose proof (drop_underscores_ends_in c ltac:(eassumption) _ _ _ Estrip E)
    as Eclean.
  pose proof (read_sign_ends_in c l ltac:(eassumption) ltac:(eassumption)
                Eclean) as Ebody.
  destruct (read_sign l) as [s body]. simpl in Ebody.
  pose proof (last_char_lower c body Ebody) as Hl.
  assert (Hword : forall w lc, last_char w = Some lc ->
                    Ascii.eqb (lower_char c) lc = false ->
                    String.eqb (lower (str_of body)) w = false).
  { intros w lc Hw Hne.
    destruct (String.eqb_spec (lower (str_of body)) w) as [Heq|];
      [|reflexivity].
    rewrite Heq, Hw in Hl. injection Hl as ->.
    rewrite Ascii.eqb_refl in Hne. discriminate. }
  cbv zeta.
  rewrite (Hword "inf" "f"%char eq_refl) by assumption.
  rewrite (Hword "infinity" "y"%char eq_refl) by assumption.
  rewrite (Hword "nan" "n"%char eq_refl) by assumption.
  simpl. eapply read_decimal_ends_in; eassumption.
Qed.

(** X2: every text that ends in [k] or [M] and has no [e] in it decodes
    to 0.0, whatever stands in front of the suffix. *)
Lemma parse_value_letter_suffix_is_zero (text : string) :
  contains (lower text) "e" = false ->
  endswith text "k" = true \/ endswith text "M" = true ->
  parse_value text = Ok f_0.
Proof.
  intros He Hend. unfold parse_value. rewrite He.
  assert (Hnone : float_of_string text = None).
  { destruct Hend as [H|H];
      [ apply (float_of_string_last_char text "k")
      | apply (float_of_string_last_char text "M") ];
      (reflexivity || exact H). }
  assert (Hn : endswith text "n" = false).
  { destruct (endswith text "n") eqn:E; [|reflexivity].
    destruct Hend as [H|H]; discriminate (endswith_char_unique _ _ _ E H). }
  assert (Hu : endswith text "u" = false).
  { destruct (endswith text "u") eqn:E; [|reflexivity].
    destruct Hend as [H|H]; discriminate (endswith_char_unique _ _ _ E H). }
  assert (Hm : endswith text "m" = false).
  { destruct (endswith text "m") eqn:E; [|reflexivity].
    destruct Hend as [H|H]; discriminate (endswith_char_unique _ _ _ E H). }
  change multipliers with
    ([("n", f_1e_9); ("u", f_1e_6); ("m", f_1e_3); ("", f_1)]
       ++ [("k", f_1e3); ("M", f_1e6)])%list.
  rewrite find_suffix_stops_at_empty by assumption.
  unfold py_float. rewrite Hnone. reflexivity.
Qed.

(** Without an [e] or [E] in the text, [parse_value] returns a float and
    raises nothing. *)
Lemma parse_value_total_without_e (text : string) :
  contains (lower text) "e" = false ->
  exists x, parse_value text = Ok x.
Proof.
  intros He. unfold parse_value. rewrite He. eauto.
Qed.

(** The decimal conversion on values whose binary64 form is well known:
    0.1 is 0x1.999999999999ap-4 and 1e-6 is 0x1.0c6f7a0b5ed8dp-20. *)
Example float_of_string_known_values :
  float_of_string "0.1" = Some (S754_finite false 7205759403792794 (-56))
  /\ float_of_string "1e-6" = Some (S754_finite false 4722366482869645 (-72))
  /\ float_of_string " +1.5E-3 "
     = Some (S754_finite false 6917529027641082 (-62))
  /\ float_of_string "1_000" = Some (of_int 1000)
  /\ float_of_string "-inf" = Some (S754_infinity true)
  /\ float_of_string "1e400" = Some (S754_infinity false)
  /\ float_of_string "5e-324" = Some (S754_finite false 1 (-1074))
  /\ float_of_string "0x10" = None
  /\ float_of_string "1e" = None.
Proof.
  repeat split; vm_compute; reflexivity.
Qed.

Example parse_value_scientific :
  parse_value "-2.345e-6" = Ok (of_decimal true 2345 (-9)).
Proof.
  vm_compute. reflexivity.
Qed.

(** With an [e] or [E] in the text, whatever [float] raises reaches the
    caller. *)
Lemma parse_value_raises_with_e (text : string) :
  contains (lower text) "e" = true ->
  float_of_string text = None ->
  parse_value text = Raise (ValueError_float text).
Proof.
  intros He Hnum. unfold parse_value, py_float. rewrite He, Hnum.
  reflexivity.
Qed.

(** C1: a text ending in [k] or [M] is not scaled by 1e3 or 1e6: the empty
    suffix precedes both in the table and matches first, so ["5k"] and
    ["5M"] decode to 0.0, although ["5"] is a number and the same loop
    scales ["5m"] by 1e-3. ["100u"] decodes to the product 100.0 * 1e-6,
    which in binary64 is the neighbour below the float 1e-4. *)
Theorem parse_value_kilo_mega_shadowed :
  float_of_string "5" = Some (of_int 5)
  /\ parse_value "5m" = Ok (fmul (of_int 5) f_1e_3)
  /\ parse_value "5k" = Ok f_0
  /\ parse_value "5M" = Ok f_0
  /\ fmul (of_int 5) f_1e3 <> f_0
  /\ parse_value "100u" = Ok (fmul (of_int 100) f_1e_6)
  /\ feq (fmul (of_int 100) f_1e_6) (of_decimal false 1 (-4)) = false.
Proof.
  repeat split; try (vm_compute; reflexivity). vm_compute. discriminate.
Qed.

(** C4: a text that is no number but contains the letter [e] takes the
    scientific-notation branch, whose [float(text)] is not guarded: the
    ValueError reaches the caller of [parse_value] instead of 0.0. The same
    text without the letter is decoded to 0.0. *)
Theorem parse_value_garbage_raises :
  float_of_string "garbage" = None
  /\ parse_value "garbage" = Raise (ValueError_float "garbage")
  /\ parse_value "garbag" = Ok f_0.
Proof.
  repeat split; vm_compute; reflexivity.
Qed.

End ValueDecoder.

(** ** DeviceSession: [parse_data_line] *)
Section ResponseLine.
Import Py Runner Examples.

(** C2: the example line of the source yields one sample; its current is
    -2.345, but its potential is -0.0005 and not -0.5: the suffix [m] has
    already scaled -500 to -0.5 when the result is divided by 1000.0. *)
Theorem parse_data_line_example :
  parse_value "-500m" = Ok (of_decimal true 5 (-1))
  /\ parse_data_line [] example_line
     = [ {| potential := Some (of_decimal true 5 (-4));
            current := Some (of_decimal true 2345 (-3)) |} ]
  /\ feq (of_decimal true 5 (-4)) (of_decimal true 5 (-1)) = false.
Proof.
  repeat split; vm_compute; reflexivity.
Qed.

End ResponseLine.

(** ** DeviceSession: the receive loop, [run] and [main] *)
Section Session.
Import Py Runner Examples.

Lemma receive_eq (dev : device) (fuel : nat) (timeout_counter : nat)
  (r : runner) :
  receive dev fuel timeout_counter r =
  if (max_timeout <=? timeout_counter)%nat then
    Some (TimedOut, timeout_counter, r)
  else
    match fuel with
    | O => None
    | S fuel' =>
        let r1 := polled r in
        match reads dev (polls r) with
        | Silence => receive dev fuel' (S timeout_counter) r1
        | TimeoutException => receive dev fuel' (S timeout_counter) r1
        | ReadFailure => Some (Crashed, timeout_counter, r1)
        | Line raw =>
            let text := strip raw in
            match text with
            | EmptyString => receive dev fuel' timeout_counter r1
            | _ =>
                let r2 := emit (Print text) r1 in
                let r3 :=
                  if startswith text "P"
                  then set_points (parse_data_line (data_points r2) text) r2
                  else r2 in
                if is_end_marker text then
                  Some (Completed, timeout_counter,
                        emit (Print (newline ++ "Measurement completed")) r3)
                else if startswith text "!" then
                  let r4 := emit (Print ("Device error: " ++ text)) r3 in
                  if contains (lower text) "abort"
                  then Some (Aborted, timeout_counter, r4)
                  else receive dev fuel' 0 r4
                else receive dev fuel' 0 r3
            end
        end
    end.
Proof.
  destruct fuel; reflexivity.
Qed.


(** The loop never touches the connection or the [save_data] attribute. *)
Lemma receive_same_session (dev : device) :
  forall fuel timeout_counter r ex c r',
    receive dev fuel timeout_counter r = Some (ex, c, r') ->
    same_session r r'.
Proof.
  unfold same_session.
  induction fuel as [|fuel IH]; intros c r ex c' r' H; rewrite receive_eq in H;
    destruct (max_timeout <=? c)%nat; try discriminate;
    try (injection H as _ _ <-; split; reflexivity).
  cbv zeta in H.
  destruct (reads dev (polls r)) as [raw| | |].
  - destruct (strip raw) as [|a text]; cbv beta iota in H.
    + apply IH in H. exact H.
    + remember (String a text) as t eqn:Et. clear Et.
      remember (startswith t "P") as is_data eqn:Ed. clear Ed.
      remember (startswith t "!") as is_error eqn:Ee. clear Ee.
      assert (Hdata : same_session (polled r)
                (if is_data
                 then set_points
                        (parse_data_line
                           (data_points (emit (Print t) (polled r))) t)
                        (emit (Print t) (polled r))
                 else emit (Print t) (polled r))).
      { destruct is_data; split; reflexivity. }
      unfold same_session in Hdata. cbn [save_data connection polled] in Hdata.
      destruct (is_end_marker t).
      * injection H as _ _ <-. exact Hdata.
      * destruct is_error.
        -- destruct (contains (lower t) "abort").
           ++ injection H as _ _ <-. exact Hdata.
           ++ apply IH in H. cbn [save_data connection emit] in H.
              destruct H as [H1 H2]. rewrite H1, H2. exact Hdata.
        -- apply IH in H. destruct H as [H1 H2]. rewrite H1, H2. exact Hdata.
  - apply IH in H. exact H.
  - apply IH in H. exact H.
  - injection H as _ _ <-. split; reflexivity.
Qed.

(** Sending touches the trace only; with every write accepted it succeeds. *)
Lemma send_lines_frame (dev : device) :
  forall lines n r ok n' r',
    send_lines dev n lines r = (ok, n', r') ->
    same_session r r' /\ data_points r' = data_points r
    /\ polls r' = polls r.
Proof.
  unfold same_session.
  induction lines as [|line rest IH]; intros n r ok n' r' H; simpl in H.
  - injection H as _ _ <-. repeat split; reflexivity.
  - destruct (write_ok dev n).
    + apply IH in H. exact H.
    + injection H as _ _ <-. repeat split; reflexivity.
Qed.



Lemma disconnect_points (dev : device) (r : runner) :
  data_points (disconnect dev r) = data_points r
  /\ polls (disconnect dev r) = polls r.
Proof.
  unfold disconnect. destruct (connection r); [destruct (close_ok dev)|];
    split; reflexivity.
Qed.




End Session.

(** ** The measurement process as the queue worker sees it *)
Section ExitStatus.
Import Py Runner Examples.

(** A receive loop that was left through its bound makes [run_script]
    return True. *)
Lemma run_script_true_on_timeout (dev : device) (fuel : nat) (script : string)
  (r r' : runner) (b : bool) :
  run_script dev fuel script r = Some (b, Some TimedOut, r') -> b = true.
Proof.
  unfold run_script. intros H.
  destruct (connection r); cbn [negb] in H; [|discriminate].
  match type of H with
  | context [send_lines dev 0 ?ls ?r0] =>
      destruct (send_lines dev 0 ls r0) as [[ok n] r1]
  end.
  destruct ok; [|discriminate].
  destruct (write_ok dev n); cbn [negb] in H; [|discriminate].
  match type of H with
  | context [receive dev fuel 0 ?r2] =>
      destruct (receive dev fuel 0 r2) as [[[ex c] r3]|]; [|discriminate]
  end.
  destruct ex; congruence.
Qed.

(** C10: one sample followed by silence. The receive loop is left through
    its bound after 601 polls and [run_script] returns True with the sample
    collected; [run] then calls [self.save_data()], which raises TypeError
    because the attribute is a bool; the connection is still closed, the
    process ends with status 1 and the worker marks the entry failed. *)
Theorem timed_out_with_sample_exits_1 :
  match run_script one_sample_device 601 "e" (set_connection true (init true))
  with
  | Some (true, Some TimedOut, r) =>
      polls r = 601%nat /\ List.length (data_points r) = 1%nat
  | _ => False
  end
  /\ match run one_sample_device 601 (Some "e") (init true) with
     | Some (Raise TypeError_not_callable, Some TimedOut, r) =>
         existsb (fun e => match e with Close => true | _ => false end)
                 (trace r) = true
     | _ => False
     end
  /\ main one_sample_device 601 (Gui.script_path measurement_entry) true
          (Some "e") = Some 1
  /\ Gui.status
       (fst (Gui.execute_measurement failing_bench 0 measurement_entry))
     = Gui.failed.
Proof.
  split; [|split; [|split]].
  - vm_compute. split; reflexivity.
  - vm_compute. reflexivity.
  - vm_compute. reflexivity.
  - reflexivity.
Qed.

(** A measurement that completes with one sample ends the same way: the
    end marker leaves the loop after two polls, and the call of
    [self.save_data()] raises. An abort line ends the loop at once, with no
    sample, and [run] returns 0. *)
Example completed_and_aborted_sessions :
  match run completing_device 2 (Some "e") (init true) with
  | Some (Raise TypeError_not_callable, Some Completed, r) =>
      polls r = 2%nat /\ List.length (data_points r) = 1%nat
  | _ => False
  end
  /\ match run aborting_device 1 (Some "e") (init true) with
     | Some (Ok 0, Some Aborted, r) =>
         polls r = 1%nat /\ data_points r = []
     | _ => False
     end.
Proof.
  split; vm_compute; split; reflexivity.
Qed.

End ExitStatus.

(** ** QueueScheduler *)
Section Scheduler.
Import Py Gui Examples.

Lemma execute_pump_action_terminal (b : bench) (pump : option pump_driver)
  (item : queue_item) :
  terminal (status (fst (execute_pump_action b pump item))) = true
  /\ entry_of (fst (execute_pump_action b pump item)) = entry_of item.
Proof.
  unfold execute_pump_action.
  destruct pump as [drv|]; [|split; reflexivity].
  destruct (pump_attempt b drv item) as [fx [e|]]; split; reflexivity.
Qed.

Lemma execute_measurement_terminal (b : bench) (round : nat)
  (item : queue_item) :
  terminal (status (fst (execute_measurement b round item))) = true
  /\ entry_of (fst (execute_measurement b round item)) = entry_of item.
Proof.
  unfold execute_measurement.
  destruct (script_path item) as [path|]; [|split; reflexivity].
  destruct (process b round path) as [code|]; [|split; reflexivity].
  destruct (code =? 0); split; reflexivity.
Qed.

(** Whatever happens in a round, the entry ends completed, failed or
    skipped, and nothing but its status has changed. *)
Lemma dispatch_terminal (b : bench) (pump : option pump_driver) (round : nat)
  (current : queue_item) :
  terminal (status (fst (dispatch b pump round current))) = true
  /\ entry_of (fst (dispatch b pump round current)) = entry_of current.
Proof.
  unfold dispatch. cbn [type set_status].
  destruct (startswith (type current) "PUMP_").
  - destruct (execute_pump_action_terminal b pump (set_status running current))
      as [Ht He].
    destruct (execute_pump_action b pump (set_status running current)).
    split; [exact Ht | exact He].
  - destruct (execute_measurement_terminal b round (set_status running current))
      as [Ht He].
    destruct (execute_measurement b round (set_status running current)).
    split; [exact Ht | exact He].
Qed.

(** The loop pops a prefix of the queue: the popped entries are the first
    entries of the queue, each with a terminal status, and what is left is
    the rest of the queue, untouched. Without a stop request nothing is
    left. *)
Lemma queue_loop_pops_prefix (b : bench) (pump : option pump_driver) :
  forall queue round run dispatched remaining fx,
    queue_loop b pump round queue run = (dispatched, remaining, fx) ->
    remaining = skipn (List.length dispatched) queue
    /\ map entry_of dispatched
       = map entry_of (firstn (List.length dispatched) queue)
    /\ Forall (fun i => terminal (status i) = true) dispatched
    /\ ((forall n, stop_requested b n = false) -> run = true ->
        remaining = []).
Proof.
  induction queue as [|current rest IH];
    intros round run dispatched remaining fx H; simpl in H.
  - injection H as <- <- _. repeat split; auto.
  - destruct run.
    + destruct (dispatch_terminal b pump round current) as [Ht He].
      destruct (dispatch b pump round current) as [item fx0].
      destruct (queue_loop b pump (S round) rest
                  (negb (stop_requested b round)))
        as [[dispatched' remaining'] fx'] eqn:Hloop.
      injection H as <- <- _.
      apply IH in Hloop. destruct Hloop as (Hr & Hm & Hf & Hstop).
      cbn [fst] in Ht, He. cbn [List.length skipn firstn map].
      repeat split.
      * exact Hr.
      * rewrite He, Hm. reflexivity.
      * constructor; assumption.
      * intros Hno _. apply Hstop; [exact Hno|]. rewrite Hno. reflexivity.
    + injection H as <- <- _. repeat split; auto. intros _ Hrun.
      discriminate Hrun.
Qed.

(** C3: a measurement that fails, followed by a dispense that succeeds:
    after [run_queue] the two entries have been popped with the statuses
    failed and completed, the queue is empty and the running flag is
    cleared. In general the worker pops a prefix of the queue in order,
    every popped entry has ended completed, failed or skipped, and without
    a stop request the whole queue is popped. *)
Theorem queue_failure_does_not_block :
  (forall b pump round queue run dispatched remaining fx,
      queue_loop b pump round queue run = (dispatched, remaining, fx) ->
      remaining = skipn (List.length dispatched) queue
      /\ map entry_of dispatched
         = map entry_of (firstn (List.length dispatched) queue)
      /\ Forall (fun i => terminal (status i) = true) dispatched
      /\ ((forall n, stop_requested b n = false) -> run = true ->
          remaining = []))
  /\ (forall b g m d path drv volume,
         measurement_queue g = [m; d] ->
         is_running g = false ->
         startswith (type m) "PUMP_" = false ->
         script_path m = Some path ->
         process b 0 path <> Exited 0 ->
         stop_requested b 0 = false ->
         startswith (type d) "PUMP_" = true ->
         action d = Some "dispense" ->
         pump g = Some drv ->
         int_of_float (or_default f_0 (parameter d)) = Ok volume ->
         drv (dispense (or_default 1 (port d)) volume) = true ->
         exists g',
           run_queue b g
           = (g', [set_status failed m; set_status completed d])
           /\ measurement_queue g' = []
           /\ is_running g' = false).
Proof.
  split.
  - intros b pump round queue run dispatched remaining fx H.
    exact (queue_loop_pops_prefix b pump queue round run _ _ _ H).
  - intros b g m d path drv volume Hq Hrun Hm Hpath Hexit Hstop Hd Hact
      Hpump Hvol Hcall.
    unfold run_queue. rewrite Hq, Hrun.
    unfold execute_queue_serial.
    cbn [pump measurement_queue is_running set_running].
    rewrite Hq, Hpump. cbn [queue_loop].
    unfold dispatch. cbn [type set_status]. rewrite Hm, Hd.
    unfold execute_measurement. cbn [script_path set_status]. rewrite Hpath.
    assert (Hfailed :
              (let (item, fx) :=
                 match process b 0 path with
                 | Exited return_code =>
                     if return_code =? 0
                     then (set_status completed (set_status running m),
                           [Spawned path; SetStatus completed])
                     else (set_status failed (set_status running m),
                           [Spawned path; SetStatus failed])
                 | SpawnFailed =>
                     (set_status failed (set_status running m),
                      [Console "Error"; SetStatus failed])
                 end in item) = set_status failed m).
    { destruct (process b 0 path) as [code|]; [|reflexivity].
      destruct (Z.eqb_spec code 0) as [->|]; [|reflexivity].
      exfalso. apply Hexit. reflexivity. }
    destruct (match process b 0 path with
              | Exited return_code => _
              | SpawnFailed => _
              end) as [item1 fx1].
    rewrite Hstop. cbn [negb].
    unfold execute_pump_action, pump_attempt.
    cbn [action port parameter set_status]. rewrite Hact.
    cbn [String.eqb Ascii.eqb Bool.eqb].
    rewrite Hvol. unfold call. rewrite Hcall.
    cbv beta iota zeta. subst item1.
    eexists. split; [reflexivity|]. split; reflexivity.
Qed.

(** A CV entry whose process exits with status 1, then a dispense of 100 uL
    to port 2 on a pump that answers. *)
Lemma queue_failure_does_not_block_witness :
  exists g',
    run_queue failing_bench (idle_window [measurement_entry; dispense_entry])
    = (g', [set_status failed measurement_entry;
            set_status completed dispense_entry])
    /\ measurement_queue g' = []
    /\ is_running g' = false.
Proof.
  apply (proj2 queue_failure_does_not_block failing_bench
           (idle_window [measurement_entry; dispense_entry])
           measurement_entry dispense_entry
           "methods/2024-01-01/001_cv.ms" willing_pump 100).
  - reflexivity.
  - reflexivity.
  - reflexivity.
  - reflexivity.
  - discriminate.
  - reflexivity.
  - reflexivity.
  - reflexivity.
  - reflexivity.
  - vm_compute. reflexivity.
  - reflexivity.
Defined.

(** C9: [clear_queue] while the running flag is set shows the warning and
    changes nothing else: the queue, the flag, the script and the pump
    handle are as before. *)
Theorem clear_queue_rejected_while_running (g : gui) :
  is_running g = true ->
  clear_queue g
  = log [ShowWarning "Queue Running" "Cannot clear queue while running"] g
  /\ measurement_queue (clear_queue g) = measurement_queue g
  /\ is_running (clear_queue g) = true.
Proof.
  intros Hrun. unfold clear_queue. rewrite Hrun.
  repeat split. exact Hrun.
Qed.

Lemma clear_queue_rejected_while_running_witness :
  clear_queue (busy_window [measurement_entry; dispense_entry])
  = log [ShowWarning "Queue Running" "Cannot clear queue while running"]
        (busy_window [measurement_entry; dispense_entry])
  /\ measurement_queue
       (clear_queue (busy_window [measurement_entry; dispense_entry]))
     = [measurement_entry; dispense_entry]
  /\ is_running
       (clear_queue (busy_window [measurement_entry; dispense_entry]))
     = true.
Proof.
  apply (clear_queue_rejected_while_running
           (busy_window [measurement_entry; dispense_entry])).
  reflexivity.
Defined.

(** With the flag cleared the same call empties the queue. *)
Lemma clear_queue_when_idle (g : gui) :
  is_running g = false -> measurement_queue (clear_queue g) = [].
Proof.
  intros Hrun. unfold clear_queue. rewrite Hrun. reflexivity.
Qed.

End Scheduler.

(** ** ScriptEncoder *)
Section Encoder.
Import Py Gui Examples.

Lemma cond_Zopp_mul (s : bool) (a b : Z) :
  cond_Zopp s (a * b) = cond_Zopp s a * b.
Proof.
  destruct s; simpl; lia.
Qed.

(** [int(x)] is truncation toward zero. *)
Lemma int_of_float_truncates (x : float) (z : Z) :
  int_of_float x = Ok z <-> truncate x = Some z.
Proof.
  destruct x as [s|s| |s m e]; simpl.
  - split; intros H; inversion H; reflexivity.
  - split; intros H; discriminate.
  - split; intros H; discriminate.
  - assert (E : cond_Zopp s
                  match e with
                  | Z.neg k => Z.shiftr (Z.pos m) (Z.pos k)
                  | _ => Z.shiftl (Z.pos m) e
                  end
                = Z.quot (cond_Zopp s (Z.pos m) * 2 ^ Z.max e 0)
                         (2 ^ Z.max (- e) 0)).
    { destruct e as [|k|k].
      - simpl Z.max. rewrite Z.pow_0_r, Z.mul_1_r, Z.quot_1_r.
        reflexivity.
      - replace (Z.max (Z.pos k) 0) with (Z.pos k) by lia.
        replace (Z.max (- Z.pos k) 0) with 0 by lia.
        rewrite Z.pow_0_r, Z.quot_1_r, Z.shiftl_mul_pow2 by lia.
        apply cond_Zopp_mul.
      - replace (Z.max (Z.neg k) 0) with 0 by lia.
        replace (Z.max (- Z.neg k) 0) with (Z.pos k) by lia.
        rewrite Z.pow_0_r, Z.mul_1_r, Z.shiftr_div_pow2 by lia.
        assert (Hpos : 0 < 2 ^ Z.pos k) by (apply Z.pow_pos_nonneg; lia).
        destruct s; simpl cond_Zopp.
        + change (Z.neg m) with (- Z.pos m).
          rewrite Z.quot_opp_l by lia.
          rewrite Z.quot_div_nonneg by lia. reflexivity.
        + rewrite Z.quot_div_nonneg by lia. reflexivity. }
    rewrite E. split; intros H; inversion H; reflexivity.
Qed.

Lemma finite_truncates (x : float) :
  finite x = true -> exists z, truncate x = Some z.
Proof.
  destruct x; simpl; intros H; try discriminate; eauto.
Qed.

(** *** The characters of number texts *)

Lemma number_char_space c : is_numeric_space c = true -> number_char c = true.
Proof. intros H. unfold number_char. rewrite H. reflexivity. Qed.

Lemma number_char_digit c : is_digit c = true -> number_char c = true.
Proof.
  intros H. unfold number_char. rewrite H, orb_true_r. reflexivity.
Qed.

Lemma number_char_mark c :
  In c ["+"; "-"; "."; "_"]%char -> number_char c = true.
Proof.
  intros H. unfold number_char.
  assert (E : existsb (Ascii.eqb c) ["+"; "-"; "."; "_"]%char = true).
  { apply existsb_exists. exists c. split; [exact H | apply Ascii.eqb_refl]. }
  rewrite E, orb_true_r. reflexivity.
Qed.

Lemma number_char_letter c :
  In (lower_char c) ["e"; "i"; "n"; "f"; "t"; "y"; "a"]%char ->
  number_char c = true.
Proof.
  intros H. unfold number_char.
  assert (E : existsb (Ascii.eqb (lower_char c))
                ["e"; "i"; "n"; "f"; "t"; "y"; "a"]%char = true).
  { apply existsb_exists. exists (lower_char c).
    split; [exact H | apply Ascii.eqb_refl]. }
  rewrite E, orb_true_r. reflexivity.
Qed.

Lemma lstrip_chars_in space c l :
  In c l -> space c = true \/ In c (lstrip_chars space l).
Proof.
  induction l as [|a l IH]; simpl; [tauto|].
  intros [-> | H].
  - destruct (space c) eqn:E; [left; reflexivity | right; left; reflexivity].
  - destruct (space a); [apply IH; exact H | right; right; exact H].
Qed.

Lemma strip_chars_in space c l :
  In c l -> space c = true \/ In c (strip_chars space l).
Proof.
  intros H. unfold strip_chars.
  destruct (lstrip_chars_in space c l H) as [Hs | H1]; [left; exact Hs|].
  apply in_rev in H1.
  destruct (lstrip_chars_in space c _ H1) as [Hs | H2]; [left; exact Hs|].
  right. apply in_rev in H2. exact H2.
Qed.

Lemma drop_underscores_in c :
  forall l prev l',
    drop_underscores prev l = Some l' ->
    In c l -> c = underscore \/ In c l'.
Proof.
  induction l as [|a l IH]; intros prev l' H Hin; [destruct Hin|].
  simpl in H. destruct (Ascii.eqb a underscore) eqn:E.
  - apply Ascii.eqb_eq in E. subst a.
    destruct prev as [p|]; [|discriminate].
    destruct (is_digit p); [|discriminate].
    destruct Hin as [<- | Hin]; [left; reflexivity | eapply IH; eassumption].
  - match type of H with
    | (if ?g then _ else _) = _ => destruct g; [discriminate|]
    end.
    destruct (drop_underscores (Some a) l) as [l0|] eqn:D; [|discriminate].
    injection H as <-.
    destruct Hin as [<- | Hin]; [right; left; reflexivity|].
    destruct (IH _ _ D Hin) as [Hu | Hl]; [left; exact Hu | right; right; exact Hl].
Qed.

Lemma read_sign_in c l :
  In c l -> In c ["+"; "-"; "."; "_"]%char \/ In c (snd (read_sign l)).
Proof.
  destruct l as [|a l]; [intros []|]. unfold read_sign.
  destruct (Ascii.eqb a "-") eqn:E1.
  - apply Ascii.eqb_eq in E1. subst a.
    intros [<- | H]; [left; simpl; tauto | right; exact H].
  - destruct (Ascii.eqb a "+") eqn:E2.
    + apply Ascii.eqb_eq in E2. subst a.
      intros [<- | H]; [left; simpl; tauto | right; exact H].
    + intros H. right. exact H.
Qed.

Lemma span_digits_in c :
  forall l, In c l -> is_digit c = true \/ In c (snd (span_digits l)).
Proof.
  induction l as [|a l IH]; [intros []|].
  simpl. destruct (is_digit a) eqn:E.
  - destruct (span_digits l) as [ds r]. cbn [snd] in *.
    intros [<- | H]; [left; exact E | apply IH; exact H].
  - intros H. right. exact H.
Qed.

Lemma lower_in c :
  forall l, In c l -> In (lower_char c) (chars (lower (str_of l))).
Proof.
  induction l as [|a l IH]; [intros []|].
  intros [<- | H]; [left; reflexivity | right; apply IH; exact H].
Qed.

Lemma read_exponent_in c l :
  snd (read_exponent l) = [] -> In c l -> number_char c = true.
Proof.
  destruct l as [|a l]; [intros _ []|]. unfold read_exponent.
  destruct (Ascii.eqb (lower_char a) "e") eqn:E; [|discriminate].
  apply Ascii.eqb_eq in E.
  pose proof (read_sign_in c l) as Hsign.
  destruct (read_sign l) as [neg l2]. cbn [snd] in Hsign.
  pose proof (span_digits_in c l2) as Hspan.
  destruct (span_digits l2) as [ds r]. cbn [snd] in Hspan.
  destruct ds; [discriminate|]. cbn [snd]. intros ->.
  intros [<- | H].
  - apply number_char_letter. rewrite E. left. reflexivity.
  - destruct (Hsign H) as [Hm | H2]; [apply number_char_mark; exact Hm|].
    destruct (Hspan H2) as [Hd | []]. apply number_char_digit. exact Hd.
Qed.

Lemma read_decimal_in c s l x :
  read_decimal s l = Some x -> In c l -> number_char c = true.
Proof.
  unfold read_decimal.
  pose proof (span_digits_in c l) as H1.
  destruct (span_digits l) as [ip r1]. cbn [snd] in H1.
  assert (H2 : In c r1 ->
               number_char c = true
               \/ In c (snd match r1 with
                            | a :: r1' =>
                                if Ascii.eqb a "."
                                then span_digits r1' else ([], r1)
                            | [] => ([], [])
                            end)).
  { destruct r1 as [|a r1']; [intros []|].
    destruct (Ascii.eqb a ".") eqn:E.
    - apply Ascii.eqb_eq in E. subst a.
      intros [<- | H]; [left; apply number_char_mark; simpl; tauto|].
      destruct (span_digits_in c r1' H) as [Hd | Hr];
        [left; apply number_char_digit; exact Hd | right; exact Hr].
    - intros H. right. exact H. }
  destruct (match r1 with
            | a :: r1' =>
                if Ascii.eqb a "." then span_digits r1' else ([], r1)
            | [] => ([], [])
            end) as [fp r2].
  cbn [snd] in H2.
  destruct (ip ++ fp)%list; [discriminate|].
  pose proof (read_exponent_in c r2) as H3.
  destruct (read_exponent r2) as [ex r3]. cbn [snd] in H3.
  destruct r3; [|discriminate]. intros _ Hin.
  destruct (H1 Hin) as [Hd | Hr1]; [apply number_char_digit; exact Hd|].
  destruct (H2 Hr1) as [Hok | Hr2]; [exact Hok|].
  apply H3; [reflexivity | exact Hr2].
Qed.

(** Every character of a text [float] accepts is a number character. *)
Lemma float_text_chars (text : string) (x : float) (c : ascii) :
  float_of_string text = Some x -> In c (chars text) -> number_char c = true.
Proof.
  unfold float_of_string. intros H Hin.
  destruct (strip_chars_in is_numeric_space c _ Hin) as [Hs | H1];
    [apply number_char_space; exact Hs|].
  destruct (drop_underscores None
              (strip_chars is_numeric_space (chars text))) as [l|] eqn:D;
    [|discriminate].
  destruct (drop_underscores_in c _ _ _ D H1) as [-> | H2];
    [reflexivity|].
  pose proof (read_sign_in c l H2) as Hsign.
  destruct (read_sign l) as [s body]. cbn [snd] in Hsign.
  destruct Hsign as [Hm | H3]; [apply number_char_mark; exact Hm|].
  pose proof (lower_in c body H3) as Hlow.
  destruct (String.eqb (lower (str_of body)) "inf") eqn:E1.
  { apply String.eqb_eq in E1. rewrite E1 in Hlow.
    apply number_char_letter. simpl in Hlow. simpl. tauto. }
  destruct (String.eqb (lower (str_of body)) "infinity") eqn:E2.
  { apply String.eqb_eq in E2. rewrite E2 in Hlow.
    apply number_char_letter. simpl in Hlow. simpl. tauto. }
  cbn [orb] in H.
  destruct (String.eqb (lower (str_of body)) "nan") eqn:E3.
  { apply String.eqb_eq in E3. rewrite E3 in Hlow.
    apply number_char_letter. simpl in Hlow. simpl. tauto. }
  eapply read_decimal_in; eassumption.
Qed.

(** Every character of a text [int] accepts is a number character. *)
Lemma int_text_chars (text : string) (z : Z) (c : ascii) :
  int_of_string text = Some z -> In c (chars text) -> number_char c = true.
Proof.
  unfold int_of_string. intros H Hin.
  destruct (strip_chars_in is_numeric_space c _ Hin) as [Hs | H1];
    [apply number_char_space; exact Hs|].
  destruct (drop_underscores None
              (strip_chars is_numeric_space (chars text))) as [l|] eqn:D;
    [|discriminate].
  destruct (drop_underscores_in c _ _ _ D H1) as [-> | H2];
    [reflexivity|].
  pose proof (read_sign_in c l H2) as Hsign.
  destruct (read_sign l) as [s body]. cbn [snd] in Hsign.
  destruct Hsign as [Hm | H3]; [apply number_char_mark; exact Hm|].
  pose proof (span_digits_in c body H3) as Hspan.
  destruct (span_digits body) as [ds r]. cbn [snd] in Hspan.
  destruct ds; [discriminate|]. destruct r; [|discriminate].
  destruct Hspan as [Hd | []]. apply number_char_digit. exact Hd.
Qed.

(** *** Counting the lines of a script *)

Lemma split_cons (sep : ascii) (s : string) :
  exists h t, split sep s = h :: t.
Proof.
  induction s as [|c s (h & t & IH)]; [eexists _, _; reflexivity|].
  simpl. rewrite IH. destruct (Ascii.eqb c sep); eexists _, _; reflexivity.
Qed.

Lemma prefix_first_line :
  forall text word,
    (forall c, In c (chars word) -> c <> newline_char) ->
    String.prefix word text
    = String.prefix word (hd "" (split newline_char text)).
Proof.
  induction text as [|a t IH]; intros word Hw; [reflexivity|].
  destruct word as [|w word']; [rewrite !prefix_empty; reflexivity|].
  cbn [split].
  destruct (split_cons newline_char t) as (h & others & Hsplit).
  specialize (IH word' (fun c H => Hw c (or_intror H))).
  rewrite Hsplit in *. cbn [hd] in IH.
  destruct (Ascii.eqb a newline_char) eqn:E.
  - apply Ascii.eqb_eq in E. subst a. cbn [hd String.prefix].
    destruct (ascii_dec w newline_char) as [Heq | _]; [|reflexivity].
    exfalso. apply (Hw w); [left; reflexivity | exact Heq].
  - cbn [hd String.prefix]. rewrite IH. reflexivity.
Qed.

Lemma line_starts_eq (word : string) (at_start : bool) (text : string) :
  line_starts word at_start text
  = ((if String.prefix word text then (if at_start then 1 else 0) else 0)
     + match text with
       | EmptyString => 0
       | String c rest => line_starts word (Ascii.eqb c newline_char) rest
       end)%nat.
Proof. destruct text; reflexivity. Qed.

Lemma line_starts_tail (word : string) :
  (forall c, In c (chars word) -> c <> newline_char) ->
  forall text,
    match text with
    | EmptyString => 0%nat
    | String c rest => line_starts word (Ascii.eqb c newline_char) rest
    end
    = List.length (filter (fun line => startswith line word)
                          (tl (split newline_char text))).
Proof.
  intros Hw. induction text as [|a t IH]; [reflexivity|].
  rewrite line_starts_eq, IH. cbn [split].
  rewrite (prefix_first_line t word Hw).
  destruct (split_cons newline_char t) as (h & others & Hsplit).
  rewrite Hsplit. cbn [hd tl].
  destruct (Ascii.eqb a newline_char); cbn [tl filter].
  - unfold startswith. destruct (String.prefix word h); reflexivity.
  - destruct (String.prefix word h); reflexivity.
Qed.

(** Counting while reading counts the lines. *)
Lemma count_lines_scan (word text : string) :
  (forall c, In c (chars word) -> c <> newline_char) ->
  count_lines word text = line_starts word true text.
Proof.
  intros Hw. rewrite line_starts_eq, (line_starts_tail word Hw).
  unfold count_lines. rewrite (prefix_first_line text word Hw).
  destruct (split_cons newline_char text) as (h & others & Hsplit).
  rewrite Hsplit. cbn [hd tl filter]. unfold startswith.
  destruct (String.prefix word h); reflexivity.
Qed.

(** A field without the first character of [word] starts no line that
    begins with [word]. *)
Lemma line_starts_field (w : ascii) (word f rest : string) :
  (forall c, In c (chars f) -> c <> w) ->
  forall at_start,
    line_starts (String w word) at_start (f ++ rest)
    = line_starts (String w word) (flag_after at_start f) rest.
Proof.
  induction f as [|c f IH]; intros Hf at_start; [reflexivity|].
  cbn [append]. rewrite line_starts_eq. cbn [String.prefix flag_after].
  destruct (ascii_dec w c) as [Heq | _].
  - exfalso. apply (Hf c); [left; reflexivity | symmetry; exact Heq].
  - cbn [Nat.add]. apply IH. intros d Hd. apply Hf. right. exact Hd.
Qed.

(** *** The decimal text of an int *)

Lemma uint_text_digits (d : Decimal.uint) (c : ascii) :
  In c (chars (NilEmpty.string_of_uint d)) -> is_digit c = true.
Proof.
  induction d; simpl; intros H; try contradiction;
    (destruct H as [<- | H]; [reflexivity | apply IHd; exact H]).
Qed.











(** The decimal text of an int consists of digits and a sign. *)
Lemma str_of_int_chars (z : Z) (c : ascii) :
  In c (chars (str_of_int z)) -> number_char c = true.
Proof.
  unfold str_of_int.
  assert (Hu : forall d, In c (chars (NilZero.string_of_uint d)) ->
                         number_char c = true).
  { intros d H. apply number_char_digit.
    destruct d; try (apply (uint_text_digits _ _ H)).
    destruct H as [<- | []]. reflexivity. }
  destruct (Z.to_int z) as [d | d]; cbn [NilZero.string_of_int].
  - exact (Hu d).
  - intros [<- | H]; [reflexivity | exact (Hu d H)].
Qed.

(** *** The conditioning block *)

Lemma line_starts_plain (w : ascii) (word f rest : string) (at_start : bool) :
  plain f ->
  number_char w = false ->
  line_starts (String w word) at_start (f ++ rest)
  = line_starts (String w word) (flag_after at_start f) rest.
Proof.
  intros Hf Hw. apply line_starts_field. intros c Hc ->.
  rewrite (Hf w Hc) in Hw. discriminate.
Qed.

Lemma parses_some {A : Type} (o : option A) :
  parses o = true -> exists a, o = Some a.
Proof. destruct o; [eauto | discriminate]. Qed.

Lemma float_text_plain (text : string) :
  parses (float_of_string text) = true -> plain text.
Proof.
  intros H c Hc. destruct (parses_some _ H) as [x Hx].
  exact (float_text_chars text x c Hx Hc).
Qed.

Lemma int_text_plain (text : string) (z : Z) :
  int_of_string text = Some z -> plain text.
Proof. intros H c Hc. exact (int_text_chars text z c H Hc). Qed.

Lemma str_of_int_plain (z : Z) : plain (str_of_int z).
Proof. intros c Hc. exact (str_of_int_chars z c Hc). Qed.

Ltac flatten :=
  repeat (cbn [String.concat List.app append]; rewrite ?append_assoc).

Ltac word_ok :=
  let c := fresh "c" in
  let H := fresh "H" in
  intros c H; cbn in H;
  repeat (destruct H as [<- | H]; [discriminate|]); destruct H.

Ltac count :=
  rewrite count_lines_scan by word_ok;
  flatten;
  repeat (simpl;
          rewrite ?line_starts_plain
            by first [assumption | apply str_of_int_plain | reflexivity]);
  reflexivity.

(** C5, as stated, fails for SWV: with 5 s of conditioning at 0.3 V the
    script holds at the begin potential -0.5, not at 0.3; without
    conditioning the SWV script switches the cell on with no [set_e 0m];
    and for a valid set whose upper range bound is not finite, such as an
    end potential of 1e308, no script is returned at all. *)
Lemma swv_hold_loop_ignores_cond_potential :
  valid_swv swv_conditioned = true
  /\ valid_swv swv_defaults = true
  /\ match create_swv_methodscript swv_conditioned with
     | Ok script =>
         has_line script "meas_loop_ca p c 0.3 100m 5" = false
         /\ has_line script "meas_loop_ca p c -0.5 100m 5" = true
     | Raise _ => False
     end
  /\ match create_swv_methodscript swv_defaults with
     | Ok script =>
         has_line script "set_e 0m" = false
         /\ has_line script "cell_on" = true
     | Raise _ => False
     end
  /\ valid_swv swv_unbounded = true
  /\ create_swv_methodscript swv_unbounded = Raise OverflowError_inf.
Proof.
  split; [|split; [|split; [|split; [|split]]]].
  - vm_compute. reflexivity.
  - vm_compute. reflexivity.
  - vm_compute. split; reflexivity.
  - vm_compute. split; reflexivity.
  - vm_compute. reflexivity.
  - vm_compute. reflexivity.
Qed.

(** C5, amended. For every valid CV parameter set the script is the
    settings, the conditioning block and the measurement loop, in that
    order. With a positive conditioning time the block is [set_e] at the
    conditioning potential, [cell_on], a comment, one hold loop
    [meas_loop_ca] at the conditioning potential for the conditioning time,
    and [endloop]; otherwise it is [set_e 0m] and [cell_on]. In the whole
    script exactly one line (no line, otherwise) starts with
    [meas_loop_ca], one with [set_e], one with [cell_on] and one with
    [meas_loop_cv].
    For every valid SWV parameter set for which a script is returned, the
    script is the settings, the three range lines, [cell_on], the
    conditioning block and the measurement loop. With a positive
    conditioning time the block is a comment, one hold loop at the begin
    potential for the conditioning time, and [endloop]; otherwise it is
    empty. In the whole script exactly one line (no line, otherwise) starts
    with [meas_loop_ca], none with [set_e], one with [cell_on] and one with
    [meas_loop_swv]. *)
Theorem conditioning_block :
  (forall p,
      valid_cv p = true ->
      exists t n script,
        float_of_string (cv_cond_time p) = Some t
        /\ int_of_string (n_scans p) = Some n
        /\ create_cv_methodscript p = Ok script
        /\ script
           = cv_settings
             ++ (if flt f_0 t then
                   "set_e " ++ cv_cond_potential p ++ nl
                   ++ "cell_on" ++ nl
                   ++ "#autorange for " ++ cv_cond_time p
                   ++ "s prior to CV" ++ nl
                   ++ "meas_loop_ca p c " ++ cv_cond_potential p
                   ++ " 100m " ++ cv_cond_time p ++ nl
                   ++ "endloop" ++ nl
                 else "set_e 0m" ++ nl ++ "cell_on" ++ nl)
             ++ cv_sweep p n
        /\ count_lines "meas_loop_ca" script
           = (if flt f_0 t then 1 else 0)%nat
        /\ count_lines "set_e" script = 1%nat
        /\ count_lines "cell_on" script = 1%nat
        /\ count_lines "meas_loop_cv" script = 1%nat)
  /\ (forall p script,
         valid_swv p = true ->
         create_swv_methodscript p = Ok script ->
         exists t lo hi,
           float_of_string (cond_time p) = Some t
           /\ script
              = swv_settings
                ++ "set_range_minmax da " ++ str_of_int lo ++ "m "
                ++ str_of_int hi ++ "m" ++ nl
                ++ "set_range ba 100u" ++ nl
                ++ "set_autoranging ba 1n 100u" ++ nl
                ++ "cell_on" ++ nl
                ++ (if flt f_0 t then
                      "#Equilibrate at " ++ begin_potential p
                      ++ " and autorange for " ++ cond_time p
                      ++ "s prior to SWV" ++ nl
                      ++ "meas_loop_ca p c " ++ begin_potential p
                      ++ " 100m " ++ cond_time p ++ nl
                      ++ "endloop" ++ nl
                    else "")
                ++ swv_sweep p
           /\ count_lines "meas_loop_ca" script
              = (if flt f_0 t then 1 else 0)%nat
           /\ count_lines "set_e" script = 0%nat
           /\ count_lines "cell_on" script = 1%nat
           /\ count_lines "meas_loop_swv" script = 1%nat).
Proof.
  split.
  - intros p Hv. unfold valid_cv in Hv.
    repeat (apply andb_prop in Hv; destruct Hv as [Hv ?]).
    destruct (int_of_string (n_scans p)) as [n|] eqn:Hn; [|discriminate].
    pose proof (int_text_plain _ _ Hn) as Hscans.
    match goal with
    | H : parses (float_of_string (cv_cond_time p)) = true |- _ =>
        pose proof (float_text_plain _ H) as Htime;
        destruct (parses_some _ H) as [t Ht]; clear H
    end.
    apply float_text_plain in Hv.
    repeat match goal with
           | H : parses (float_of_string _) = true |- _ =>
               apply float_text_plain in H
           end.
    exists t, n. eexists. split; [exact Ht|]. split; [reflexivity|].
    split; [|split].
    + unfold create_cv_methodscript, py_float, py_int.
      rewrite Ht, Hn. cbn [bind]. reflexivity.
    + unfold cv_pieces, cv_preamble, cv_conditioning, cv_measurement, nscans,
        cv_tail, cv_loop_comment, cv_loop_head, hold_loop, cv_settings,
        cv_sweep, nl, tab, Runner.newline.
      destruct (flt f_0 t), (1 <? n); flatten; reflexivity.
    + unfold cv_pieces, cv_preamble, cv_conditioning, cv_measurement, nscans,
        cv_tail, cv_loop_comment, cv_loop_head, hold_loop,
        nl, tab, Runner.newline.
      destruct (flt f_0 t), (1 <? n); repeat split; count.
  - intros p script Hv Hscript. unfold valid_swv in Hv.
    repeat (apply andb_prop in Hv; destruct Hv as [Hv ?]).
    assert (Hfreq : plain (frequency p)).
    { destruct (float_of_string (frequency p)) as [f|] eqn:Hf;
        [|discriminate].
      intros c Hc. exact (float_text_chars _ f c Hf Hc). }
    match goal with
    | H : parses (float_of_string (cond_time p)) = true |- _ =>
        pose proof (float_text_plain _ H) as Htime;
        destruct (parses_some _ H) as [t Ht]; clear H
    end.
    apply float_text_plain in Hv.
    repeat match goal with
           | H : parses (float_of_string _) = true |- _ =>
               apply float_text_plain in H
           end.
    unfold create_swv_methodscript, py_float in Hscript.
    destruct (float_of_string (begin_potential p)) as [b|];
      [|discriminate].
    destruct (float_of_string (end_potential p)) as [e|];
      [|discriminate].
    destruct (float_of_string (amplitude p)) as [a|]; [|discriminate].
    cbn [bind] in Hscript.
    destruct (int_of_float (fmul (min_pot b e a) f_1000)) as [lo|];
      [|discriminate].
    cbn [bind] in Hscript.
    destruct (int_of_float (fmul (max_pot b e a) f_1000)) as [hi|];
      [|discriminate].
    cbn [bind] in Hscript. rewrite Ht in Hscript. cbn [bind] in Hscript.
    apply ok_injective in Hscript. subst script.
    exists t, lo, hi. split; [exact Ht|].
    unfold swv_pieces, swv_preamble, swv_range, range_line, swv_conditioning,
      swv_measurement, swv_loop_head, hold_loop, swv_settings, swv_sweep,
      nl, tab, Runner.newline.
    split.
    + destruct (flt f_0 t); flatten; reflexivity.
    + destruct (flt f_0 t); repeat split; count.
Qed.

(** CV with two scans and 3 s of conditioning at 0.2 V; SWV with 5 s of
    conditioning. *)
Lemma conditioning_block_witness :
  (exists t n script,
      float_of_string (cv_cond_time cv_conditioned) = Some t
      /\ int_of_string (n_scans cv_conditioned) = Some n
      /\ create_cv_methodscript cv_conditioned = Ok script
      /\ script
         = cv_settings
           ++ (if flt f_0 t then
                 "set_e " ++ cv_cond_potential cv_conditioned ++ nl
                 ++ "cell_on" ++ nl
                 ++ "#autorange for " ++ cv_cond_time cv_conditioned
                 ++ "s prior to CV" ++ nl
                 ++ "meas_loop_ca p c " ++ cv_cond_potential cv_conditioned
                 ++ " 100m " ++ cv_cond_time cv_conditioned ++ nl
                 ++ "endloop" ++ nl
               else "set_e 0m" ++ nl ++ "cell_on" ++ nl)
           ++ cv_sweep cv_conditioned n
      /\ count_lines "meas_loop_ca" script
         = (if flt f_0 t then 1 else 0)%nat
      /\ count_lines "set_e" script = 1%nat
      /\ count_lines "cell_on" script = 1%nat
      /\ count_lines "meas_loop_cv" script = 1%nat)
  /\ (exists t lo hi,
         float_of_string (cond_time swv_conditioned) = Some t
         /\ swv_conditioned_script
            = swv_settings
              ++ "set_range_minmax da " ++ str_of_int lo ++ "m "
              ++ str_of_int hi ++ "m" ++ nl
              ++ "set_range ba 100u" ++ nl
              ++ "set_autoranging ba 1n 100u" ++ nl
              ++ "cell_on" ++ nl
              ++ (if flt f_0 t then
                    "#Equilibrate at " ++ begin_potential swv_conditioned
                    ++ " and autorange for " ++ cond_time swv_conditioned
                    ++ "s prior to SWV" ++ nl
                    ++ "meas_loop_ca p c " ++ begin_potential swv_conditioned
                    ++ " 100m " ++ cond_time swv_conditioned ++ nl
                    ++ "endloop" ++ nl
                  else "")
              ++ swv_sweep swv_conditioned
         /\ count_lines "meas_loop_ca" swv_conditioned_script
            = (if flt f_0 t then 1 else 0)%nat
         /\ count_lines "set_e" swv_conditioned_script = 0%nat
         /\ count_lines "cell_on" swv_conditioned_script = 1%nat
         /\ count_lines "meas_loop_swv" swv_conditioned_script = 1%nat).
Proof.
  split.
  - apply (proj1 conditioning_block cv_conditioned).
    vm_compute. reflexivity.
  - apply (proj2 conditioning_block swv_conditioned swv_conditioned_script).
    + vm_compute. reflexivity.
    + vm_compute. reflexivity.
Defined.

(** *** The analog range *)




(** The bound is truncated from the binary64 product: 1.001 times 1000 is
    the float just below 1001, so an end potential of 1.001 V with no
    amplitude is emitted as 1000m. *)
Lemma range_bound_of_rounded_product :
  truncate (fmul (of_decimal false 1001 (-3)) f_1000) = Some 1000.
Proof. vm_compute. reflexivity. Qed.

(** *** Malformed fields *)

(** C7, as stated, fails: a begin potential that is no number does not
    stop the CV encoder, the text reaches the measurement loop; and the
    error of the SWV encoder is the same for a malformed begin potential
    and for a malformed end potential, so it does not tell the field. *)
Lemma malformed_begin_is_encoded :
  float_of_string (cv_begin_potential cv_malformed) = None
  /\ match generate_cv_script cv_malformed (idle_window []) with
     | (Some script, _) =>
         has_line script "meas_loop_cv p c abc -0.5 0.5 0.01 0.1" = true
     | (None, _) => False
     end
  /\ generate_swv_script swv_bad_begin (idle_window [])
     = (None, log [ShowError "Error" (ValueError_float "abc")]
                  (idle_window []))
  /\ generate_swv_script swv_bad_end (idle_window [])
     = (None, log [ShowError "Error" (ValueError_float "abc")]
                  (idle_window [])).
Proof.
  split; [|split; [|split]]; vm_compute; reflexivity.
Qed.

(** C7, amended. Encoding fails exactly when a conversion the encoder
    makes fails: for CV [float] of the conditioning time, then [int] of the
    scan count; for SWV [float] of begin, end and amplitude, then [int] of
    a range bound that is NaN or infinite, then [float] of the conditioning
    time. The first conversion that fails decides the error: a ValueError
    that quotes the text of the field, or, for a range bound, the error of
    [int], which quotes nothing; no error names the field. Then no script
    is returned and the window is as before but for the error dialog.
    Otherwise a script is returned, set as the current script and
    previewed. Whether encoding fails depends on the converted fields
    alone: what the other fields hold does not matter. *)
Theorem encoding_fails_on_converted_fields :
  (forall p g,
      (float_of_string (cv_cond_time p) = None ->
       generate_cv_script p g
       = (None, log [ShowError "Error" (ValueError_float (cv_cond_time p))] g))
      /\ (parses (float_of_string (cv_cond_time p)) = true ->
          int_of_string (n_scans p) = None ->
          generate_cv_script p g
          = (None, log [ShowError "Error" (ValueError_int (n_scans p))] g))
      /\ (cv_convertible p = true ->
          exists script,
            create_cv_methodscript p = Ok script
            /\ generate_cv_script p g
               = (Some script,
                  log [UpdatePreview script; SelectScriptTab]
                      (set_script script g)))
      /\ (fst (generate_cv_script p g) = None <-> cv_convertible p = false)
      /\ (forall p',
             cv_cond_time p' = cv_cond_time p ->
             n_scans p' = n_scans p ->
             (fst (generate_cv_script p' g) = None
              <-> fst (generate_cv_script p g) = None)))
  /\ (forall p g,
         (float_of_string (begin_potential p) = None ->
          generate_swv_script p g
          = (None,
             log [ShowError "Error" (ValueError_float (begin_potential p))] g))
         /\ (parses (float_of_string (begin_potential p)) = true ->
             float_of_string (end_potential p) = None ->
             generate_swv_script p g
             = (None,
                log [ShowError "Error" (ValueError_float (end_potential p))]
                    g))
         /\ (parses (float_of_string (begin_potential p)) = true ->
             parses (float_of_string (end_potential p)) = true ->
             float_of_string (amplitude p) = None ->
             generate_swv_script p g
             = (None,
                log [ShowError "Error" (ValueError_float (amplitude p))] g))
         /\ (forall b e a,
                float_of_string (begin_potential p) = Some b ->
                float_of_string (end_potential p) = Some e ->
                float_of_string (amplitude p) = Some a ->
                finite (fmul (fsub (fmin b e) a) f_1000)
                && finite (fmul (fadd (fmax b e) a) f_1000) = false ->
                exists err,
                  (err = ValueError_nan \/ err = OverflowError_inf)
                  /\ generate_swv_script p g
                     = (None, log [ShowError "Error" err] g))
         /\ (forall b e a,
                float_of_string (begin_potential p) = Some b ->
                float_of_string (end_potential p) = Some e ->
                float_of_string (amplitude p) = Some a ->
                finite (fmul (fsub (fmin b e) a) f_1000)
                && finite (fmul (fadd (fmax b e) a) f_1000) = true ->
                float_of_string (cond_time p) = None ->
                generate_swv_script p g
                = (None,
                   log [ShowError "Error" (ValueError_float (cond_time p))]
                       g))
         /\ (swv_convertible p = true ->
             exists script,
               create_swv_methodscript p = Ok script
               /\ generate_swv_script p g
                  = (Some script,
                     log [UpdatePreview script; SelectScriptTab]
                         (set_script script g)))
         /\ (fst (generate_swv_script p g) = None
             <-> swv_convertible p = false)
         /\ (forall p',
                begin_potential p' = begin_potential p ->
                end_potential p' = end_potential p ->
                amplitude p' = amplitude p ->
                cond_time p' = cond_time p ->
                (fst (generate_swv_script p' g) = None
                 <-> fst (generate_swv_script p g) = None))).
Proof.
  assert (CV : forall p g,
             fst (generate_cv_script p g) = None
             <-> cv_convertible p = false).
  { intros p g.
    unfold generate_cv_script, create_cv_methodscript, cv_convertible,
      py_float, py_int.
    destruct (float_of_string (cv_cond_time p)) as [t|]; cbn [bind parses];
      [|split; reflexivity].
    destruct (int_of_string (n_scans p)) as [n|]; cbn [bind parses andb fst];
      split; (reflexivity || discriminate). }
  assert (SWV : forall p g,
             fst (generate_swv_script p g) = None
             <-> swv_convertible p = false).
  { intros p g.
    unfold generate_swv_script, create_swv_methodscript, swv_convertible,
      py_float.
    destruct (float_of_string (begin_potential p)) as [b|]; cbn [bind];
      [|split; reflexivity].
    destruct (float_of_string (end_potential p)) as [e|]; cbn [bind];
      [|split; reflexivity].
    destruct (float_of_string (amplitude p)) as [a|]; cbn [bind];
      [|split; reflexivity].
    destruct (fmul (min_pot b e a) f_1000) as [s|s| |s m e'];
      cbn [int_of_float bind finite andb fst];
      try (split; reflexivity);
      (destruct (fmul (max_pot b e a) f_1000) as [s2|s2| |s2 m2 e2];
       cbn [int_of_float bind finite andb fst];
       try (split; reflexivity);
       (destruct (float_of_string (cond_time p)) as [t|];
        cbn [bind parses fst]; split; (reflexivity || discriminate))). }
  split.
  - intros p g. split; [|split; [|split; [|split]]].
    + intros Ht. unfold generate_cv_script, create_cv_methodscript, py_float.
      rewrite Ht. reflexivity.
    + intros Ht Hn. destruct (parses_some _ Ht) as [t Ht'].
      unfold generate_cv_script, create_cv_methodscript, py_float, py_int.
      rewrite Ht', Hn. reflexivity.
    + intros Hc. unfold cv_convertible in Hc.
      apply andb_prop in Hc. destruct Hc as [Ht Hn].
      destruct (parses_some _ Ht) as [t Ht'].
      destruct (parses_some _ Hn) as [n Hn'].
      unfold generate_cv_script, create_cv_methodscript, py_float, py_int.
      rewrite Ht', Hn'. cbn [bind]. eexists. split; reflexivity.
    + apply CV.
    + intros p' Ht Hn. rewrite !CV. unfold cv_convertible.
      rewrite Ht, Hn. reflexivity.
  - intros p g.
    split; [|split; [|split; [|split; [|split; [|split; [|split]]]]]].
    + intros Hb.
      unfold generate_swv_script, create_swv_methodscript, py_float.
      rewrite Hb. reflexivity.
    + intros Hb He. destruct (parses_some _ Hb) as [b Hb'].
      unfold generate_swv_script, create_swv_methodscript, py_float.
      rewrite Hb', He. reflexivity.
    + intros Hb He Ha. destruct (parses_some _ Hb) as [b Hb'].
      destruct (parses_some _ He) as [e He'].
      unfold generate_swv_script, create_swv_methodscript, py_float.
      rewrite Hb', He', Ha. reflexivity.
    + intros b e a Hb He Ha Hfin.
      unfold generate_swv_script, create_swv_methodscript, py_float.
      rewrite Hb, He, Ha. cbn [bind]. unfold min_pot, max_pot.
      destruct (fmul (fsub (fmin b e) a) f_1000) as [s|s| |s m e'];
        cbn [int_of_float bind finite andb] in *;
        try (eexists; (split; [|reflexivity]); auto);
        (destruct (fmul (fadd (fmax b e) a) f_1000) as [s2|s2| |s2 m2 e2];
         cbn [int_of_float bind finite andb] in *;
         try discriminate Hfin;
         eexists; (split; [|reflexivity]); auto).
    + intros b e a Hb He Ha Hfin Ht.
      unfold generate_swv_script, create_swv_methodscript, py_float.
      rewrite Hb, He, Ha. cbn [bind]. unfold min_pot, max_pot.
      apply andb_prop in Hfin. destruct Hfin as [Hlo Hhi].
      destruct (finite_truncates _ Hlo) as [lo Hlo'].
      destruct (finite_truncates _ Hhi) as [hi Hhi'].
      apply int_of_float_truncates in Hlo', Hhi'.
      rewrite Hlo', Hhi', Ht. reflexivity.
    + intros Hc.
      destruct (create_swv_methodscript p) as [script|err] eqn:Hs.
      * exists script. split; [reflexivity|].
        unfold generate_swv_script. rewrite Hs. reflexivity.
      * exfalso. assert (Hn : fst (generate_swv_script p g) = None)
          by (unfold generate_swv_script; rewrite Hs; reflexivity).
        apply SWV in Hn. rewrite Hn in Hc. discriminate.
    + apply SWV.
    + intros p' Hb He Ha Ht. rewrite !SWV. unfold swv_convertible.
      rewrite Hb, He, Ha, Ht. reflexivity.
Qed.

(** The CV form with the conditioning time "five". *)
Lemma encoding_fails_on_converted_fields_witness :
  generate_cv_script cv_bad_time (idle_window [])
  = (None,
     log [ShowError "Error" (ValueError_float (cv_cond_time cv_bad_time))]
         (idle_window [])).
Proof.
  apply (proj1 (proj1 encoding_fails_on_converted_fields cv_bad_time
                  (idle_window []))).
  vm_compute. reflexivity.
Defined.

End Encoder.

(** ** Further properties of the value decoder *)
Section DecoderSuffixes.
Import Py Runner Examples.

Lemma parse_value_small_suffix_witness :
  parse_value "5m" = Ok (fmul (of_int 5) f_1e_3).
Proof.
  apply (parse_value_small_suffix "5m" "m" f_1e_3 (of_int 5)).
  - vm_compute. reflexivity.
  - right. right. left. reflexivity.
  - vm_compute. reflexivity.
  - vm_compute. reflexivity.
Defined.

Lemma parse_value_letter_suffix_is_zero_witness :
  parse_value "5k" = Ok f_0.
Proof.
  apply (parse_value_letter_suffix_is_zero "5k").
  - vm_compute. reflexivity.
  - left. vm_compute. reflexivity.
Defined.

End DecoderSuffixes.

(** ** Further properties of the response-line parser *)
Section ResponseFields.
Import Py Runner Examples.

(** Whether a field raises does not depend on the fields read before. *)
Lemma parse_part_raises (dp : data_point) (part : string) :
  raises (parse_part dp part) = bad_field part.
Proof.
  unfold parse_part, bad_field.
  destruct (startswith part "P").
  - destruct (parse_value (drop 1 part)); reflexivity.
  - destruct (startswith part "DA").
    + cbn [orb andb]. destruct (parse_value (drop 2 part)); reflexivity.
    + cbn [andb]. destruct (_ || _); reflexivity.
Qed.

Lemma parse_parts_raises (parts : list string) (part : string) :
  In part parts -> bad_field part = true ->
  forall dp, raises (parse_parts dp parts) = true.
Proof.
  induction parts as [|first rest IH]; intros Hin Hbad dp.
  - contradiction.
  - simpl. destruct (parse_part dp first) as [dp'|e] eqn:E.
    + cbn [bind]. destruct Hin as [->|Hin].
      * rewrite <- (parse_part_raises dp), E in Hbad. discriminate.
      * apply IH; assumption.
    + reflexivity.
Qed.

(** X3: one field whose value makes [parse_value] raise voids the whole
    response line: no sample is appended, whatever the other fields hold. *)
Theorem bad_field_voids_line (data_points : list data_point)
  (line part : string) :
  In part (split ";" line) ->
  bad_field part = true ->
  parse_data_line data_points line = data_points.
Proof.
  intros Hin Hbad. unfold parse_data_line.
  pose proof (parse_parts_raises _ _ Hin Hbad empty_point) as H.
  destruct (parse_parts empty_point (split ";" line)); [discriminate|].
  reflexivity.
Qed.

Lemma bad_field_voids_line_witness :
  parse_data_line [] spoiled_line = [].
Proof.
  apply (bad_field_voids_line [] spoiled_line "Pgarbage").
  - vm_compute. right. right. left. reflexivity.
  - vm_compute. reflexivity.
Defined.

Lemma parse_parts_keeps_current (parts : list string) :
  (forall part, In part parts -> startswith part "DA" = false) ->
  forall dp dp', parse_parts dp parts = Ok dp' -> current dp' = current dp.
Proof.
  induction parts as [|first rest IH]; intros Hno dp dp' H; simpl in H.
  - injection H as <-. reflexivity.
  - destruct (parse_part dp first) as [dp1|e] eqn:E; [|discriminate].
    cbn [bind] in H.
    assert (H1 : current dp1 = current dp).
    { unfold parse_part in E. rewrite (Hno first (or_introl eq_refl)) in E.
      destruct (startswith first "P").
      - destruct (parse_value (drop 1 first)); [|discriminate].
        injection E as <-. reflexivity.
      - cbn [orb] in E. destruct (startswith first "BA");
          injection E as <-; reflexivity. }
    rewrite <- H1. apply (IH (fun p Hp => Hno p (or_intror Hp)) _ _ H).
Qed.

Lemma parse_parts_keeps_potential (parts : list string) :
  (forall part, In part parts -> startswith part "P" = false) ->
  forall dp dp', parse_parts dp parts = Ok dp' ->
                 potential dp' = potential dp.
Proof.
  induction parts as [|first rest IH]; intros Hno dp dp' H; simpl in H.
  - injection H as <-. reflexivity.
  - destruct (parse_part dp first) as [dp1|e] eqn:E; [|discriminate].
    cbn [bind] in H.
    assert (H1 : potential dp1 = potential dp).
    { unfold parse_part in E. rewrite (Hno first (or_introl eq_refl)) in E.
      destruct (startswith first "DA").
      - cbn [orb] in E. destruct (parse_value (drop 2 first)); [|discriminate].
        injection E as <-. reflexivity.
      - cbn [orb] in E. destruct (startswith first "BA");
          injection E as <-; reflexivity. }
    rewrite <- H1. apply (IH (fun p Hp => Hno p (or_intror Hp)) _ _ H).
Qed.

(** X4: a sample needs a field that starts with [P] and a field that starts
    with [DA]: a line that lacks one of the two appends nothing, whatever
    else it holds (a [BA] field counts for neither). *)
Theorem sample_needs_both_fields (data_points : list data_point)
  (line : string) :
  (forall part, In part (split ";" line) -> startswith part "DA" = false)
  \/ (forall part, In part (split ";" line) -> startswith part "P" = false) ->
  parse_data_line data_points line = data_points.
Proof.
  intros H. unfold parse_data_line.
  destruct (parse_parts empty_point (split ";" line)) as [dp|e] eqn:E;
    [|reflexivity].
  destruct H as [H|H].
  - rewrite (parse_parts_keeps_current _ H _ _ E). cbn.
    rewrite andb_false_r. reflexivity.
  - rewrite (parse_parts_keeps_potential _ H _ _ E). reflexivity.
Qed.

Lemma sample_needs_both_fields_witness :
  parse_data_line [] "P-500m;BA100u" = [].
Proof.
  apply (sample_needs_both_fields [] "P-500m;BA100u").
  left. vm_compute. intros part [<-|[<-|[]]]; reflexivity.
Defined.

(** A line appends nothing or one sample with both keys, after the
    samples that were there. *)
Lemma parse_data_line_appends (data_points : list data_point)
  (line : string) :
  parse_data_line data_points line = data_points
  \/ exists dp, parse_data_line data_points line = (data_points ++ [dp])%list
                /\ complete dp.
Proof.
  unfold parse_data_line.
  destruct (parse_parts empty_point (split ";" line)) as [dp|e]; [|now left].
  destruct (potential dp) eqn:Ep; [|now left].
  destruct (current dp) eqn:Ec; [|now left].
  right. exists dp. split; [reflexivity|].
  unfold complete. rewrite Ep, Ec. split; discriminate.
Qed.

End ResponseFields.

(** ** Further properties of the receive loop *)
Section ReceiveLoop.
Import Py Runner Examples.

Lemma written_app (t u : list event) :
  written (t ++ u) = written t ++ written u.
Proof.
  induction t as [|e t IH]; simpl; [reflexivity|].
  destruct e; rewrite IH; try reflexivity.
  symmetry. apply append_assoc.
Qed.

Lemma written_print (r : runner) (msg : string) :
  written (trace (emit (Print msg) r)) = written (trace r).
Proof.
  cbn [trace emit]. rewrite written_app. apply append_empty_r.
Qed.

Lemma one_poll_print (r r1 : runner) (msg : string) :
  one_poll r r1 -> one_poll r (emit (Print msg) r1).
Proof.
  intros (Hp & Hw & Hs & Hd). unfold one_poll.
  rewrite written_print. cbn [polls data_points emit].
  repeat split; try assumption; apply Hs.
Qed.

Lemma one_poll_polled (r : runner) : one_poll r (polled r).
Proof.
  unfold one_poll, same_session. cbn. repeat split. left. reflexivity.
Qed.

Lemma one_poll_parsed (r : runner) (text : string) (is_data : bool) :
  one_poll r
    (if is_data
     then set_points
            (parse_data_line (data_points (emit (Print text) (polled r)))
                             text)
            (emit (Print text) (polled r))
     else emit (Print text) (polled r)).
Proof.
  destruct is_data.
  - unfold one_poll, same_session.
    cbn [polls set_points emit polled trace save_data connection data_points].
    rewrite written_app, append_empty_r.
    repeat split.
    destruct (parse_data_line_appends (data_points r) text) as [->|H];
      [left; reflexivity | right; exact H].
  - apply one_poll_print, one_poll_polled.
Qed.

(** A round of the loop that is entered either ends it or hands over to
    the next round; the counter handed over is at most one higher, and
    exactly one higher after a silent poll. *)
Lemma receive_step (dev : device) (fuel timeout_counter : nat) (r : runner) :
  (timeout_counter < max_timeout)%nat ->
  (exists ex r1,
      one_poll r r1
      /\ receive dev (S fuel) timeout_counter r
         = Some (ex, timeout_counter, r1))
  \/ (exists c r1,
         one_poll r r1
         /\ receive dev (S fuel) timeout_counter r = receive dev fuel c r1
         /\ (c <= S timeout_counter)%nat
         /\ (reads dev (polls r) = Silence -> c = S timeout_counter)).
Proof.
  intros Hlt. rewrite receive_eq.
  destruct (Nat.leb_spec max_timeout timeout_counter) as [Hge|_]; [lia|].
  cbv zeta.
  destruct (reads dev (polls r)) as [raw| | |].
  - destruct (strip raw) as [|a text]; cbv beta iota.
    + right. exists timeout_counter, (polled r).
      split; [apply one_poll_polled|]. split; [reflexivity|].
      split; [lia | discriminate].
    + remember (String a text) as t eqn:Et. clear Et.
      pose proof (one_poll_parsed r t (startswith t "P")) as Hparsed.
      destruct (is_end_marker t).
      * left. eexists _, _. split; [|reflexivity].
        apply one_poll_print. exact Hparsed.
      * destruct (startswith t "!").
        -- destruct (contains (lower t) "abort").
           ++ left. eexists _, _. split; [|reflexivity].
              apply one_poll_print. exact Hparsed.
           ++ right. eexists 0%nat, _. split; [|split; [reflexivity|]].
              ** apply one_poll_print. exact Hparsed.
              ** split; [lia | discriminate].
        -- right. eexists 0%nat, _. split; [exact Hparsed|].
           split; [reflexivity|]. split; [lia | discriminate].
  - right. exists (S timeout_counter), (polled r).
    split; [apply one_poll_polled|]. split; [reflexivity|].
    split; [lia | reflexivity].
  - right. exists (S timeout_counter), (polled r).
    split; [apply one_poll_polled|]. split; [reflexivity|].
    split; [lia | reflexivity].
  - left. exists Crashed, (polled r). split; [apply one_poll_polled|].
    reflexivity.
Qed.

Lemma receive_at_bound (dev : device) (fuel timeout_counter : nat)
  (r : runner) :
  (max_timeout <= timeout_counter)%nat ->
  receive dev fuel timeout_counter r = Some (TimedOut, timeout_counter, r).
Proof.
  intros H. rewrite receive_eq.
  destruct (Nat.leb_spec max_timeout timeout_counter); [reflexivity | lia].
Qed.

Lemma polls_needed_before (quiet_from polled counter : nat) :
  (polled < quiet_from)%nat ->
  polls_needed quiet_from polled counter
  = (quiet_from - polled + max_timeout)%nat.
Proof.
  intros H. unfold polls_needed.
  destruct (Nat.ltb_spec polled quiet_from); [reflexivity | lia].
Qed.

Lemma polls_needed_after (quiet_from polled counter : nat) :
  (quiet_from <= polled)%nat ->
  polls_needed quiet_from polled counter = (max_timeout - counter)%nat.
Proof.
  intros H. unfold polls_needed.
  destruct (Nat.ltb_spec polled quiet_from); [lia | reflexivity].
Qed.

Ltac needed :=
  repeat match goal with
    | H : context [polls_needed ?n ?p ?c] |- _ =>
        first [ rewrite (polls_needed_before n p c) in H by lia
              | rewrite (polls_needed_after n p c) in H by lia ]
    | |- context [polls_needed ?n ?p ?c] =>
        first [ rewrite (polls_needed_before n p c) by lia
              | rewrite (polls_needed_after n p c) by lia ]
    end.

Lemma receive_ends (dev : device) (quiet_from : nat) :
  (forall n, (quiet_from <= n)%nat -> reads dev n = Silence) ->
  forall fuel timeout_counter r,
    (timeout_counter <= max_timeout)%nat ->
    (polls_needed quiet_from (polls r) timeout_counter <= fuel)%nat ->
    exists ex c r',
      receive dev fuel timeout_counter r = Some (ex, c, r')
      /\ (polls r' <= polls r
                      + polls_needed quiet_from (polls r) timeout_counter)%nat.
Proof.
  intros Hquiet.
  assert (Hmax : max_timeout = 600%nat) by reflexivity.
  induction fuel as [|fuel IH]; intros c r Hc Hfuel.
  - destruct (Nat.lt_ge_cases (polls r) quiet_from); needed;
      [exfalso; lia|].
    exists TimedOut, c, r. split; [apply receive_at_bound; lia | lia].
  - destruct (Nat.eq_dec c max_timeout) as [->|Hne].
    + exists TimedOut, max_timeout, r.
      split; [apply receive_at_bound; lia | lia].
    + destruct (receive_step dev fuel c r) as
        [(ex & r1 & (Hp & _) & Hrun) | (c1 & r1 & (Hp & _) & Hrun & Hc1 & Hs)];
        [lia | |].
      * exists ex, c, r1. split; [exact Hrun|]. rewrite Hp.
        destruct (Nat.lt_ge_cases (polls r) quiet_from); needed; lia.
      * assert (Hless : (polls_needed quiet_from (polls r1) c1
                         < polls_needed quiet_from (polls r) c)%nat).
        { rewrite Hp.
          destruct (Nat.lt_ge_cases (polls r) quiet_from);
            destruct (Nat.lt_ge_cases (S (polls r)) quiet_from);
            needed; try lia.
          rewrite (Hs (Hquiet (polls r) ltac:(lia))). lia. }
        destruct (IH c1 r1) as (ex & c' & r' & Hrun' & Hle); [lia | lia |].
        exists ex, c', r'. split; [rewrite Hrun; exact Hrun'|]. lia.
Qed.

(** X5: once the device has gone quiet the loop ends: if every poll from
    poll [quiet_from] on is empty, the loop started by [run_script] ends
    after at most [quiet_from + 600] polls, whatever was received before. *)
Theorem receive_ends_after_silence (dev : device) (quiet_from fuel : nat)
  (r : runner) :
  (forall n, (quiet_from <= n)%nat -> reads dev n = Silence) ->
  polls r = 0%nat ->
  (quiet_from + max_timeout <= fuel)%nat ->
  exists ex c r',
    receive dev fuel 0 r = Some (ex, c, r')
    /\ (polls r' <= quiet_from + max_timeout)%nat.
Proof.
  intros Hquiet Hp Hfuel.
  assert (Hmax : max_timeout = 600%nat) by reflexivity.
  destruct (receive_ends dev quiet_from Hquiet fuel 0 r) as
    (ex & c & r' & Hrun & Hle).
  - lia.
  - rewrite Hp. destruct (Nat.lt_ge_cases 0 quiet_from); needed; lia.
  - exists ex, c, r'. split; [exact Hrun|].
    rewrite Hp in Hle.
    destruct (Nat.lt_ge_cases 0 quiet_from); needed; lia.
Qed.

Lemma receive_ends_after_silence_witness :
  exists ex c r',
    receive late_device 603 0 connected_runner = Some (ex, c, r')
    /\ (polls r' <= 3 + max_timeout)%nat.
Proof.
  apply (receive_ends_after_silence late_device 3 603 connected_runner).
  - intros n Hn. destruct n as [|[|[|n]]]; try lia. reflexivity.
  - reflexivity.
  - unfold max_timeout. lia.
Defined.

(** X6: blank lines keep the loop alive: while every read returns a line
    that is empty after [strip], the timeout counter neither grows nor is
    reset, and no amount of polling ends the loop. *)
Theorem blank_lines_never_time_out (dev : device) (fuel timeout_counter : nat)
  (r : runner) :
  (forall n, exists raw, reads dev n = Line raw /\ strip raw = "") ->
  (timeout_counter < max_timeout)%nat ->
  receive dev fuel timeout_counter r = None.
Proof.
  intros Hblank Hlt. revert r.
  induction fuel as [|fuel IH]; intros r; rewrite receive_eq;
    destruct (Nat.leb_spec max_timeout timeout_counter); try lia;
    [reflexivity|].
  cbv zeta. destruct (Hblank (polls r)) as (raw & -> & ->). apply IH.
Qed.

Lemma blank_lines_never_time_out_witness :
  receive blank_device 5000 0 connected_runner = None.
Proof.
  apply (blank_lines_never_time_out blank_device 5000 0 connected_runner).
  - intros n. exists newline. split; reflexivity.
  - unfold max_timeout. lia.
Defined.

Lemma receive_frame (dev : device) :
  forall fuel timeout_counter r ex c r',
    receive dev fuel timeout_counter r = Some (ex, c, r') ->
    exists added,
      data_points r' = (data_points r ++ added)%list
      /\ Forall complete added
      /\ (polls r + List.length added <= polls r')%nat
      /\ written (trace r') = written (trace r).
Proof.
  induction fuel as [|fuel IH]; intros c r ex c' r' H.
  - rewrite receive_eq in H.
    destruct (max_timeout <=? c)%nat; [|discriminate].
    injection H as _ _ <-. exists []. rewrite app_nil_r.
    repeat split; [constructor | simpl; lia].
  - destruct (Nat.leb_spec max_timeout c) as [Hge|Hlt].
    + rewrite (receive_at_bound _ _ _ _ Hge) in H. injection H as _ _ <-.
      exists []. rewrite app_nil_r.
      repeat split; [constructor | simpl; lia].
    + destruct (receive_step dev fuel c r Hlt) as
        [(ex1 & r1 & Hpoll & Hrun) | (c1 & r1 & Hpoll & Hrun & _)];
        rewrite Hrun in H; destruct Hpoll as (Hp & Hw & _ & Hd).
      * injection H as _ _ <-.
        destruct Hd as [Hd | (dp & Hd & Hdp)].
        -- exists []. rewrite app_nil_r.
           repeat split; [exact Hd | constructor | simpl; lia | exact Hw].
        -- exists [dp].
           repeat split; [exact Hd | repeat constructor; apply Hdp
                          | simpl; lia | exact Hw].
      * apply IH in H. destruct H as (added & Ha & Hf & Hl & Hw').
        destruct Hd as [Hd | (dp & Hd & Hdp)].
        -- exists added. rewrite Ha, Hd, Hw', Hw.
           repeat split; [exact Hf | lia].
        -- exists (dp :: added). rewrite Ha, Hd, Hw', Hw, <- app_assoc.
           repeat split; [constructor; assumption | simpl; lia].
Qed.

(** X7: the loop only appends samples: what was collected before stays in
    place, every new sample has both keys, there is at most one new sample
    per poll, and nothing is written to the port. *)
Theorem receive_only_appends (dev : device) (fuel timeout_counter : nat)
  (r r' : runner) (ex : loop_exit) (c : nat) :
  receive dev fuel timeout_counter r = Some (ex, c, r') ->
  exists added,
    data_points r' = (data_points r ++ added)%list
    /\ Forall complete added
    /\ (polls r + List.length added <= polls r')%nat
    /\ written (trace r') = written (trace r).
Proof.
  apply receive_frame.
Qed.

Lemma receive_only_appends_witness :
  exists added,
    data_points late_final = (data_points connected_runner ++ added)%list
    /\ Forall complete added
    /\ (polls connected_runner + List.length added <= polls late_final)%nat
    /\ written (trace late_final) = written (trace connected_runner).
Proof.
  apply (receive_only_appends late_device 603 0 connected_runner
           late_final TimedOut 600).
  vm_compute. reflexivity.
Defined.

End ReceiveLoop.

(** ** Further properties of [run_script], [run] and [main] *)
Section Transmission.
Import Py Runner Examples.

Lemma framed_app (l1 l2 : list string) :
  framed (l1 ++ l2) = framed l1 ++ framed l2.
Proof.
  induction l1 as [|line l1 IH]; simpl; [reflexivity|].
  rewrite IH, !append_assoc. reflexivity.
Qed.

(** Splitting at newlines and writing every line with a newline gives the
    text back, with one newline more. *)
Lemma framed_split (s : string) :
  framed (split (ascii_of_N 10) s) = s ++ newline.
Proof.
  induction s as [|a s IH]; [reflexivity|].
  cbn [split].
  destruct (Ascii.eqb_spec a (ascii_of_N 10)) as [->|Hne].
  - cbn [framed]. rewrite IH. reflexivity.
  - destruct (split (ascii_of_N 10) s) as [|h t].
    + destruct s; discriminate IH.
    + cbn [framed] in *. cbn [append]. rewrite IH. reflexivity.
Qed.

Lemma send_lines_written (dev : device) :
  forall lines n r,
    (forall j, (n <= j < n + List.length lines)%nat -> write_ok dev j = true) ->
    exists r',
      send_lines dev n lines r = (true, (n + List.length lines)%nat, r')
      /\ written (trace r') = written (trace r) ++ framed lines.
Proof.
  induction lines as [|line rest IH]; intros n r Hok; cbn [send_lines].
  - exists r. rewrite Nat.add_0_r, append_empty_r. split; reflexivity.
  - rewrite (Hok n) by (simpl; lia).
    destruct (IH (S n) (emit (Write (line ++ newline)) r)) as (r' & Hs & Hw).
    { intros j Hj. apply Hok. simpl. lia. }
    exists r'. rewrite Hs. split.
    + simpl. rewrite Nat.add_succ_r. reflexivity.
    + rewrite Hw. cbn [trace emit framed].
      rewrite written_app. cbn [written].
      rewrite append_empty_r, !append_assoc. reflexivity.
Qed.

Lemma send_lines_rejected (dev : device) :
  forall lines n k r,
    (forall j, (n <= j < n + k)%nat -> write_ok dev j = true) ->
    write_ok dev (n + k) = false ->
    (k < List.length lines)%nat ->
    exists m r',
      send_lines dev n lines r = (false, m, r')
      /\ written (trace r') = written (trace r) ++ framed (firstn k lines)
      /\ polls r' = polls r /\ data_points r' = data_points r.
Proof.
  induction lines as [|line rest IH]; intros n k r Hok Hbad Hk;
    cbn [send_lines].
  - simpl in Hk. lia.
  - destruct k as [|k].
    + rewrite Nat.add_0_r in Hbad. rewrite Hbad.
      exists n, r. cbn [firstn framed]. rewrite append_empty_r.
      repeat split.
    + rewrite (Hok n) by lia.
      destruct (IH (S n) k (emit (Write (line ++ newline)) r))
        as (m & r' & Hs & Hw & Hp & Hd).
      * intros j Hj. apply Hok. lia.
      * rewrite <- Hbad. f_equal. lia.
      * simpl in Hk. lia.
      * exists m, r'. rewrite Hs. split; [reflexivity|].
        split; [|split; assumption].
        rewrite Hw. cbn [trace emit firstn framed].
        rewrite written_app. cbn [written].
        rewrite append_empty_r, !append_assoc. reflexivity.
Qed.

Lemma run_script_written (dev : device) (fuel : nat) (script : string)
  (r r' : runner) (b : bool) (ex : option loop_exit) :
  connection r = true ->
  (forall n, write_ok dev n = true) ->
  run_script dev fuel script r = Some (b, ex, r') ->
  written (trace r')
  = written (trace r) ++ strip script ++ newline ++ newline.
Proof.
  intros Hconn Hok H. unfold run_script in H. rewrite Hconn in H.
  cbn [negb] in H.
  match type of H with
  | context [send_lines dev 0 ?ls ?r0] =>
      destruct (send_lines_written dev ls 0 r0 (fun j _ => Hok j))
        as (r1 & Hsend & Hw1);
      rewrite Hsend in H
  end.
  rewrite Hok in H. cbn [negb] in H.
  rewrite written_print, framed_split in Hw1.
  match type of H with
  | context [receive dev fuel 0 ?r2] =>
      destruct (receive dev fuel 0 r2) as [[[ex' c] r3]|] eqn:Hrun;
      [|discriminate];
      destruct (receive_frame dev _ _ _ _ _ _ Hrun)
        as (_ & _ & _ & _ & Hw3)
  end.
  rewrite !written_print in Hw3. cbn [trace emit] in Hw3.
  rewrite written_app in Hw3. cbn [written] in Hw3.
  rewrite Hw1, append_empty_r, !append_assoc in Hw3.
  destruct ex'; destruct (max_timeout <=? c)%nat; injection H as _ _ <-;
    rewrite ?written_print; exact Hw3.
Qed.

(** X8: what reaches the port. When every write is accepted, the bytes
    written by [run_script] are the script without its leading and
    trailing white space, a newline, and one more newline as terminator;
    the receive loop writes nothing, however it ends. *)
Theorem script_is_sent_stripped (dev : device) (fuel : nat) (script : string)
  (r r' : runner) (b : bool) (ex : option loop_exit) :
  connection r = true ->
  (forall n, write_ok dev n = true) ->
  run_script dev fuel script r = Some (b, ex, r') ->
  written (trace r')
  = written (trace r) ++ strip script ++ newline ++ newline.
Proof.
  apply run_script_written.
Qed.

Lemma script_is_sent_stripped_witness :
  written (trace sent_runner)
  = written (trace connected_runner) ++ strip three_line_script
    ++ newline ++ newline.
Proof.
  apply (script_is_sent_stripped silent_device 600 three_line_script
           connected_runner sent_runner true (Some TimedOut)).
  - reflexivity.
  - intros n. reflexivity.
  - vm_compute. reflexivity.
Defined.

(** X9: a write that raises ends [run_script] at once: it returns False,
    the lines before the rejected one have been written and nothing after
    it, the terminator included; the port is never read. *)
Theorem rejected_write_stops_sending (dev : device) (fuel : nat)
  (script : string) (r : runner) (k : nat) :
  connection r = true ->
  (forall j, (j < k)%nat -> write_ok dev j = true) ->
  write_ok dev k = false ->
  (k <= List.length (split (ascii_of_N 10) (strip script)))%nat ->
  exists r',
    run_script dev fuel script r = Some (false, None, r')
    /\ written (trace r')
       = written (trace r)
         ++ framed (firstn k (split (ascii_of_N 10) (strip script)))
    /\ polls r' = polls r
    /\ data_points r' = data_points r.
Proof.
  intros Hconn Hok Hbad Hk. unfold run_script. rewrite Hconn. cbn [negb].
  destruct (Nat.eq_dec k (List.length (split (ascii_of_N 10) (strip script))))
    as [->|Hne].
  - match goal with
    | |- context [send_lines dev 0 ?ls ?r0] =>
        destruct (send_lines_written dev ls 0 r0
                    (fun j Hj => Hok j (proj2 Hj)))
          as (r1 & Hsend & Hw1);
        destruct (send_lines_frame dev _ _ _ _ _ _ Hsend)
          as (_ & Hd1 & Hp1);
        rewrite Hsend
    end.
    cbn [Nat.add]. rewrite Hbad. cbn [negb].
    eexists. split; [reflexivity|].
    rewrite written_print, Hw1, written_print, firstn_all.
    cbn [polls data_points emit] in *. repeat split; assumption.
  - match goal with
    | |- context [send_lines dev 0 ?ls ?r0] =>
        destruct (send_lines_rejected dev ls 0 k r0)
          as (m & r1 & Hsend & Hw1 & Hp1 & Hd1);
        [ intros j Hj; apply Hok; lia | exact Hbad | lia | ];
        rewrite Hsend
    end.
    eexists. split; [reflexivity|].
    rewrite written_print, Hw1, written_print.
    cbn [polls data_points emit] in *. repeat split; assumption.
Qed.

Lemma rejected_write_stops_sending_witness :
  exists r',
    run_script choking_device 600 three_line_script connected_runner
    = Some (false, None, r')
    /\ written (trace r')
       = written (trace connected_runner)
         ++ framed (firstn 2 (split (ascii_of_N 10)
                                    (strip three_line_script)))
    /\ polls r' = polls connected_runner
    /\ data_points r' = data_points connected_runner.
Proof.
  apply (rejected_write_stops_sending choking_device 600 three_line_script
           connected_runner 2).
  - reflexivity.
  - intros j Hj. destruct j as [|[|j]]; [reflexivity | reflexivity | lia].
  - reflexivity.
  - vm_compute. lia.
Defined.

(** X10: with the [save_data] attribute set, as [main] builds the runner,
    [run] returns 0 only when no sample was collected; the only exception
    that leaves [run] is the TypeError of the call [self.save_data()], and
    then at least one sample had been collected. *)
Theorem run_succeeds_only_without_samples (dev : device) (fuel : nat)
  (script : option string) (res : result Z) (ex : option loop_exit)
  (r : runner) :
  run dev fuel script (init true) = Some (res, ex, r) ->
  (res = Ok 0 -> data_points r = [])
  /\ (forall e, res = Raise e ->
                e = TypeError_not_callable /\ data_points r <> [])
  /\ (forall code, res = Ok code -> code = 0 \/ code = 1).
Proof.
  intros H. unfold run in H.
  assert (Hone : forall r0,
             (Ok 1 = Ok 0 -> data_points r0 = [])
             /\ (forall e, @Ok Z 1 = Raise e ->
                           e = TypeError_not_callable
                           /\ data_points r0 <> [])
             /\ (forall code, Ok 1 = Ok code -> code = 0 \/ code = 1)).
  { intros r0. split; [discriminate|]. split; [discriminate|].
    intros code Hc. injection Hc as <-. right. reflexivity. }
  destruct script as [text|]; [|injection H as <- _ <-; apply Hone].
  destruct (connect dev (init true)) as [[|] r1] eqn:Hconn;
    [|injection H as <- _ <-; apply Hone].
  assert (Hs1 : save_data r1 = true).
  { unfold connect in Hconn. destruct (connecting dev);
      try discriminate Hconn. injection Hconn as <-. reflexivity. }
  destruct (run_script dev fuel text r1) as [[[b ex'] r2]|] eqn:Hrun;
    [|discriminate].
  assert (Hs2 : save_data r2 = true).
  { unfold run_script in Hrun.
    destruct (connection r1); cbn [negb] in Hrun;
      [|injection Hrun as _ _ <-; exact Hs1].
    match type of Hrun with
    | context [send_lines dev 0 ?ls ?r0] =>
        destruct (send_lines dev 0 ls r0) as [[ok n] r3] eqn:Hsend;
        destruct (send_lines_frame dev _ _ _ _ _ _ Hsend)
          as ((Hs3 & _) & _)
    end.
    cbn [save_data emit] in Hs3. rewrite Hs1 in Hs3.
    destruct ok; [|injection Hrun as _ _ <-; exact Hs3].
    destruct (write_ok dev n); cbn [negb] in Hrun;
      [|injection Hrun as _ _ <-; exact Hs3].
    match type of Hrun with
    | context [receive dev fuel 0 ?r4] =>
        destruct (receive dev fuel 0 r4) as [[[ex2 c] r5]|] eqn:Hloop;
        [|discriminate];
        destruct (receive_same_session dev _ _ _ _ _ _ Hloop) as (Hs5 & _)
    end.
    cbn [save_data emit] in Hs5. rewrite Hs3 in Hs5.
    destruct ex2; destruct (max_timeout <=? c)%nat;
      injection Hrun as _ _ <-; exact Hs5. }
  destruct b; [|injection H as <- _ <-; apply Hone].
  rewrite Hs2 in H. cbn [andb] in H.
  destruct (data_points r2) as [|dp dps] eqn:Hd; cbn [nonempty] in H.
  - injection H as <- _ <-.
    rewrite (proj1 (disconnect_points dev r2)), Hd.
    split; [reflexivity|]. split; [discriminate|].
    intros code Hc. injection Hc as <-. left. reflexivity.
  - cbn [call_save_data] in H. injection H as <- _ <-.
    rewrite (proj1 (disconnect_points dev r2)), Hd.
    split; [discriminate|]. split; [|discriminate].
    intros exc Hexc. injection Hexc as <-. split; [reflexivity|].
    discriminate.
Qed.

Lemma run_succeeds_only_without_samples_witness :
  data_points silent_final = [].
Proof.
  apply (proj1 (run_succeeds_only_without_samples silent_device 600
                  (Some "e") (Ok 0) (Some TimedOut) silent_final
                  ltac:(vm_compute; reflexivity))).
  reflexivity.
Defined.

(** X11: a port that opened but did not answer the probe is never closed:
    [run] returns 1 with the connection still set, and neither writes the
    script nor closes the port. *)
Theorem unanswered_probe_leaves_port_open (dev : device) (fuel : nat)
  (text : string) (save : bool) :
  connecting dev = NoReply \/ connecting dev = ProbeFailed ->
  exists r,
    run dev fuel (Some text) (init save) = Some (Ok 1, None, r)
    /\ connection r = true
    /\ ~ In Close (trace r)
    /\ written (trace r) = "".
Proof.
  intros [H|H]; unfold run, connect; rewrite H; eexists;
    (split; [reflexivity|]); cbn; repeat split;
    intros [Hc|[]]; discriminate Hc.
Qed.

Lemma unanswered_probe_leaves_port_open_witness :
  exists r,
    run mute_device 600 (Some "e") (init true) = Some (Ok 1, None, r)
    /\ connection r = true
    /\ ~ In Close (trace r)
    /\ written (trace r) = "".
Proof.
  apply (unanswered_probe_leaves_port_open mute_device 600 "e" true).
  left. reflexivity.
Defined.

(** X12: [find_device_port] returns the device of the first listed port
    whose description contains one of the known names, and None exactly
    when no listed port does. *)
Theorem find_device_port_first_candidate (ports : list port_info) :
  (find_device_port ports = None
   <-> forall p, In p ports -> is_candidate p = false)
  /\ (forall name,
         find_device_port ports = Some name ->
         exists before p after,
           ports = (before ++ p :: after)%list
           /\ port_device p = name
           /\ is_candidate p = true
           /\ forall q, In q before -> is_candidate q = false).
Proof.
  unfold find_device_port. induction ports as [|p rest [IHn IHs]].
  - split; [split; [intros _ p [] | reflexivity] | discriminate].
  - cbn [filter]. destruct (is_candidate p) eqn:Ep.
    + cbn [map]. split.
      * split; [discriminate|]. intros H.
        rewrite (H p (or_introl eq_refl)) in Ep. discriminate.
      * intros name Hn. injection Hn as <-.
        exists [], p, rest. repeat split; [exact Ep | intros q []].
    + split.
      * split.
        -- intros H q [<-|Hq]; [exact Ep | apply IHn; assumption].
        -- intros H. apply IHn. intros q Hq. apply H. right. exact Hq.
      * intros name Hn.
        destruct (IHs name Hn) as (before & q & after & -> & Hd & Hc & Hb).
        exists (p :: before), q, after.
        repeat split; [exact Hd | exact Hc|].
        intros x [<-|Hx]; [exact Ep | apply Hb; exact Hx].
Qed.

Lemma find_device_port_first_candidate_witness :
  exists before p after,
    [bluetooth_port; emstat_port; ftdi_port] = (before ++ p :: after)%list
    /\ port_device p = "COM7"
    /\ is_candidate p = true
    /\ forall q, In q before -> is_candidate q = false.
Proof.
  apply (proj2 (find_device_port_first_candidate
                  [bluetooth_port; emstat_port; ftdi_port]) "COM7").
  vm_compute. reflexivity.
Defined.

End Transmission.

(** ** Further properties of the queue worker and the pump tab *)
Section Worker.
Import Py Gui Examples.

Lemma queue_loop_halted (b : bench) (pump : option pump_driver) (round : nat)
  (queue : list queue_item) :
  queue_loop b pump round queue false = ([], queue, []).
Proof.
  destruct queue; reflexivity.
Qed.

Lemma queue_loop_stop (b : bench) (pump : option pump_driver) :
  forall k queue round,
    (forall j, (round <= j < round + k)%nat -> stop_requested b j = false) ->
    stop_requested b (round + k) = true ->
    (k < List.length queue)%nat ->
    exists dispatched fx,
      queue_loop b pump round queue true
      = (dispatched, skipn (S k) queue, fx)
      /\ List.length dispatched = S k.
Proof.
  induction k as [|k IH]; intros queue round Hno Hstop Hlen;
    (destruct queue as [|current rest]; [simpl in Hlen; lia|]);
    cbn [queue_loop];
    destruct (dispatch b pump round current) as [item fx0].
  - rewrite Nat.add_0_r in Hstop. rewrite Hstop. cbn [negb].
    rewrite queue_loop_halted. eexists _, _. split; reflexivity.
  - rewrite (Hno round) by lia. cbn [negb].
    destruct (IH rest (S round)) as (dispatched & fx & Hloop & Hl).
    + intros j Hj. apply Hno. lia.
    + rewrite <- Hstop. f_equal. lia.
    + simpl in Hlen. lia.
    + rewrite Hloop. eexists _, _. split; [reflexivity|].
      simpl. rewrite Hl. reflexivity.
Qed.

(** X13: a stop request takes effect after the entry in flight: when stop
    is first pressed during round [k], the worker has popped exactly the
    first [k + 1] entries; the entries behind them stay in the queue as
    they were, and the running flag is cleared. *)
Theorem stop_spares_the_rest (b : bench) (g : gui) (k : nat) :
  is_running g = true ->
  (forall j, (j < k)%nat -> stop_requested b j = false) ->
  stop_requested b k = true ->
  (k < List.length (measurement_queue g))%nat ->
  List.length (snd (execute_queue_serial b g)) = S k
  /\ measurement_queue (fst (execute_queue_serial b g))
     = skipn (S k) (measurement_queue g)
  /\ is_running (fst (execute_queue_serial b g)) = false.
Proof.
  intros Hrun Hno Hstop Hlen. unfold execute_queue_serial. rewrite Hrun.
  destruct (queue_loop_stop b (pump g) k (measurement_queue g) 0)
    as (dispatched & fx & Hloop & Hl);
    [intros j Hj; apply Hno; lia | exact Hstop | exact Hlen |].
  rewrite Hloop. cbn. repeat split. exact Hl.
Qed.

Lemma stop_spares_the_rest_witness :
  List.length
    (snd (execute_queue_serial stopping_bench
            (busy_window [measurement_entry; dispense_entry; wait_entry])))
  = 2%nat
  /\ measurement_queue
       (fst (execute_queue_serial stopping_bench
               (busy_window [measurement_entry; dispense_entry; wait_entry])))
     = skipn 2 [measurement_entry; dispense_entry; wait_entry]
  /\ is_running
       (fst (execute_queue_serial stopping_bench
               (busy_window [measurement_entry; dispense_entry; wait_entry])))
     = false.
Proof.
  apply (stop_spares_the_rest stopping_bench
           (busy_window [measurement_entry; dispense_entry; wait_entry]) 1).
  - reflexivity.
  - intros j Hj. destruct j; [reflexivity | lia].
  - reflexivity.
  - simpl. lia.
Defined.

Lemma dispatch_without_pump (b : bench) (round : nat) (current : queue_item) :
  (startswith (type current) "PUMP_" = true ->
   status (fst (dispatch b None round current)) = skipped)
  /\ Forall (fun e => touches_hardware e = false)
            (snd (dispatch b None round current)).
Proof.
  unfold dispatch. cbn [type set_status].
  destruct (startswith (type current) "PUMP_").
  - cbn. split; [reflexivity|]. repeat constructor.
  - split; [discriminate|].
    unfold execute_measurement. cbn [script_path set_status].
    destruct (script_path current) as [path|]; [|cbn; repeat constructor].
    destruct (process b round path) as [code|]; [|cbn; repeat constructor].
    destruct (code =? 0); cbn; repeat constructor.
Qed.

Lemma filter_none {A : Type} (f : A -> bool) (l : list A) :
  Forall (fun a => f a = false) l -> filter f l = [].
Proof.
  induction 1 as [|a l Ha _ IH]; [reflexivity|].
  cbn [filter]. rewrite Ha. exact IH.
Qed.

Lemma queue_loop_without_pump (b : bench) :
  forall queue round run dispatched remaining fx,
    queue_loop b None round queue run = (dispatched, remaining, fx) ->
    Forall (fun i => startswith (type i) "PUMP_" = true -> status i = skipped)
           dispatched
    /\ filter touches_hardware fx
       = map (fun _ => Slept (of_int 1)) dispatched.
Proof.
  induction queue as [|current rest IH];
    intros round run dispatched remaining fx H; simpl in H.
  - injection H as <- _ <-. split; [constructor | reflexivity].
  - destruct run; [|injection H as <- _ <-; split; [constructor | reflexivity]].
    destruct (dispatch_without_pump b round current) as [Hs Hf].
    assert (He : entry_of (fst (dispatch b None round current))
                 = entry_of current)
      by apply dispatch_terminal.
    destruct (dispatch b None round current) as [item fx0].
    destruct (queue_loop b None (S round) rest
                (negb (stop_requested b round)))
      as [[dispatched' remaining'] fx'] eqn:Hloop.
    injection H as <- _ <-. apply IH in Hloop. destruct Hloop as [Hd Hfx].
    cbn [fst snd] in *. split.
    + constructor; [|exact Hd]. intros Ht. apply Hs.
      unfold entry_of in He. injection He as Htype _ _ _ _ _.
      rewrite <- Htype. exact Ht.
    + rewrite filter_app, (filter_none _ _ Hf).
      cbn [List.app filter touches_hardware map]. rewrite Hfx. reflexivity.
Qed.

(** X14: with no pump connected, every pump entry that is dispatched, wait
    entries included, ends skipped. The worker never calls the pump, and
    the only sleeps are the pauses of one second that end each round: one
    per popped entry, in particular none for the duration of a wait entry. *)
Theorem pump_entries_skipped_without_pump (b : bench) (g : gui) :
  pump g = None ->
  Forall (fun i => startswith (type i) "PUMP_" = true -> status i = skipped)
         (snd (execute_queue_serial b g))
  /\ exists fx,
       effects (fst (execute_queue_serial b g)) = (effects g ++ fx)%list
       /\ filter touches_hardware fx
          = map (fun _ => Slept (of_int 1)) (snd (execute_queue_serial b g)).
Proof.
  intros Hpump. unfold execute_queue_serial. rewrite Hpump.
  destruct (queue_loop b None 0 (measurement_queue g) (is_running g))
    as [[dispatched remaining] fx] eqn:Hloop.
  apply queue_loop_without_pump in Hloop. destruct Hloop as [Hd Hfx].
  cbn [fst snd log effects set_running set_queue]. split; [exact Hd|].
  eexists. split; [reflexivity|].
  rewrite filter_app, Hfx. cbn [filter touches_hardware]. apply app_nil_r.
Qed.

Lemma pump_entries_skipped_without_pump_witness :
  Forall (fun i => startswith (type i) "PUMP_" = true -> status i = skipped)
         (snd (execute_queue_serial failing_bench
                 (busy_window [dispense_entry; wait_entry])))
  /\ exists fx,
       effects (fst (execute_queue_serial failing_bench
                       (busy_window [dispense_entry; wait_entry])))
       = (effects (busy_window [dispense_entry; wait_entry]) ++ fx)%list
       /\ filter touches_hardware fx
          = map (fun _ => Slept (of_int 1))
                (snd (execute_queue_serial failing_bench
                        (busy_window [dispense_entry; wait_entry]))).
Proof.
  apply (pump_entries_skipped_without_pump failing_bench
           (busy_window [dispense_entry; wait_entry])).
  reflexivity.
Defined.

Lemma status_log_app (fx fx' : list effect) :
  status_log (fx ++ fx') = (status_log fx ++ status_log fx')%list.
Proof.
  induction fx as [|e fx IH]; [reflexivity|].
  destruct e; simpl; rewrite IH; reflexivity.
Qed.

Lemma pump_attempt_sets_no_status (b : bench) (drv : pump_driver)
  (item : queue_item) :
  status_log (fst (pump_attempt b drv item)) = [].
Proof.
  unfold pump_attempt, call.
  destruct (action item) as [act|]; [|reflexivity].
  repeat match goal with
    | |- context [if ?c then _ else _] => destruct c
    | |- context [match int_of_float ?x with _ => _ end] =>
        destruct (int_of_float x)
    end; reflexivity.
Qed.

Lemma dispatch_status_log (b : bench) (pump : option pump_driver)
  (round : nat) (current : queue_item) :
  status_log (snd (dispatch b pump round current))
  = [running; status (fst (dispatch b pump round current))].
Proof.
  unfold dispatch. cbn [type set_status].
  destruct (startswith (type current) "PUMP_").
  - unfold execute_pump_action. destruct pump as [drv|]; [|reflexivity].
    pose proof (pump_attempt_sets_no_status b drv
                  (set_status running current)) as Hp.
    destruct (pump_attempt b drv (set_status running current)) as [fx [e|]];
      cbn [fst snd] in *; cbn [status_log List.app];
      rewrite status_log_app, Hp; reflexivity.
  - unfold execute_measurement. cbn [script_path set_status].
    destruct (script_path current) as [path|]; [|reflexivity].
    destruct (process b round path) as [code|]; [|reflexivity].
    destruct (code =? 0); reflexivity.
Qed.

Lemma queue_loop_status_log (b : bench) (pump : option pump_driver) :
  forall queue round run dispatched remaining fx,
    queue_loop b pump round queue run = (dispatched, remaining, fx) ->
    status_log fx = flat_map (fun i => [running; status i]) dispatched.
Proof.
  induction queue as [|current rest IH];
    intros round run dispatched remaining fx H; simpl in H.
  - injection H as <- _ <-. reflexivity.
  - destruct run; [|injection H as <- _ <-; reflexivity].
    pose proof (dispatch_status_log b pump round current) as Hd.
    destruct (dispatch b pump round current) as [item fx0].
    destruct (queue_loop b pump (S round) rest
                (negb (stop_requested b round)))
      as [[dispatched' remaining'] fx'] eqn:Hloop.
    injection H as <- _ <-. apply IH in Hloop.
    cbn [fst snd] in Hd.
    rewrite status_log_app, Hd. cbn [flat_map List.app status_log].
    rewrite Hloop. reflexivity.
Qed.

(** X15: the statuses the worker assigns are, entry by entry, running and
    then the status the entry ends with: every dispatched entry is marked
    running once and finished once, and no entry is set back. *)
Theorem statuses_run_then_finish (b : bench) (g : gui) :
  exists fx,
    effects (fst (execute_queue_serial b g)) = (effects g ++ fx)%list
    /\ status_log fx
       = flat_map (fun i => [running; status i])
                  (snd (execute_queue_serial b g))
    /\ Forall (fun i => terminal (status i) = true)
              (snd (execute_queue_serial b g)).
Proof.
  unfold execute_queue_serial.
  destruct (queue_loop b (pump g) 0 (measurement_queue g) (is_running g))
    as [[dispatched remaining] fx] eqn:Hloop.
  pose proof (queue_loop_status_log b (pump g) _ _ _ _ _ _ Hloop) as Hlog.
  destruct (queue_loop_pops_prefix b (pump g) _ _ _ _ _ _ Hloop)
    as (_ & _ & Hterm & _).
  cbn. eexists. split; [reflexivity|]. split; [|exact Hterm].
  rewrite status_log_app, Hlog. cbn. apply app_nil_r.
Qed.

(** X16: a queued extract or dispense calls the pump with the stored port
    and with the parameter truncated toward zero; a parameter that is NaN
    or infinite fails the entry before the pump is called. *)
Theorem pump_volume_is_truncated (b : bench) (drv : pump_driver)
  (item : queue_item) (act : string) :
  act = "extract" \/ act = "dispense" ->
  action item = Some act ->
  (forall v,
      truncate (or_default f_0 (parameter item)) = Some v ->
      status (fst (execute_pump_action b (Some drv) item))
      = (if drv (volume_call act (or_default 1 (port item)) v)
         then completed else failed)
      /\ In (PumpCalled (volume_call act (or_default 1 (port item)) v))
            (snd (execute_pump_action b (Some drv) item)))
  /\ (finite (or_default f_0 (parameter item)) = false ->
      status (fst (execute_pump_action b (Some drv) item)) = failed
      /\ Forall (fun e => touches_hardware e = false)
                (snd (execute_pump_action b (Some drv) item))).
Proof.
  intros Hact Haction. unfold execute_pump_action, pump_attempt.
  rewrite Haction. split.
  - intros v Hv. apply int_of_float_truncates in Hv.
    destruct Hact as [-> | ->]; cbn [String.eqb Ascii.eqb Bool.eqb];
      rewrite Hv; unfold call, volume_call; cbn [String.eqb Ascii.eqb Bool.eqb];
      match goal with |- context [drv ?c] => destruct (drv c) end;
      cbn; auto.
  - intros Hfin.
    assert (Hraise : exists e, int_of_float (or_default f_0 (parameter item))
                               = Raise e).
    { destruct (or_default f_0 (parameter item)); try discriminate Hfin;
        eexists; reflexivity. }
    destruct Hraise as [e He].
    destruct Hact as [-> | ->]; cbn [String.eqb Ascii.eqb Bool.eqb];
      rewrite He; cbn; split; try reflexivity; repeat constructor.
Qed.

Lemma pump_volume_is_truncated_witness :
  status (fst (execute_pump_action failing_bench (Some willing_pump)
                 fractional_dispense))
  = completed
  /\ In (PumpCalled (dispense 2 100))
        (snd (execute_pump_action failing_bench (Some willing_pump)
                fractional_dispense)).
Proof.
  apply (proj1 (pump_volume_is_truncated failing_bench willing_pump
                  fractional_dispense "dispense"
                  (or_intror eq_refl) eq_refl) 100).
  vm_compute. reflexivity.
Defined.

End Worker.

(** ** Further properties of the pump tab and of the encoders *)
Section PumpTab.
Import Py Gui Examples.

(** X17: each action the pump form offers is queued as a pending pump entry
    at the end of the queue, and dispatching that entry on a bound pump
    does what the action names: Extract and Dispense call the pump with
    the port and the truncated parameter, Change Port changes to the port,
    Empty to Waste empties, Wait sleeps for the parameter. *)
Theorem queued_action_reaches_pump (upper : string -> string)
  (repr : float -> string) (b : bench) (drv : pump_driver) (g : gui)
  (act port_text param_text : string) (port_number : Z) (param : float) :
  In act form_actions ->
  int_of_string port_text = Some port_number ->
  float_of_string param_text = Some param ->
  exists item box,
    add_pump_to_queue upper repr true act port_text param_text g
    = Ok (log [RefreshQueueDisplay]
              (set_queue (measurement_queue g ++ [item])%list g), box)
    /\ status item = pending
    /\ startswith (type item) "PUMP_" = true
    /\ pump_attempt b drv (set_status running item)
       = intended b drv act port_number param.
Proof.
  intros Hact Hport Hparam.
  exists (pump_entry upper repr act port_number param). eexists.
  split; [|split; [|split]].
  - unfold add_pump_to_queue, py_int, py_float. rewrite Hport, Hparam.
    reflexivity.
  - unfold pump_entry.
    destruct (String.eqb act "Wait"); [reflexivity|].
    destruct (String.eqb act "Empty to Waste"); reflexivity.
  - unfold pump_entry.
    destruct (String.eqb act "Wait"); [reflexivity|].
    destruct (String.eqb act "Empty to Waste"); [reflexivity|].
    cbn [type]. unfold startswith. cbn. destruct (upper act); reflexivity.
  - unfold form_actions in Hact. simpl in Hact.
    destruct Hact as [<-|[<-|[<-|[<-|[<-|[]]]]]]; reflexivity.
Qed.

Lemma queued_action_reaches_pump_witness :
  exists item box,
    add_pump_to_queue (fun s => s) (fun _ => "100.0") true "Dispense" "2"
      "100" (idle_window [])
    = Ok (log [RefreshQueueDisplay]
              (set_queue (measurement_queue (idle_window []) ++ [item])%list
                         (idle_window [])), box)
    /\ status item = pending
    /\ startswith (type item) "PUMP_" = true
    /\ pump_attempt failing_bench willing_pump (set_status running item)
       = intended failing_bench willing_pump "Dispense" 2 (of_int 100).
Proof.
  apply (queued_action_reaches_pump (fun s => s) (fun _ => "100.0")
           failing_bench willing_pump (idle_window [])
           "Dispense" "2" "100" 2 (of_int 100)).
  - right. left. reflexivity.
  - vm_compute. reflexivity.
  - vm_compute. reflexivity.
Defined.

Lemma prefix_cons (a b : ascii) (s1 s2 : string) :
  String.prefix (String a s1) (String b s2)
  = if ascii_dec a b then String.prefix s1 s2 else false.
Proof.
  reflexivity.
Qed.

Lemma before_first_device (name rest : string) :
  has_space name = false ->
  before_first " - " (name ++ " - " ++ rest) = name.
Proof.
  unfold has_space.
  induction name as [|a name IH]; intros H.
  - destruct rest; reflexivity.
  - cbn [contains] in H. apply orb_false_iff in H as [Ha Hn].
    change (String a name ++ " - " ++ rest)
      with (String a (name ++ " - " ++ rest)).
    cbn [before_first].
    assert (Hp : forall tail, String.prefix " - " (String a tail) = false).
    { intros tail. change " " with (String " " "") in Ha.
      change " - " with (String " " "- ").
      rewrite prefix_cons in *.
      destruct (ascii_dec " " a); [|reflexivity].
      rewrite prefix_empty in Ha. discriminate Ha. }
    rewrite Hp, (IH Hn). reflexivity.
Qed.

(** X18: the port box round trip: after [refresh_pump_ports] has listed the
    ports, [connect_pump] opens the pump on the device of the first listed
    port, provided that device name has no space in it and the syringe
    size and port count are integers. *)
Theorem pump_port_round_trip
  (open_pump : string -> Z -> Z -> option pump_driver)
  (first : Runner.port_info) (others : list Runner.port_info)
  (f : pump_form) (g : gui) (syringe_ul ports : Z) (drv : pump_driver) :
  has_space (Runner.port_device first) = false ->
  int_of_string (syringe_size f) = Some syringe_ul ->
  int_of_string (num_ports f) = Some ports ->
  open_pump (Runner.port_device first) ports syringe_ul = Some drv ->
  connect_pump true open_pump
    (refresh_pump_ports true (first :: others) f) g
  = (set_pump (Some drv) g, [InfoBox "Success" "Pump connected successfully"]).
Proof.
  intros Hname Hs Hn Hopen.
  unfold connect_pump, refresh_pump_ports.
  cbn [negb map pump_port syringe_size num_ports].
  remember (Runner.port_device first ++ " - " ++ Runner.description first)
    as port_str eqn:E.
  destruct port_str as [|a tail];
    [destruct (Runner.port_device first); discriminate E|].
  rewrite E, before_first_device by exact Hname.
  rewrite Hs, Hn, Hopen. reflexivity.
Qed.

Lemma pump_port_round_trip_witness :
  connect_pump true (fun _ _ _ => Some willing_pump)
    (refresh_pump_ports true [emstat_port; ftdi_port] default_pump_form)
    (idle_window [])
  = (set_pump (Some willing_pump) (idle_window []),
     [InfoBox "Success" "Pump connected successfully"]).
Proof.
  apply (pump_port_round_trip (fun _ _ _ => Some willing_pump)
           emstat_port [ftdi_port] default_pump_form (idle_window [])
           1000 9 willing_pump).
  - vm_compute. reflexivity.
  - vm_compute. reflexivity.
  - vm_compute. reflexivity.
  - reflexivity.
Defined.

Lemma concat_cons (x : string) (l : list string) :
  String.concat "" (x :: l) = x ++ String.concat "" l.
Proof.
  destruct l; cbn [String.concat]; [|reflexivity].
  symmetry. apply append_empty_r.
Qed.

Lemma concat_app (l1 l2 : list string) :
  String.concat "" (l1 ++ l2)
  = String.concat "" l1 ++ String.concat "" l2.
Proof.
  induction l1 as [|x l1 IH]; [reflexivity|].
  cbn [List.app]. rewrite !concat_cons, IH. symmetry. apply append_assoc.
Qed.

Lemma concat_frame (first : string) (middle : list string)
  (y z : string) :
  String.concat "" (first :: List.app middle [y; z])
  = first ++ String.concat "" middle ++ y ++ z.
Proof.
  rewrite concat_cons, concat_app. reflexivity.
Qed.

Lemma script_frame :
  (forall p script,
      create_cv_methodscript p = Ok script ->
      exists body,
        script = "e" ++ nl ++ body ++ "on_finished:" ++ nl ++ "cell_off"
                 ++ nl ++ nl)
  /\ (forall p script,
         create_swv_methodscript p = Ok script ->
         exists body,
           script = "e" ++ nl ++ body ++ "on_finished:" ++ nl ++ "cell_off"
                    ++ nl ++ nl).
Proof.
  split.
  - intros p script H. unfold create_cv_methodscript in H.
    destruct (py_float (cv_cond_time p)) as [t|]; [|discriminate].
    destruct (py_int (n_scans p)) as [n|]; [|discriminate].
    cbn [bind] in H. apply ok_injective in H. rewrite <- H.
    exists (String.concat ""
              (List.app (tl cv_preamble)
                 (List.app (cv_conditioning p (flt f_0 t))
                    (cv_loop_comment :: cv_loop_head p
                       :: List.app (nscans p (1 <? n))
                            (removelast (removelast cv_tail)))))).
    replace (cv_pieces p (flt f_0 t) (1 <? n))
      with (("e" ++ nl)
              :: List.app
                   (List.app (tl cv_preamble)
                      (List.app (cv_conditioning p (flt f_0 t))
                         (cv_loop_comment :: cv_loop_head p
                            :: List.app (nscans p (1 <? n))
                                 (removelast (removelast cv_tail)))))
                   ["on_finished:" ++ nl; "cell_off" ++ nl ++ nl])
      by (destruct (flt f_0 t), (1 <? n); reflexivity).
    rewrite concat_frame. reflexivity.
  - intros p script H. unfold create_swv_methodscript in H.
    destruct (py_float (begin_potential p)) as [b|]; [|discriminate].
    destruct (py_float (end_potential p)) as [e|]; [|discriminate].
    destruct (py_float (amplitude p)) as [a|]; [|discriminate].
    cbn [bind] in H.
    destruct (int_of_float (fmul (min_pot b e a) f_1000)) as [lo|];
      [|discriminate].
    destruct (int_of_float (fmul (max_pot b e a) f_1000)) as [hi|];
      [|discriminate].
    destruct (py_float (cond_time p)) as [t|]; [|discriminate].
    cbn [bind] in H. apply ok_injective in H. rewrite <- H.
    exists (String.concat ""
              (List.app (tl swv_preamble)
                 (List.app (swv_range lo hi)
                    (List.app (swv_conditioning p (flt f_0 t))
                       (removelast (removelast (swv_measurement p))))))).
    replace (swv_pieces p lo hi (flt f_0 t))
      with (("e" ++ nl)
              :: List.app
                   (List.app (tl swv_preamble)
                      (List.app (swv_range lo hi)
                         (List.app (swv_conditioning p (flt f_0 t))
                            (removelast
                               (removelast (swv_measurement p))))))
                   ["on_finished:" ++ nl; "cell_off" ++ nl ++ nl])
      by (destruct (flt f_0 t); reflexivity).
    rewrite concat_frame. reflexivity.
Qed.

(** X19: whatever the fields hold, a script that either encoder returns
    starts with the line [e] and ends with the [on_finished:] handler that
    switches the cell off, followed by one empty line. *)
Theorem script_ends_with_cell_off :
  (forall p script,
      create_cv_methodscript p = Ok script ->
      exists body,
        script = "e" ++ nl ++ body ++ "on_finished:" ++ nl ++ "cell_off"
                 ++ nl ++ nl)
  /\ (forall p script,
         create_swv_methodscript p = Ok script ->
         exists body,
           script = "e" ++ nl ++ body ++ "on_finished:" ++ nl ++ "cell_off"
                    ++ nl ++ nl).
Proof.
  exact script_frame.
Qed.

Lemma script_ends_with_cell_off_witness :
  exists body,
    swv_default_script
    = "e" ++ nl ++ body ++ "on_finished:" ++ nl ++ "cell_off" ++ nl ++ nl.
Proof.
  apply (proj2 script_ends_with_cell_off swv_defaults).
  vm_compute. reflexivity.
Defined.

Lemma chars_app (s1 s2 : string) :
  chars (s1 ++ s2) = (chars s1 ++ chars s2)%list.
Proof.
  unfold chars. induction s1 as [|c s1 IH]; simpl; [reflexivity|].
  rewrite IH. reflexivity.
Qed.

Lemma str_of_app (l1 l2 : list ascii) :
  str_of (l1 ++ l2) = str_of l1 ++ str_of l2.
Proof.
  unfold str_of. induction l1 as [|c l1 IH]; simpl; [reflexivity|].
  rewrite IH. reflexivity.
Qed.

Lemma str_of_chars (s : string) : str_of (chars s) = s.
Proof.
  apply string_of_list_ascii_of_string.
Qed.

Lemma strip_chars_final_newlines (a z : ascii) (middle : list ascii) :
  is_space a = false -> is_space z = false ->
  strip_chars is_space
    (a :: middle ++ [z; ascii_of_N 10; ascii_of_N 10])%list
  = (a :: middle ++ [z])%list.
Proof.
  intros Ha Hz. unfold strip_chars. cbn [lstrip_chars]. rewrite Ha.
  replace (rev (a :: middle ++ [z; ascii_of_N 10; ascii_of_N 10])%list)
    with (ascii_of_N 10 :: ascii_of_N 10 :: z :: rev middle ++ [a])%list
    by (simpl; rewrite rev_app_distr; reflexivity).
  cbn [lstrip_chars]. change (is_space (ascii_of_N 10)) with true.
  cbv iota. rewrite Hz.
  simpl. rewrite rev_app_distr, rev_involutive. reflexivity.
Qed.

(** [strip] takes the two final newlines off a text that starts and ends
    with something else. *)
Lemma strip_final_newlines (a z : ascii) (body : string) :
  is_space a = false -> is_space z = false ->
  strip (String a (body ++ String z (nl ++ nl)))
  = String a (body ++ String z "").
Proof.
  intros Ha Hz. unfold strip.
  change (chars (String a (body ++ String z (nl ++ nl))))
    with (a :: chars (body ++ String z (nl ++ nl))).
  rewrite chars_app.
  change (chars (String z (nl ++ nl)))
    with [z; ascii_of_N 10; ascii_of_N 10].
  rewrite strip_chars_final_newlines by assumption.
  change (str_of (a :: (chars body ++ [z])%list))
    with (String a (str_of (chars body ++ [z])%list)).
  rewrite str_of_app, str_of_chars. reflexivity.
Qed.

Lemma strip_script (body : string) :
  strip ("e" ++ nl ++ body ++ "on_finished:" ++ nl ++ "cell_off" ++ nl ++ nl)
  ++ nl ++ nl
  = "e" ++ nl ++ body ++ "on_finished:" ++ nl ++ "cell_off" ++ nl ++ nl.
Proof.
  change ("e" ++ nl ++ body ++ "on_finished:" ++ nl ++ "cell_off" ++ nl ++ nl)
    with (String "e" (nl ++ body ++ ("on_finished:" ++ nl ++ "cell_of")
                         ++ String "f" (nl ++ nl))).
  rewrite <- !append_assoc.
  rewrite strip_final_newlines by reflexivity.
  cbn [append]. f_equal. rewrite !append_assoc. reflexivity.
Qed.

(** X20: the encoders and the sender fit together: when every write is
    accepted, the bytes [run_script] writes for a script that either
    encoder returned are the script itself, byte for byte: [strip] takes
    its two final newlines off and the sender puts them back. *)
Theorem encoded_script_is_sent_verbatim (dev : Runner.device) (fuel : nat)
  (script : string) (r r' : Runner.runner) (b : bool)
  (ex : option Runner.loop_exit) :
  (exists p, create_cv_methodscript p = Ok script)
  \/ (exists p, create_swv_methodscript p = Ok script) ->
  Runner.connection r = true ->
  (forall n, Runner.write_ok dev n = true) ->
  Runner.run_script dev fuel script r = Some (b, ex, r') ->
  written (Runner.trace r') = written (Runner.trace r) ++ script.
Proof.
  intros Hscript Hconn Hok Hrun.
  rewrite (run_script_written dev fuel script r r' b ex Hconn Hok Hrun).
  f_equal.
  assert (Hframe : exists body,
             script = "e" ++ nl ++ body ++ "on_finished:" ++ nl
                      ++ "cell_off" ++ nl ++ nl).
  { destruct Hscript as [[p Hp] | [p Hp]];
      [apply (proj1 script_frame p) | apply (proj2 script_frame p)];
      exact Hp. }
  destruct Hframe as [body ->]. apply strip_script.
Qed.

Lemma encoded_script_is_sent_verbatim_witness :
  written (Runner.trace swv_sent_runner)
  = written (Runner.trace connected_runner) ++ swv_default_script.
Proof.
  apply (encoded_script_is_sent_verbatim silent_device 600
           swv_default_script connected_runner swv_sent_runner true
           (Some Runner.TimedOut)).
  - right. exists swv_defaults. vm_compute. reflexivity.
  - reflexivity.
  - intros n. reflexivity.
  - vm_compute. reflexivity.
Defined.

End PumpTab.
